(** * Gophermart loyalty service: order reconciliation, accrual client,
      balance bookkeeping and order-number validation

    Shallow embedding of the Go packages [utils], [models], [repository],
    [service] and [handlers] of the repository, followed by the properties
    proved about them.

    Conventions of the embedding.
    - A Go [string] is a [string] of bytes.  An [int64], an [int] and an HTTP
      status code are integers of [Z]; where the source can wrap around
      (strconv's unsigned accumulator) the wrap is written out.
    - The monetary columns are [NUMERIC(10, 2)]: a stored amount is the
      integer number of hundredths it denotes, and the sums the ledger
      computes are exact.  The modules [repository], [handlers] and [server]
      carry every amount in that form; they serve the properties of the
      orders, the goroutines and the rows of the ledger, which do not depend
      on how Go computes with an amount.
    - The Go code holds an amount in a [float64].  The functions that
      compute or compare with one ([GetUserBalance], [WithdrawBalance] of the
      repository and the handlers [GetBalance] and [WithdrawBalance]) are
      embedded once more in [repository64] and [handlers64] with IEEE 754
      binary64 arithmetic, the conversions between the column and the
      float64, and the bounds of the columns; the properties of the balance
      and of the withdrawal check are stated there.
    - The ledger is the pair of tables [orders] and [withdrawals]; a table is
      the list of its rows in insertion order.  A statement sent to the
      ledger is executed: lost connections are not modelled inside the
      repository functions, the unique constraint on [orders.number] is.
      The surrogate [id] columns are never read by the modelled code and are
      left out.
    - Calls into the outside world (the HTTP exchange with the accrual
      service, the decoding of a request) are inputs: the caller of a model
      function passes what the call returned. *)

From Stdlib Require Import ZArith List String Ascii Bool Lia DecimalString.
From Stdlib Require Import Sorted Permutation SpecFloat.
Import ListNotations.

Local Open Scope string_scope.
Local Open Scope list_scope.
Local Open Scope Z_scope.

(** ** Go values *)

(** The code point of a byte. *)
Definition code (c : ascii) : Z := Z.of_N (N_of_ascii c).

(** [len(s)] *)
Definition len (s : string) : Z := Z.of_nat (String.length s).

(** [fmt.Sprintf("%d", n)] *)
Definition itoa (n : Z) : string := NilZero.string_of_int (Z.to_int n).

(** ** Package strconv (Go standard library), base 10 only

    [ParseUint], [ParseInt] and [Atoi] follow the library's control flow for
    [base = 10], the only base this program passes.  A result is the pair of
    the returned number and the returned error. *)
Module strconv.

Inductive NumError : Type :=
| ErrSyntax
| ErrRange.

Definition maxUint64 : Z := 18446744073709551615.
Definition IntSize : Z := 64.

(** Arithmetic of [uint64]. *)
Definition wrap64 (n : Z) : Z := n mod 2 ^ 64.

Definition is_digit (c : ascii) : bool :=
  (code "0" <=? code c) && (code c <=? code "9").

(** The loop [for _, c := range []byte(s)] of [ParseUint]; [n] is the
    accumulator.  A letter is a digit of value at least 10, which base 10
    refuses like any other byte. *)
Fixpoint parse_digits (maxVal : Z) (s : string) (n : Z)
  : Z * option NumError :=
  match s with
  | EmptyString => (n, None)
  | String c rest =>
      if is_digit c then
        let d := code c - code "0" in
        let cutoff := maxUint64 / 10 + 1 in
        if cutoff <=? n then (maxVal, Some ErrRange)
        else
          let n := wrap64 (n * 10) in
          let n1 := wrap64 (n + d) in
          if (n1 <? n) || (maxVal <? n1) then (maxVal, Some ErrRange)
          else parse_digits maxVal rest n1
      else (0, Some ErrSyntax)
  end.

Definition ParseUint (s : string) (bitSize : Z) : Z * option NumError :=
  match s with
  | EmptyString => (0, Some ErrSyntax)
  | _ =>
      let bitSize := if bitSize =? 0 then IntSize else bitSize in
      let maxVal := wrap64 (wrap64 (2 ^ bitSize) - 1) in
      parse_digits maxVal s 0
  end.

Definition ParseInt (s : string) (bitSize : Z) : Z * option NumError :=
  match s with
  | EmptyString => (0, Some ErrSyntax)
  | String c0 rest =>
      (* Pick off leading sign. *)
      let neg := Ascii.eqb c0 "-" in
      let s := if Ascii.eqb c0 "+" || Ascii.eqb c0 "-" then rest else s in
      (* Convert unsigned and check range. *)
      let '(un, err) := ParseUint s bitSize in
      match err with
      | Some ErrSyntax => (0, Some ErrSyntax)
      | _ =>
          let bitSize := if bitSize =? 0 then IntSize else bitSize in
          let cutoff := 2 ^ (bitSize - 1) in
          if negb neg && (cutoff <=? un) then (cutoff - 1, Some ErrRange)
          else if neg && (cutoff <? un) then (- cutoff, Some ErrRange)
          else (if neg then - un else un, None)
      end
  end.

(** [Atoi(s)] returns what [ParseInt(s, 10, 0)] returns; its fast path for
    short inputs computes the same number. *)
Definition Atoi (s : string) : Z * option NumError := ParseInt s 0.

End strconv.

(** ** Package utils *)
Module utils.

(** First loop of [ValidateLuhn]: the slice of digits, or [None] where the
    source returns [false] on a rune outside ['0'..'9'].  Every byte of a
    rune that is not ASCII is above ['9'], and so is the replacement rune
    of a malformed sequence, so ranging over runes and over bytes reject
    the same strings. *)
Fixpoint digits_of (number : string) : option (list Z) :=
  match number with
  | EmptyString => Some []
  | String r rest =>
      if (code r <? code "0") || (code "9" <? code r) then None
      else option_map (cons (code r - code "0")) (digits_of rest)
  end.

(** Second loop of [ValidateLuhn], from index [i] with the running [sum]. *)
Fixpoint luhn_loop (parity i : Z) (digits : list Z) (sum : Z) : Z :=
  match digits with
  | [] => sum
  | digit :: rest =>
      let digit :=
        if Z.rem i 2 =? parity then
          let digit := digit * 2 in
          if 9 <? digit then digit - 9 else digit
        else digit in
      luhn_loop parity (i + 1) rest (sum + digit)
  end.

Definition ValidateLuhn (number : string) : bool :=
  match digits_of number with
  | None => false
  | Some digits =>
      let parity := Z.rem (Z.of_nat (List.length digits)) 2 in
      Z.rem (luhn_loop parity 0 digits 0) 10 =? 0
  end.

Definition IsNumeric (s : string) : bool :=
  match strconv.ParseInt s 64 with
  | (_, None) => true
  | (_, Some _) => false
  end.

End utils.

(** ** Go errors

    An [error] is known to the program by where it was made and by its
    message.  The constructors are the places of this repository that make
    one; [ErrExternal] is an error handed over by a library (net/http, io,
    encoding/json, database/sql) with its message. *)
Inductive error : Type :=
| ErrInsufficientFunds                (* errors.New("insufficient funds") *)
| ErrRateLimitedAfter (seconds : Z)   (* fmt.Errorf("rate limited, retry after %d seconds", seconds) *)
| ErrRateLimited                      (* fmt.Errorf("rate limited") *)
| ErrAccrualStatus (status : Z)       (* fmt.Errorf("accrual service returned status %d", resp.StatusCode) *)
| ErrExternal (msg : string).

(** [err.Error()] *)
Definition Error (e : error) : string :=
  match e with
  | ErrInsufficientFunds => "insufficient funds"
  | ErrRateLimitedAfter seconds =>
      "rate limited, retry after " ++ itoa seconds ++ " seconds"
  | ErrRateLimited => "rate limited"
  | ErrAccrualStatus status =>
      "accrual service returned status " ++ itoa status
  | ErrExternal msg => msg
  end.

(** A Go result [(value, error)]. *)
Inductive result (A : Type) : Type :=
| Ok (a : A)
| Err (e : error).
Arguments Ok {A} a.
Arguments Err {A} e.

(** ** Package net/http: the status codes the program names *)
Module http.
Definition StatusOK : Z := 200.
Definition StatusAccepted : Z := 202.
Definition StatusNoContent : Z := 204.
Definition StatusBadRequest : Z := 400.
Definition StatusUnauthorized : Z := 401.
Definition StatusPaymentRequired : Z := 402.
Definition StatusConflict : Z := 409.
Definition StatusUnprocessableEntity : Z := 422.
Definition StatusTooManyRequests : Z := 429.
Definition StatusInternalServerError : Z := 500.
End http.

(** ** Package models *)
Module models.

Record Order : Type := {
  o_Number : string;
  o_UserID : Z;
  o_Status : string;
  o_Accrual : Z;
  o_UploadedAt : Z
}.

Record Balance : Type := {
  b_Current : Z;
  b_Withdrawn : Z
}.

Record Withdrawal : Type := {
  w_UserID : Z;
  w_Order : string;
  w_Sum : Z;
  w_ProcessedAt : Z
}.

Record AccrualResponse : Type := {
  a_Order : string;
  a_Status : string;
  a_Accrual : Z
}.

Definition StatusNew : string := "NEW".
Definition StatusProcessing : string := "PROCESSING".
Definition StatusInvalid : string := "INVALID".
Definition StatusProcessed : string := "PROCESSED".
Definition StatusRegistered : string := "REGISTERED".

Record User : Type := {
  u_ID : Z;
  u_Login : string;
  u_PasswordHash : string;
  u_CreatedAt : Z
}.

End models.
Import models.

(** ** Package repository: the ledger *)
Module repository.

Record DB : Type := {
  orders : list Order;
  withdrawals : list Withdrawal
}.

Definition empty : DB := {| orders := []; withdrawals := [] |}.

(** [SUM(col)] over the selected rows: [NULL] when no row is selected. *)
Definition sql_sum (col : list Z) : option Z :=
  match col with
  | [] => None
  | _ => Some (fold_left Z.add col 0)
  end.

Definition COALESCE (v : option Z) (default : Z) : Z :=
  match v with
  | Some n => n
  | None => default
  end.

(** INSERT INTO orders (user_id, number, status) VALUES ($1, $2, 'NEW');
    [number] is UNIQUE, [accrual] defaults to 0 and [uploaded_at] to the
    current time. *)
Definition CreateOrder (db : DB) (now userID : Z) (orderNumber : string)
  : option error * DB :=
  if existsb (fun o => o_Number o =? orderNumber)%string (orders db) then
    (Some (ErrExternal "duplicate key value violates unique constraint"), db)
  else
    (None,
     {| orders := orders db ++
          [{| o_Number := orderNumber; o_UserID := userID;
              o_Status := StatusNew; o_Accrual := 0;
              o_UploadedAt := now |}];
        withdrawals := withdrawals db |}).

(** SELECT ... FROM orders WHERE number = $1; no row is [(nil, nil)]. *)
Definition GetOrderByNumber (db : DB) (orderNumber : string)
  : result (option Order) :=
  Ok (find (fun o => o_Number o =? orderNumber)%string (orders db)).

(** UPDATE orders SET status = $1, accrual = $2 WHERE number = $3 *)
Definition UpdateOrderStatus (db : DB) (orderNumber status : string)
  (accrual : Z) : option error * DB :=
  (None,
   {| orders :=
        map (fun o =>
               if (o_Number o =? orderNumber)%string then
                 {| o_Number := o_Number o; o_UserID := o_UserID o;
                    o_Status := status; o_Accrual := accrual;
                    o_UploadedAt := o_UploadedAt o |}
               else o)
            (orders db);
      withdrawals := withdrawals db |}).

(** SELECT COALESCE(SUM(accrual), 0) FROM orders
    WHERE user_id = $1 AND status = $2 *)
Definition query_accrual (db : DB) (userID : Z) (status : string) : Z :=
  COALESCE
    (sql_sum
       (map o_Accrual
          (filter (fun o => (o_UserID o =? userID)
                            && (o_Status o =? status)%string)
             (orders db))))
    0.

(** SELECT COALESCE(SUM(sum), 0) FROM withdrawals WHERE user_id = $1 *)
Definition query_withdrawn (db : DB) (userID : Z) : Z :=
  COALESCE
    (sql_sum
       (map w_Sum (filter (fun w => w_UserID w =? userID) (withdrawals db))))
    0.

(** [GetUserBalance] on the decimals of the ledger: the two sums and their
    difference.  [repository64.GetUserBalance] has the float64 fields and
    the float64 subtraction of the Go function. *)
Definition GetUserBalance (db : DB) (userID : Z) : result Balance :=
  (* Get current balance (sum of all processed orders minus withdrawals) *)
  let current := query_accrual db userID StatusProcessed in
  (* Get total withdrawals *)
  let withdrawn := query_withdrawn db userID in
  (* Subtract withdrawn amount from current balance *)
  Ok {| b_Current := current - withdrawn; b_Withdrawn := withdrawn |}.

(** INSERT INTO withdrawals (user_id, order_number, sum, processed_at), for
    a label and an amount that the columns take as they are;
    [repository64.insert_withdrawal] has the bounds of the columns and the
    rounding of the amount. *)
Definition insert_withdrawal (db : DB) (now userID : Z)
  (orderNumber : string) (amount : Z) : option error * DB :=
  (None,
   {| orders := orders db;
      withdrawals := withdrawals db ++
        [{| w_UserID := userID; w_Order := orderNumber; w_Sum := amount;
            w_ProcessedAt := now |}] |}).

Definition WithdrawBalance (db : DB) (now userID : Z)
  (orderNumber : string) (amount : Z) : option error * DB :=
  (* Get current balance *)
  match GetUserBalance db userID with
  | Err err => (Some err, db)
  | Ok balance =>
      (* Check if enough funds *)
      if b_Current balance <? amount then (Some ErrInsufficientFunds, db)
      else
        (* Create withdrawal record *)
        insert_withdrawal db now userID orderNumber amount
  end.

(** [ORDER BY key DESC]: the rows in descending order of the key.  SQL
    leaves the order of rows with equal keys open; here they stay in table
    order. *)
Fixpoint insert_desc {A : Type} (key : A -> Z) (row : A) (sorted : list A)
  : list A :=
  match sorted with
  | [] => [row]
  | first :: rest =>
      if key first <=? key row then row :: sorted
      else first :: insert_desc key row rest
  end.

Definition order_by_desc {A : Type} (key : A -> Z) (rows : list A) : list A :=
  fold_right (insert_desc key) [] rows.

(** SELECT ... FROM orders WHERE user_id = $1 ORDER BY uploaded_at DESC *)
Definition GetUserOrders (db : DB) (userID : Z) : result (list Order) :=
  Ok (order_by_desc o_UploadedAt
        (filter (fun o => o_UserID o =? userID) (orders db))).

(** SELECT ... FROM withdrawals WHERE user_id = $1
    ORDER BY processed_at DESC *)
Definition GetUserWithdrawals (db : DB) (userID : Z)
  : result (list Withdrawal) :=
  Ok (order_by_desc w_ProcessedAt
        (filter (fun w => w_UserID w =? userID) (withdrawals db))).

(** The table [users] with the sequence behind its [id SERIAL] column.  The
    sequence hands out its next value to every INSERT, also to one that the
    unique constraint on [login] then refuses. *)
Record Users : Type := {
  user_rows : list User;
  user_seq : Z
}.

Definition no_users : Users := {| user_rows := []; user_seq := 1 |}.

(** INSERT INTO users (login, password_hash) VALUES ($1, $2) RETURNING id *)
Definition CreateUser (users : Users) (now : Z) (login passwordHash : string)
  : result Z * Users :=
  let id := user_seq users in
  if existsb (fun u => u_Login u =? login)%string (user_rows users) then
    (Err (ErrExternal "duplicate key value violates unique constraint"),
     {| user_rows := user_rows users; user_seq := id + 1 |})
  else
    (Ok id,
     {| user_rows := user_rows users ++
          [{| u_ID := id; u_Login := login; u_PasswordHash := passwordHash;
              u_CreatedAt := now |}];
        user_seq := id + 1 |}).

(** SELECT ... FROM users WHERE login = $1; no row is [(nil, nil)]. *)
Definition GetUserByLogin (users : Users) (login : string)
  : result (option User) :=
  Ok (find (fun u => u_Login u =? login)%string (user_rows users)).

(** SELECT ... FROM users WHERE id = $1; no row is [(nil, nil)]. *)
Definition GetUserByID (users : Users) (id : Z) : result (option User) :=
  Ok (find (fun u => u_ID u =? id) (user_rows users)).

End repository.
Import repository.

(** ** Package middleware

    The library that signs and parses the tokens is outside: [parse] stands
    for [jwt.ParseWithClaims] with the secret of the server, and gives the
    user id of the claims of a token it finds valid. *)
Module middleware.

Definition bearerSchema : string := "Bearer ".

(** [strings.HasPrefix] and [strings.TrimPrefix] *)
Definition HasPrefix (s prefix : string) : bool := String.prefix prefix s.

Definition TrimPrefix (s prefix : string) : string :=
  if HasPrefix s prefix then
    substring (String.length prefix) (String.length s - String.length prefix) s
  else s.

(** [extractToken]: [authHeader] is [r.Header.Get("Authorization")],
    [cookie] the value of the cookie auth_token when the request has it. *)
Definition extractToken (authHeader : string) (cookie : option string)
  : string :=
  (* Try from Authorization header first *)
  if negb (authHeader =? "")%string && HasPrefix authHeader bearerSchema then
    TrimPrefix authHeader bearerSchema
  else
    (* Try from cookie *)
    match cookie with
    | Some value => value
    | None => ""
    end.

(** [AuthMiddleware]: the status code it answers itself, or the user id it
    puts into the context of the request it hands on. *)
Definition AuthMiddleware (parse : string -> option Z) (users : Users)
  (authHeader : string) (cookie : option string) : Z + Z :=
  (* Extract token from Authorization header or cookie *)
  let tokenString := extractToken authHeader cookie in
  if (tokenString =? "")%string then inl http.StatusUnauthorized
  else
    (* Parse token *)
    match parse tokenString with
    | None => inl http.StatusUnauthorized
    | Some userID =>
        (* Verify that user exists in database *)
        match GetUserByID users userID with
        | Err _ => inl http.StatusUnauthorized
        | Ok None => inl http.StatusUnauthorized
        | Ok (Some _) => inr userID
        end
    end.

End middleware.

(** ** Package service *)
Module service.

(** What one GET to the accrual service came to. *)
Inductive BodyOutcome : Type :=
| ReadFailed (msg : string)       (* io.ReadAll returned an error *)
| Malformed (msg : string)        (* json.Unmarshal returned an error *)
| Decoded (r : AccrualResponse).

Record Response : Type := {
  StatusCode : Z;
  RetryAfter : string;            (* resp.Header.Get("Retry-After") *)
  Body : BodyOutcome
}.

Inductive Exchange : Type :=
| RequestFailed (msg : string)    (* http.NewRequestWithContext failed *)
| TransportFailed (msg : string)  (* httpClient.Do failed: no answer, deadline *)
| Responded (resp : Response).

Definition GetOrderAccrual (orderNumber : string) (x : Exchange)
  : result (option AccrualResponse) :=
  match x with
  | RequestFailed msg => Err (ErrExternal msg)
  | TransportFailed msg => Err (ErrExternal msg)
  | Responded resp =>
      (* Handle rate limiting *)
      if StatusCode resp =? http.StatusTooManyRequests then
        let retryAfter := RetryAfter resp in
        if negb (retryAfter =? "")%string then
          match strconv.Atoi retryAfter with
          | (seconds, None) => Err (ErrRateLimitedAfter seconds)
          | (_, Some _) => Err ErrRateLimited
          end
        else Err ErrRateLimited
      (* Handle 204 No Content (order not registered) *)
      else if StatusCode resp =? http.StatusNoContent then Ok None
      (* Handle other errors *)
      else if negb (StatusCode resp =? http.StatusOK) then
        Err (ErrAccrualStatus (StatusCode resp))
      else
        (* Parse the response *)
        match Body resp with
        | ReadFailed msg => Err (ErrExternal msg)
        | Malformed msg => Err (ErrExternal msg)
        | Decoded accrualResp => Ok (Some accrualResp)
        end
  end.

(** The verdict is final. *)
Definition final (status : string) : bool :=
  (status =? StatusProcessed)%string || (status =? StatusInvalid)%string.

Definition Second : Z := 1000000000.

Record OrderProcessor : Type := { interval : Z }.

Definition NewOrderProcessor : OrderProcessor :=
  {| interval := 5 * Second |}.

(** The body of [processPendingOrders] is empty. *)
Definition processPendingOrders (db : DB) : DB := db.

(** One round of the [select] of [processLoop]: the ticker fired, or the
    stop channel was closed and the loop returns. *)
Inductive Signal : Type := Tick | Stop.

Definition processLoop_round (db : DB) (sig : Signal) : DB * bool :=
  match sig with
  | Tick => (processPendingOrders db, true)
  | Stop => (db, false)
  end.

(** [OrderProcessor.processOrder]: the ledger afterwards and whether
    [GetOrderAccrual] was called.  [x] is what the call comes to when it
    is made. *)
Definition processOrder (db : DB) (order : Order) (x : Exchange)
  : DB * bool :=
  (* Skip already processed orders *)
  if final (o_Status order) then (db, false)
  else
    (* Update status to PROCESSING if it's NEW *)
    let '(err, db) :=
      if (o_Status order =? StatusNew)%string then
        UpdateOrderStatus db (o_Number order) StatusProcessing 0
      else (None, db) in
    match err with
    | Some _ => (db, false)
    | None =>
        (* Get accrual information *)
        match GetOrderAccrual (o_Number order) x with
        | Err _ => (db, true)
        | Ok accrualResp =>
            (* If no response or not final status, skip for now *)
            match accrualResp with
            | None => (db, true)
            | Some accrualResp =>
                if negb (final (a_Status accrualResp)) then (db, true)
                else
                  (* Update order with final status *)
                  (snd (UpdateOrderStatus db (o_Number order)
                          (a_Status accrualResp) (a_Accrual accrualResp)),
                   true)
            end
        end
    end.

End service.
Import service.

(** ** Package handlers

    A handler takes the ledger, the time, what the middleware left in the
    request context ([userID], [None] when [GetUserID] fails) and what
    reading or decoding the request body came to.  It returns the status
    code written to the response and the ledger afterwards. *)
Module handlers.

(** The request struct of [WithdrawBalance], its sum a decimal of the
    ledger; [handlers64.WithdrawRequest] carries the float64. *)
Record WithdrawRequest : Type := {
  Order : string;
  Sum : Z
}.

(** [UploadOrder] also returns the order number for which it starts the
    goroutine [go h.processOrder(orderNumber)]. *)
Definition UploadOrder (db : DB) (now : Z) (userID : option Z)
  (body : result string) : Z * DB * option string :=
  (* Get user ID from context *)
  match userID with
  | None => (http.StatusUnauthorized, db, None)
  | Some userID =>
      (* Read order number *)
      match body with
      | Err _ => (http.StatusBadRequest, db, None)
      | Ok orderNumber =>
          if (orderNumber =? "")%string then
            (http.StatusBadRequest, db, None)
          (* Validate order number with Luhn algorithm *)
          else if negb (utils.IsNumeric orderNumber)
                  || negb (utils.ValidateLuhn orderNumber) then
            (http.StatusUnprocessableEntity, db, None)
          else
            (* Check if order already exists *)
            match GetOrderByNumber db orderNumber with
            | Err _ => (http.StatusInternalServerError, db, None)
            | Ok (Some existingOrder) =>
                (* If order exists and belongs to this user, return 200 *)
                if o_UserID existingOrder =? userID then
                  (http.StatusOK, db, None)
                (* If order exists but belongs to another user, return 409 *)
                else (http.StatusConflict, db, None)
            | Ok None =>
                (* Create order *)
                match CreateOrder db now userID orderNumber with
                | (Some _, db) => (http.StatusInternalServerError, db, None)
                | (None, db) =>
                    (* Start processing the order *)
                    (http.StatusAccepted, db, Some orderNumber)
                end
            end
      end
  end.

Definition GetBalance (db : DB) (userID : option Z) : Z * option Balance :=
  match userID with
  | None => (http.StatusUnauthorized, None)
  | Some userID =>
      match GetUserBalance db userID with
      | Err _ => (http.StatusInternalServerError, None)
      | Ok balance => (http.StatusOK, Some balance)
      end
  end.

(** The part of [WithdrawBalance] before the ledger is consulted: the
    status code of an early return, or the arguments of the call to the
    repository. *)
Definition withdraw_admit (userID : option Z) (req : result WithdrawRequest)
  : Z + (Z * string * Z) :=
  (* Get user ID from context *)
  match userID with
  | None => inl http.StatusUnauthorized
  | Some userID =>
      (* Parse request *)
      match req with
      | Err _ => inl http.StatusBadRequest
      | Ok req =>
          (* Validate order number with Luhn algorithm *)
          if negb (utils.IsNumeric (Order req))
             || negb (utils.ValidateLuhn (Order req)) then
            inl http.StatusUnprocessableEntity
          else inr (userID, Order req, Sum req)
      end
  end.

(** The part of [WithdrawBalance] after the repository has returned. *)
Definition withdraw_reply (err : option error) : Z :=
  match err with
  | Some err =>
      if (Error err =? "insufficient funds")%string then
        http.StatusPaymentRequired
      else http.StatusInternalServerError
  | None => http.StatusOK
  end.

Definition WithdrawBalance (db : DB) (now : Z) (userID : option Z)
  (req : result WithdrawRequest) : Z * DB :=
  match withdraw_admit userID req with
  | inl status => (status, db)
  | inr (userID, order, sum) =>
      (* Process withdrawal *)
      let '(err, db) := repository.WithdrawBalance db now userID order sum in
      (withdraw_reply err, db)
  end.

(** [Handler.processOrder], run without interruption; [x] is what the
    call to the accrual service comes to. *)
Definition processOrder (db : DB) (orderNumber : string) (x : Exchange)
  : DB :=
  (* Set initial status *)
  let '(err, db) :=
    UpdateOrderStatus db orderNumber StatusProcessing 0 in
  match err with
  | Some _ => db
  | None =>
      (* Get accrual from external service *)
      match GetOrderAccrual orderNumber x with
      | Err _ => db
      | Ok None => db
      | Ok (Some accrualResp) =>
          (* If status is final, update order *)
          if final (a_Status accrualResp) then
            snd (UpdateOrderStatus db orderNumber
                   (a_Status accrualResp) (a_Accrual accrualResp))
          else db
      end
  end.

(** The request struct of [RegisterUser] and [LoginUser]. *)
Record Credentials : Type := {
  Login : string;
  Password : string
}.

(** [RegisterUser]: [hashed] is what [bcrypt.GenerateFromPassword] returned,
    [token] what [middleware.GenerateToken] returned.  With 200 the token is
    set as cookie and as Authorization header "Bearer " + token. *)
Definition RegisterUser (users : Users) (now : Z) (req : result Credentials)
  (hashed token : result string) : Z * Users * option string :=
  (* Parse request *)
  match req with
  | Err _ => (http.StatusBadRequest, users, None)
  | Ok req =>
      if (Login req =? "")%string || (Password req =? "")%string then
        (http.StatusBadRequest, users, None)
      else
        (* Check if user already exists *)
        match GetUserByLogin users (Login req) with
        | Err _ => (http.StatusInternalServerError, users, None)
        | Ok (Some _) => (http.StatusConflict, users, None)
        | Ok None =>
            (* Hash password *)
            match hashed with
            | Err _ => (http.StatusInternalServerError, users, None)
            | Ok hashedPassword =>
                (* Create user *)
                match CreateUser users now (Login req) hashedPassword with
                | (Err _, users) =>
                    (http.StatusInternalServerError, users, None)
                | (Ok _, users) =>
                    (* Generate token *)
                    match token with
                    | Err _ => (http.StatusInternalServerError, users, None)
                    | Ok token =>
                        (http.StatusOK, users,
                         Some (middleware.bearerSchema ++ token)%string)
                    end
                end
            end
        end
  end.

(** [LoginUser]: [compare] tells, for the stored hash, whether
    [bcrypt.CompareHashAndPassword] accepts the password of the request. *)
Definition LoginUser (users : Users) (req : result Credentials)
  (compare : string -> string -> bool) (token : result string)
  : Z * option string :=
  match req with
  | Err _ => (http.StatusBadRequest, None)
  | Ok req =>
      if (Login req =? "")%string || (Password req =? "")%string then
        (http.StatusBadRequest, None)
      else
        (* Get user *)
        match GetUserByLogin users (Login req) with
        | Err _ => (http.StatusInternalServerError, None)
        | Ok None => (http.StatusUnauthorized, None)
        | Ok (Some user) =>
            (* Check password *)
            if negb (compare (u_PasswordHash user) (Password req)) then
              (http.StatusUnauthorized, None)
            else
              (* Generate token *)
              match token with
              | Err _ => (http.StatusInternalServerError, None)
              | Ok token =>
                  (http.StatusOK,
                   Some (middleware.bearerSchema ++ token)%string)
              end
        end
  end.

(** The entries of the response of [GetOrders]. *)
Record orderResponse : Type := {
  or_Number : string;
  or_Status : string;
  or_Accrual : Z;
  or_UploadedAt : Z
}.

(** [GetOrders]: the status code and, with 200, the entries that are
    encoded into the body. *)
Definition GetOrders (db : DB) (userID : option Z)
  : Z * option (list orderResponse) :=
  (* Get user ID from context *)
  match userID with
  | None => (http.StatusUnauthorized, None)
  | Some userID =>
      (* Get orders *)
      match GetUserOrders db userID with
      | Err _ => (http.StatusInternalServerError, None)
      | Ok orders =>
          (* If no orders, return 204 *)
          if Z.of_nat (List.length orders) =? 0 then
            (http.StatusNoContent, None)
          else
            (http.StatusOK,
             Some (map (fun order =>
                          {| or_Number := o_Number order;
                             or_Status := o_Status order;
                             (* Only include accrual if status is PROCESSED *)
                             or_Accrual :=
                               if (o_Status order =? StatusProcessed)%string
                               then o_Accrual order else 0;
                             or_UploadedAt := o_UploadedAt order |})
                       orders))
      end
  end.

(** The entries of the response of [GetWithdrawals]. *)
Record withdrawalResponse : Type := {
  wr_Order : string;
  wr_Sum : Z;
  wr_ProcessedAt : Z
}.

Definition GetWithdrawals (db : DB) (userID : option Z)
  : Z * option (list withdrawalResponse) :=
  (* Get user ID from context *)
  match userID with
  | None => (http.StatusUnauthorized, None)
  | Some userID =>
      (* Get withdrawals *)
      match GetUserWithdrawals db userID with
      | Err _ => (http.StatusInternalServerError, None)
      | Ok withdrawals =>
          (* If no withdrawals, return 204 *)
          if Z.of_nat (List.length withdrawals) =? 0 then
            (http.StatusNoContent, None)
          else
            (http.StatusOK,
             Some (map (fun w =>
                          {| wr_Order := w_Order w; wr_Sum := w_Sum w;
                             wr_ProcessedAt := w_ProcessedAt w |})
                       withdrawals))
      end
  end.

End handlers.

(** ** The running server

    The request handlers, the goroutines started by [UploadOrder] and the
    ticker of the order processor run concurrently over the one ledger.  A
    state of the server holds the ledger, every goroutine and every
    withdrawal in flight with the point it has reached, and the clock.  An
    event is one atomic action: one statement of a goroutine or of
    [repository.WithdrawBalance], or the whole of [UploadOrder], whose only
    write is its last statement and is guarded by the unique constraint, so
    that running it in one piece loses no outcome on the ledger.  [polls]
    and [replies] are history: the calls made to the accrual service, and
    the status codes answered to withdrawal requests.  Amounts are the
    decimals of the ledger, and a withdrawal is checked as in
    [repository.WithdrawBalance]; the float64 check is that of
    [repository64.WithdrawBalance]. *)
Module server.

(** Where a goroutine [Handler.processOrder] stands. *)
Inductive Point : Type :=
| SetProcessing                              (* before the first UpdateOrderStatus *)
| Fetch                                      (* before GetOrderAccrual *)
| WriteFinal (accrualResp : AccrualResponse) (* before the second UpdateOrderStatus *).

Record Goroutine : Type := {
  g_order : string;
  g_at : Point
}.

(** Where a call of [repository.WithdrawBalance] stands. *)
Inductive WPoint : Type :=
| ReadAccrual                      (* before the first query of GetUserBalance *)
| ReadWithdrawn (current : Z)      (* before its second query *)
| Insert.                          (* the check passed, before the INSERT *)

Record Withdrawing : Type := {
  wd_id : Z;
  wd_userID : Z;
  wd_order : string;
  wd_amount : Z;
  wd_at : WPoint
}.

Record Poll : Type := {
  p_time : Z;
  p_order : string;
  p_result : result (option AccrualResponse)
}.

Record State : Type := {
  ledger : DB;
  goroutines : list Goroutine;
  withdrawing : list Withdrawing;
  next_id : Z;
  clock : Z;
  polls : list Poll;
  replies : list (Z * Z)
}.

Definition init : State :=
  {| ledger := repository.empty; goroutines := []; withdrawing := [];
     next_id := 0; clock := 0; polls := []; replies := [] |}.

Inductive Event : Type :=
| Upload (userID : option Z) (body : result string)
| Advance (orderNumber : string) (x : Exchange)
    (* the goroutine of this order executes up to its next statement *)
| Cancel (orderNumber : string)
    (* the statement of the goroutine fails (deadline, connection): it returns *)
| Sweep
    (* the ticker fires: processPendingOrders *)
| Withdraw (userID : option Z) (req : result handlers.WithdrawRequest)
    (* a withdrawal request arrives and is validated *)
| WithdrawStep (id : Z)
    (* the withdrawal in flight executes its next statement *)
| Elapse (seconds : Z).

Definition set_ledger (s : State) (db : DB) : State :=
  {| ledger := db; goroutines := goroutines s;
     withdrawing := withdrawing s; next_id := next_id s; clock := clock s;
     polls := polls s; replies := replies s |}.

Definition set_goroutines (s : State) (gs : list Goroutine) : State :=
  {| ledger := ledger s; goroutines := gs;
     withdrawing := withdrawing s; next_id := next_id s; clock := clock s;
     polls := polls s; replies := replies s |}.

Definition set_withdrawing (s : State) (ws : list Withdrawing) : State :=
  {| ledger := ledger s; goroutines := goroutines s;
     withdrawing := ws; next_id := next_id s; clock := clock s;
     polls := polls s; replies := replies s |}.

Definition add_poll (s : State) (p : Poll) : State :=
  {| ledger := ledger s; goroutines := goroutines s;
     withdrawing := withdrawing s; next_id := next_id s; clock := clock s;
     polls := polls s ++ [p]; replies := replies s |}.

Definition add_reply (s : State) (id status : Z) : State :=
  {| ledger := ledger s; goroutines := goroutines s;
     withdrawing := withdrawing s; next_id := next_id s; clock := clock s;
     polls := polls s; replies := replies s ++ [(id, status)] |}.

Definition fresh_id (s : State) : State :=
  {| ledger := ledger s; goroutines := goroutines s;
     withdrawing := withdrawing s; next_id := next_id s + 1;
     clock := clock s; polls := polls s; replies := replies s |}.

Definition set_clock (s : State) (t : Z) : State :=
  {| ledger := ledger s; goroutines := goroutines s;
     withdrawing := withdrawing s; next_id := next_id s; clock := t;
     polls := polls s; replies := replies s |}.

Definition goroutine_of (s : State) (orderNumber : string)
  : option Goroutine :=
  find (fun g => g_order g =? orderNumber)%string (goroutines s).

Definition without_goroutine (s : State) (orderNumber : string)
  : list Goroutine :=
  filter (fun g => negb (g_order g =? orderNumber)%string) (goroutines s).

Definition at_point (s : State) (orderNumber : string) (pt : Point)
  : list Goroutine :=
  map (fun g => if (g_order g =? orderNumber)%string
                then {| g_order := orderNumber; g_at := pt |} else g)
      (goroutines s).

Definition withdrawing_of (s : State) (id : Z) : option Withdrawing :=
  find (fun w => wd_id w =? id) (withdrawing s).

Definition without_withdrawing (s : State) (id : Z) : list Withdrawing :=
  filter (fun w => negb (wd_id w =? id)) (withdrawing s).

Definition at_wpoint (s : State) (id : Z) (pt : WPoint)
  : list Withdrawing :=
  map (fun w => if wd_id w =? id
                then {| wd_id := id; wd_userID := wd_userID w;
                        wd_order := wd_order w; wd_amount := wd_amount w;
                        wd_at := pt |}
                else w)
      (withdrawing s).

(** One statement of the goroutine [Handler.processOrder(orderNumber)]. *)
Definition advance (s : State) (orderNumber : string) (x : Exchange)
  : State :=
  match goroutine_of s orderNumber with
  | None => s
  | Some g =>
      match g_at g with
      | SetProcessing =>
          (* Set initial status *)
          match UpdateOrderStatus (ledger s) orderNumber StatusProcessing 0 with
          | (Some _, db) =>
              set_goroutines (set_ledger s db) (without_goroutine s orderNumber)
          | (None, db) =>
              set_goroutines (set_ledger s db) (at_point s orderNumber Fetch)
          end
      | Fetch =>
          (* Get accrual from external service *)
          let r := GetOrderAccrual orderNumber x in
          let s := add_poll s {| p_time := clock s; p_order := orderNumber;
                                 p_result := r |} in
          match r with
          | Err _ => set_goroutines s (without_goroutine s orderNumber)
          | Ok None => set_goroutines s (without_goroutine s orderNumber)
          | Ok (Some accrualResp) =>
              (* If status is final, update order *)
              if final (a_Status accrualResp) then
                set_goroutines s
                  (at_point s orderNumber (WriteFinal accrualResp))
              else set_goroutines s (without_goroutine s orderNumber)
          end
      | WriteFinal accrualResp =>
          let db := snd (UpdateOrderStatus (ledger s) orderNumber
                           (a_Status accrualResp) (a_Accrual accrualResp)) in
          set_goroutines (set_ledger s db) (without_goroutine s orderNumber)
      end
  end.

(** One statement of a call of [repository.WithdrawBalance], and the
    reply of the handler when the call returns. *)
Definition withdraw_step (s : State) (id : Z) : State :=
  match withdrawing_of s id with
  | None => s
  | Some w =>
      match wd_at w with
      | ReadAccrual =>
          let current :=
            query_accrual (ledger s) (wd_userID w) StatusProcessed in
          set_withdrawing s (at_wpoint s id (ReadWithdrawn current))
      | ReadWithdrawn current =>
          let withdrawn := query_withdrawn (ledger s) (wd_userID w) in
          let balance :=
            {| b_Current := current - withdrawn; b_Withdrawn := withdrawn |} in
          (* Check if enough funds *)
          if b_Current balance <? wd_amount w then
            add_reply (set_withdrawing s (without_withdrawing s id)) id
              (handlers.withdraw_reply (Some ErrInsufficientFunds))
          else set_withdrawing s (at_wpoint s id Insert)
      | Insert =>
          (* Create withdrawal record *)
          let '(err, db) :=
            insert_withdrawal (ledger s) (clock s) (wd_userID w)
              (wd_order w) (wd_amount w) in
          add_reply
            (set_withdrawing (set_ledger s db) (without_withdrawing s id))
            id (handlers.withdraw_reply err)
      end
  end.

Definition step (s : State) (e : Event) : State :=
  match e with
  | Upload userID body =>
      match handlers.UploadOrder (ledger s) (clock s) userID body with
      | (_, db, Some orderNumber) =>
          set_goroutines (set_ledger s db)
            (goroutines s ++
               [{| g_order := orderNumber; g_at := SetProcessing |}])
      | (_, db, None) => set_ledger s db
      end
  | Advance orderNumber x => advance s orderNumber x
  | Cancel orderNumber =>
      set_goroutines s (without_goroutine s orderNumber)
  | Sweep => set_ledger s (processPendingOrders (ledger s))
  | Withdraw userID req =>
      let id := next_id s in
      match handlers.withdraw_admit userID req with
      | inl status => add_reply (fresh_id s) id status
      | inr (userID, order, sum) =>
          set_withdrawing (fresh_id s)
            (withdrawing s ++
               [{| wd_id := id; wd_userID := userID; wd_order := order;
                   wd_amount := sum; wd_at := ReadAccrual |}])
      end
  | WithdrawStep id => withdraw_step s id
  | Elapse seconds => set_clock s (clock s + Z.max 0 seconds)
  end.

Definition run (s : State) (events : list Event) : State :=
  fold_left step events s.

End server.

(** ** Go's float64

    The monetary fields of the Go structs ([Balance.Current],
    [Balance.Withdrawn], the [Sum] of a withdrawal request) are [float64]:
    IEEE 754 binary64 numbers, here the [spec_float] of the standard library
    at precision 53 with exponents up to 1024.  The operations round to
    nearest, ties to even, as the Go operators do. *)
Module float64.

Definition t : Type := spec_float.

Definition prec : Z := 53.
Definition emax : Z := 1024.

(** An integer as the operand of a division: its exact value. *)
Definition of_int (n : Z) : t :=
  match n with
  | Z0 => S754_zero false
  | Zpos m => S754_finite false m 0
  | Zneg m => S754_finite true m 0
  end.

Definition zero : t := S754_zero false.

(** [x - y] *)
Definition sub (x y : t) : t := SFsub prec emax x y.

(** [x < y], [x <= y] and [x == y]; all false when an operand is not a
    number. *)
Definition ltb (x y : t) : bool := SFltb x y.
Definition leb (x y : t) : bool := SFleb x y.
Definition eqb (x y : t) : bool := SFeqb x y.

(** The float64 that the decimal number [digits / 10^places] reads as: the
    nearest float64, which is the IEEE quotient of the two integers.  This
    is what [strconv.ParseFloat] and the JSON decoder return for the text
    ["0.015"] ([digits = 15], [places = 3]). *)
Definition of_decimal (digits places : Z) : t :=
  SFdiv prec emax (of_int digits) (of_int (10 ^ places)).

(** A number written with two decimals, as the ledger writes its amounts. *)
Definition of_hundredths (hundredths : Z) : t := of_decimal hundredths 2.

(** [scale] times the finite float64 [m * 2^e], as a fraction. *)
Definition scaled (scale : Z) (m : positive) (e : Z) : Z * Z :=
  if 0 <=? e then (Zpos m * scale * 2 ^ e, 1)
  else (Zpos m * scale, 2 ^ (- e)).

(** The integer nearest to a fraction that is not negative, a tie going
    up. *)
Definition nearest (fraction : Z * Z) : Z :=
  let '(n, d) := fraction in (2 * n + d) / (2 * d).

(** Whether the exact value of [x] is strictly above [hundredths / 100]. *)
Definition above_hundredths (x : t) (hundredths : Z) : bool :=
  match x with
  | S754_zero _ => hundredths <? 0
  | S754_finite s m e =>
      let mantissa := if s then Zneg m else Zpos m in
      if 0 <=? e then hundredths <? mantissa * 100 * 2 ^ e
      else hundredths * 2 ^ (- e) <? mantissa * 100
  | S754_infinity s => negb s
  | S754_nan => false
  end.

End float64.

(** ** Package database/sql with the pgx driver: amounts in and out of the
       ledger *)
Module sql.

(** [row.Scan(&f)] of a [NUMERIC] value into a [float64]: the driver hands
    over the decimal text and [database/sql] converts it with
    [strconv.ParseFloat], which fails beyond the range of a float64. *)
Definition Scan (numeric : Z) : result float64.t :=
  match float64.of_hundredths numeric with
  | S754_infinity _ => Err (ErrExternal "value out of range")
  | f => Ok f
  end.

(** A float64 argument on its way into a column [NUMERIC(10, 2)].  The
    driver sends the shortest decimal text that reads back as [x]
    ([strconv.FormatFloat(x, 'f', -1, 64)]), and the column rounds that
    decimal to two places, a tie going away from zero.

    A decimal with at most three places reads back as [x] only if it is the
    thousandth nearest to [x]; then it is the text, and it is rounded.
    When no such decimal reads back as [x], the text and [x] lie on the same
    side of every half hundredth, and [x] itself is rounded. *)
Definition rounded_to_hundredths (x : float64.t) : option Z :=
  match x with
  | S754_zero _ => Some 0
  | S754_finite s m e =>
      let thousandths := float64.nearest (float64.scaled 1000 m e) in
      let magnitude :=
        if float64.eqb (float64.of_decimal thousandths 3)
                       (S754_finite false m e)
        then float64.nearest (thousandths, 10)
        else float64.nearest (float64.scaled 100 m e) in
      Some (if s then - magnitude else magnitude)
  | _ => None
  end.

(** The column [NUMERIC(10, 2)] given the float64 [x]: the rounded value is
    refused when it needs more than eight digits before the point.  [None]
    is the failure of the statement. *)
Definition numeric_10_2 (x : float64.t) : option Z :=
  match rounded_to_hundredths x with
  | Some hundredths =>
      if Z.abs hundredths <? 10 ^ 10 then Some hundredths else None
  | None => None
  end.

End sql.

(** ** Package repository: the statements that compute on float64

    [GetUserBalance] and [WithdrawBalance] once more, with the arithmetic of
    the Go code: the two sums are computed by the ledger on the stored
    decimals and scanned into float64 fields, the subtraction and the
    comparison with the requested amount are float64 operations, and the
    INSERT hands the float64 amount to the column [sum NUMERIC(10, 2)] and
    the label to [order_number VARCHAR(255)].

    How the driver and the server turn a float64 argument into the stored
    decimal is not part of this repository: it is the parameter [store],
    which returns the stored hundredths, or nothing when the statement
    fails.  The properties hold for every [store]; the examples take
    [sql.numeric_10_2].  The user of a statement is a row of [users], as
    for every request that passed the middleware. *)
Module repository64.

Record Balance : Type := {
  Current : float64.t;
  Withdrawn : float64.t
}.

(** The two [Scan]s and the subtraction of [GetUserBalance], given what the
    two queries selected. *)
Definition balance_of (accrued withdrawn : Z) : result Balance :=
  match sql.Scan accrued with
  | Err err => Err err
  | Ok current =>
      match sql.Scan withdrawn with
      | Err err => Err err
      | Ok withdrawn =>
          (* Subtract withdrawn amount from current balance *)
          Ok {| Current := float64.sub current withdrawn;
                Withdrawn := withdrawn |}
      end
  end.

Definition GetUserBalance (db : DB) (userID : Z) : result Balance :=
  balance_of (query_accrual db userID StatusProcessed)
             (query_withdrawn db userID).

Section Statements.

Variable store : float64.t -> option Z.

(** INSERT INTO withdrawals (user_id, order_number, sum, processed_at).  The
    labels that reach this statement are digit strings, one byte to the
    character. *)
Definition insert_withdrawal (db : DB) (now userID : Z)
  (orderNumber : string) (amount : float64.t) : option error * DB :=
  if 255 <? len orderNumber then
    (Some (ErrExternal "value too long for type character varying(255)"), db)
  else
    match store amount with
    | None => (Some (ErrExternal "numeric field overflow"), db)
    | Some sum =>
        (None,
         {| orders := orders db;
            withdrawals := withdrawals db ++
              [{| w_UserID := userID; w_Order := orderNumber; w_Sum := sum;
                  w_ProcessedAt := now |}] |})
    end.

Definition WithdrawBalance (db : DB) (now userID : Z)
  (orderNumber : string) (amount : float64.t) : option error * DB :=
  (* Get current balance *)
  match GetUserBalance db userID with
  | Err err => (Some err, db)
  | Ok balance =>
      (* Check if enough funds *)
      if float64.ltb (Current balance) amount then
        (Some ErrInsufficientFunds, db)
      else
        (* Create withdrawal record *)
        insert_withdrawal db now userID orderNumber amount
  end.

(** The same call when other writers run between its statements: the first
    SELECT reads the ledger [atAccrual], the second [atWithdrawn], and the
    INSERT goes into the ledger [atInsert]. *)
Definition WithdrawBalance_interleaved (atAccrual atWithdrawn atInsert : DB)
  (now userID : Z) (orderNumber : string) (amount : float64.t)
  : option error * DB :=
  match balance_of (query_accrual atAccrual userID StatusProcessed)
                   (query_withdrawn atWithdrawn userID) with
  | Err err => (Some err, atInsert)
  | Ok balance =>
      if float64.ltb (Current balance) amount then
        (Some ErrInsufficientFunds, atInsert)
      else insert_withdrawal atInsert now userID orderNumber amount
  end.

End Statements.

End repository64.

(** ** Package handlers: the handlers of the balance, on float64 *)
Module handlers64.

(** The request struct of [WithdrawBalance]; the JSON decoder reads the
    number of the body into [Sum] as [float64.of_decimal] does. *)
Record WithdrawRequest : Type := {
  Order : string;
  Sum : float64.t
}.

Definition GetBalance (db : DB) (userID : option Z)
  : Z * option repository64.Balance :=
  match userID with
  | None => (http.StatusUnauthorized, None)
  | Some userID =>
      match repository64.GetUserBalance db userID with
      | Err _ => (http.StatusInternalServerError, None)
      | Ok balance => (http.StatusOK, Some balance)
      end
  end.

Definition WithdrawBalance (store : float64.t -> option Z) (db : DB)
  (now : Z) (userID : option Z) (req : result WithdrawRequest) : Z * DB :=
  (* Get user ID from context *)
  match userID with
  | None => (http.StatusUnauthorized, db)
  | Some userID =>
      (* Parse request *)
      match req with
      | Err _ => (http.StatusBadRequest, db)
      | Ok req =>
          (* Validate order number with Luhn algorithm *)
          if negb (utils.IsNumeric (Order req))
             || negb (utils.ValidateLuhn (Order req)) then
            (http.StatusUnprocessableEntity, db)
          else
            (* Process withdrawal *)
            let '(err, db) :=
              repository64.WithdrawBalance store db now userID
                (Order req) (Sum req) in
            (handlers.withdraw_reply err, db)
      end
  end.

End handlers64.

(** ** Vocabulary of the properties *)

(** The string holds a byte that is not a decimal digit. *)
Definition has_non_digit (s : string) : bool :=
  existsb (fun c => negb (strconv.is_digit c)) (list_ascii_of_string s).

(** The string is made of decimal digits, at least one. *)
Definition all_digits (s : string) : bool :=
  negb (s =? "")%string && forallb strconv.is_digit (list_ascii_of_string s).

(** The number a string of decimal digits denotes, read after [n]. *)
Fixpoint dec_value_from (n : Z) (s : string) : Z :=
  match s with
  | EmptyString => n
  | String c rest => dec_value_from (n * 10 + (code c - code "0")) rest
  end.

Definition dec_value (s : string) : Z := dec_value_from 0 s.

Definition starts_with_zero (s : string) : bool :=
  match s with
  | String c _ => Ascii.eqb c "0"
  | EmptyString => false
  end.

Definition maxInt64 : Z := 9223372036854775807.

(** The balance as the specification words it: the sum of the accruals of
    the PROCESSED orders of the user, and the sum of the user's
    withdrawals. *)
Fixpoint spec_accrued (os : list Order) (userID : Z) : Z :=
  match os with
  | [] => 0
  | o :: rest =>
      (if (o_UserID o =? userID) && (o_Status o =? StatusProcessed)%string
       then o_Accrual o else 0)
      + spec_accrued rest userID
  end.

Fixpoint spec_withdrawn (ws : list Withdrawal) (userID : Z) : Z :=
  match ws with
  | [] => 0
  | w :: rest =>
      (if w_UserID w =? userID then w_Sum w else 0)
      + spec_withdrawn rest userID
  end.

Definition spec_balance (db : DB) (userID : Z) : Balance :=
  {| b_Current := spec_accrued (orders db) userID
                  - spec_withdrawn (withdrawals db) userID;
     b_Withdrawn := spec_withdrawn (withdrawals db) userID |}.

(** The row of an order number in the ledger. *)
Definition order_row (db : DB) (orderNumber : string) : option Order :=
  find (fun o => o_Number o =? orderNumber)%string (orders db).

(** The results of [GetOrderAccrual] in the words of the specification: a
    verdict, an order the accrual service does not know, a rate limit with
    the delay the error carries if it carries one, or a transient error. *)
Inductive Outcome : Type :=
| Verdict (v : AccrualResponse)
| NotRegistered
| RateLimited (seconds : option Z)
| TransientError.

Definition outcome_of (r : result (option AccrualResponse)) : Outcome :=
  match r with
  | Ok (Some v) => Verdict v
  | Ok None => NotRegistered
  | Err (ErrRateLimitedAfter seconds) => RateLimited (Some seconds)
  | Err ErrRateLimited => RateLimited None
  | Err _ => TransientError
  end.

(** The label of a withdrawal passes the validation of the handlers. *)
Definition valid_label (s : string) : bool :=
  utils.IsNumeric s && utils.ValidateLuhn s.

(** The order is in the ledger and its status is not final. *)
Definition pending (db : DB) (orderNumber : string) : Prop :=
  exists o, order_row db orderNumber = Some o /\ final (o_Status o) = false.

(** The status of the order of a goroutine that stands at the point [pt]:
    NEW until the goroutine has set PROCESSING, PROCESSING from then on. *)
Definition expected_status (pt : server.Point) : string :=
  match pt with
  | server.SetProcessing => StatusNew
  | server.Fetch => StatusProcessing
  | server.WriteFinal _ => StatusProcessing
  end.

(** The order of the goroutine is in the ledger, with the status that goes
    with the point the goroutine has reached. *)
Definition tracked (db : DB) (g : server.Goroutine) : Prop :=
  exists o, order_row db (server.g_order g) = Some o /\
            o_Status o = expected_status (server.g_at g).

(** What every state of the server satisfies: the goroutines work on
    distinct orders, each of them on an order of the ledger whose status is
    NEW or PROCESSING according to the point reached, and the withdrawals
    in flight carry distinct identifiers already handed out. *)
Record consistent (s : server.State) : Prop := {
  goroutines_distinct :
    NoDup (map server.g_order (server.goroutines s));
  goroutines_tracked :
    Forall (tracked (server.ledger s)) (server.goroutines s);
  withdrawing_distinct :
    NoDup (map server.wd_id (server.withdrawing s));
  withdrawing_numbered :
    Forall (fun w => server.wd_id w < server.next_id s)
      (server.withdrawing s)
}.

(** The withdrawal in flight [w], moved to the point [pt]. *)
Definition moved (w : server.Withdrawing) (pt : server.WPoint)
  : server.Withdrawing :=
  {| server.wd_id := server.wd_id w; server.wd_userID := server.wd_userID w;
     server.wd_order := server.wd_order w;
     server.wd_amount := server.wd_amount w; server.wd_at := pt |}.

(** No call to the accrual service is made less than [n] seconds after a
    call that was answered with a rate limit of [n] seconds. *)
Fixpoint respects_rate_limit (ps : list server.Poll) : bool :=
  match ps with
  | [] => true
  | p :: later =>
      match server.p_result p with
      | Err (ErrRateLimitedAfter n) =>
          forallb (fun q => server.p_time p + n <=? server.p_time q) later
      | _ => true
      end
      && respects_rate_limit later
  end.

(** The Luhn checksum as it is usually told, from the right: the last digit
    counts as it is, the one before it doubled (minus 9 above 9), and so on
    in turn.  [luhn_rtl] takes the digits last first and whether the digit
    at hand is doubled. *)
Definition luhn_double (d : Z) : Z :=
  let d2 := d * 2 in if 9 <? d2 then d2 - 9 else d2.

Fixpoint luhn_rtl (reversed : list Z) (doubled : bool) : Z :=
  match reversed with
  | [] => 0
  | d :: rest =>
      (if doubled then luhn_double d else d) + luhn_rtl rest (negb doubled)
  end.

Definition luhn_standard (digits : list Z) : bool :=
  Z.rem (luhn_rtl (rev digits) false) 10 =? 0.

(** The same sum from the left, told whether the first digit is doubled. *)
Fixpoint luhn_ltr (digits : list Z) (doubled : bool) : Z :=
  match digits with
  | [] => 0
  | d :: rest =>
      (if doubled then luhn_double d else d) + luhn_ltr rest (negb doubled)
  end.

(** What the columns of the ledger can hold: an order number or label of at
    most 255 digits ([VARCHAR(255)]), a status of the program ([VARCHAR(50)]),
    an amount of at most ten digits, two of them decimals ([NUMERIC(10, 2)],
    counted here in hundredths). *)
Definition fits_number (s : string) : bool :=
  all_digits s && (len s <=? 255).

Definition fits_status (status : string) : bool :=
  existsb (String.eqb status)
    [StatusNew; StatusProcessing; StatusInvalid; StatusProcessed].

Definition fits_amount (amount : Z) : bool := Z.abs amount <? 10 ^ 10.

(** A row of the table of orders as the program leaves it: NEW or
    PROCESSING with accrual 0, or with a final status. *)
Definition row_ok (o : Order) : Prop :=
  ((o_Status o = StatusNew \/ o_Status o = StatusProcessing)
   /\ o_Accrual o = 0)
  \/ final (o_Status o) = true.

(** A goroutine about to write a verdict holds a final one. *)
Definition verdict_final (g : server.Goroutine) : Prop :=
  match server.g_at g with
  | server.WriteFinal v => final (a_Status v) = true
  | _ => True
  end.

(** What every state of the server satisfies beyond [consistent]: the
    numbers of the orders are distinct, they and the labels of the
    withdrawals, recorded or in flight, passed the validation of the
    handlers, and every row is as [row_ok] says. *)
Record sound (s : server.State) : Prop := {
  sound_consistent : consistent s;
  numbers_distinct : NoDup (map o_Number (orders (server.ledger s)));
  numbers_valid :
    Forall (fun o => valid_label (o_Number o) = true)
      (orders (server.ledger s));
  labels_valid :
    Forall (fun w => valid_label (w_Order w) = true)
      (withdrawals (server.ledger s));
  labels_in_flight_valid :
    Forall (fun w => valid_label (server.wd_order w) = true)
      (server.withdrawing s);
  rows_ok : Forall row_ok (orders (server.ledger s));
  verdicts_final : Forall verdict_final (server.goroutines s)
}.

(** How far an order has come: NEW, then PROCESSING, then a final status. *)
Definition status_rank (status : string) : Z :=
  if (status =? StatusNew)%string then 0
  else if (status =? StatusProcessing)%string then 1
  else 2.

(** The event is one of the two statements that move money: the final
    write of a goroutine, or the INSERT of a withdrawal. *)
Definition moves_money (s : server.State) (e : server.Event) : bool :=
  match e with
  | server.Advance n _ =>
      match server.goroutine_of s n with
      | Some g =>
          match server.g_at g with
          | server.WriteFinal _ => true
          | _ => false
          end
      | None => false
      end
  | server.WithdrawStep id =>
      match server.withdrawing_of s id with
      | Some w =>
          match server.wd_at w with
          | server.Insert => true
          | _ => false
          end
      | None => false
      end
  | _ => false
  end.

(** The sum of a column of a list of entries. *)
Definition total {A : Type} (col : A -> Z) (entries : list A) : Z :=
  fold_right (fun e acc => col e + acc) 0 entries.

(** A text the columns [VARCHAR(255)] of the table of users can hold: at
    most 255 bytes, none of them zero. *)
Definition fits_text (s : string) : bool :=
  (len s <=? 255)
  && forallb (fun c => negb (code c =? 0)) (list_ascii_of_string s).

(** What the table of users always satisfies: the logins are distinct, the
    ids are distinct and were all handed out by the sequence. *)
Record users_ok (users : Users) : Prop := {
  logins_distinct : NoDup (map u_Login (user_rows users));
  ids_distinct : NoDup (map u_ID (user_rows users));
  ids_issued : Forall (fun u => u_ID u < user_seq users) (user_rows users)
}.

(** A series of calls of [CreateUser], each with the time, the login and
    the password hash it is given. *)
Definition create_users (users : Users) (calls : list (Z * string * string))
  : Users :=
  fold_left (fun t '(now, login, hash) => snd (CreateUser t now login hash))
    calls users.

Example luhn_79927398713 : utils.ValidateLuhn "79927398713" = true.
Proof. reflexivity. Qed.

Example luhn_79927398710 : utils.ValidateLuhn "79927398710" = false.
Proof. reflexivity. Qed.

Example luhn_12a4 : utils.ValidateLuhn "12a4" = false.
Proof. reflexivity. Qed.

Example atoi_120 : strconv.Atoi "120" = (120, None).
Proof. reflexivity. Qed.

Example atoi_minus_5 : strconv.Atoi "-5" = (-5, None).
Proof. reflexivity. Qed.

Example atoi_date : strconv.Atoi "Wed, 21 Oct 2015 07:28:00 GMT" = (0, Some strconv.ErrSyntax).
Proof. reflexivity. Qed.

Example parse_int_max : strconv.ParseInt "9223372036854775807" 64 = (9223372036854775807, None).
Proof. vm_compute. reflexivity. Qed.

Example parse_int_over : strconv.ParseInt "9223372036854775808" 64 = (9223372036854775807, Some strconv.ErrRange).
Proof. vm_compute. reflexivity. Qed.

Example itoa_60 : itoa 60 = "60".
Proof. reflexivity. Qed.

(** * Properties *)

(** ** strconv and the Luhn validator *)

Section Digits.

Lemma is_digit_code c :
  strconv.is_digit c = true <-> 48 <= code c <= 57.
Proof.
  unfold strconv.is_digit.
  change (code "0") with 48. change (code "9") with 57.
  rewrite andb_true_iff, !Z.leb_le. tauto.
Qed.

Lemma digits_of_non_digit s :
  has_non_digit s = true -> utils.digits_of s = None.
Proof.
  unfold has_non_digit.
  induction s as [|c s IH]; simpl; [discriminate|].
  change (code "0") with 48. change (code "9") with 57.
  destruct (strconv.is_digit c) eqn:Hc; simpl.
  - intros H. rewrite (IH H).
    destruct ((code c <? 48) || (57 <? code c)); reflexivity.
  - intros _.
    assert (Hn : ~ (48 <= code c <= 57)).
    { rewrite <- is_digit_code, Hc. discriminate. }
    destruct (code c <? 48) eqn:H1; [reflexivity|].
    destruct (57 <? code c) eqn:H2; [reflexivity|].
    apply Z.ltb_ge in H1, H2. lia.
Qed.

Lemma dec_value_from_ge s :
  forallb strconv.is_digit (list_ascii_of_string s) = true ->
  forall n, 0 <= n -> n * 10 ^ len s <= dec_value_from n s.
Proof.
  unfold len.
  induction s as [|c s IH]; simpl String.length; simpl list_ascii_of_string.
  - intros _ n Hn. simpl. lia.
  - simpl forallb. rewrite andb_true_iff. intros [Hc Hs] n Hn.
    apply is_digit_code in Hc.
    simpl dec_value_from. change (code "0") with 48.
    specialize (IH Hs (n * 10 + (code c - 48)) ltac:(lia)).
    rewrite Nat2Z.inj_succ, Z.pow_succ_r by lia.
    assert (0 <= 10 ^ Z.of_nat (String.length s)) by (apply Z.pow_nonneg; lia).
    nia.
Qed.

Lemma dec_value_from_mono s :
  forallb strconv.is_digit (list_ascii_of_string s) = true ->
  forall n, 0 <= n -> n <= dec_value_from n s.
Proof.
  intros Hs n Hn. pose proof (dec_value_from_ge s Hs n Hn) as H.
  assert (1 <= 10 ^ len s).
  { unfold len. change 1 with (10 ^ 0) at 1.
    apply Z.pow_le_mono_r; lia. }
  nia.
Qed.

(** [ParseUint]'s loop returns the number the digits denote, or the range
    error as soon as that number leaves [uint64]. *)
Lemma parse_digits_all_digits s :
  forallb strconv.is_digit (list_ascii_of_string s) = true ->
  forall n, 0 <= n <= strconv.maxUint64 ->
  strconv.parse_digits strconv.maxUint64 s n =
    if dec_value_from n s <=? strconv.maxUint64
    then (dec_value_from n s, None)
    else (strconv.maxUint64, Some strconv.ErrRange).
Proof.
  induction s as [|c s IH]; simpl list_ascii_of_string.
  - intros _ n Hn. simpl.
    destruct (Z.leb_spec n strconv.maxUint64); [reflexivity | lia].
  - simpl forallb. rewrite andb_true_iff. intros [Hc Hs] n Hn.
    simpl strconv.parse_digits. rewrite Hc.
    apply is_digit_code in Hc.
    simpl dec_value_from.
    pose proof (dec_value_from_mono s Hs (n * 10 + (code c - code "0"))) as Hm.
    revert Hn Hm IH. unfold strconv.wrap64, strconv.maxUint64.
    change (code "0") with 48.
    change (18446744073709551615 / 10 + 1) with 1844674407370955162.
    change (2 ^ 64) with 18446744073709551616.
    intros Hn Hm IH.
    destruct (Z.leb_spec 1844674407370955162 n) as [Hcut|Hcut].
    + destruct (Z.leb_spec (dec_value_from (n * 10 + (code c - 48)) s)
                  18446744073709551615); [lia | reflexivity].
    + rewrite (Z.mod_small (n * 10)) by lia.
      destruct (Z_le_gt_dec (n * 10 + (code c - 48)) 18446744073709551615)
        as [Hfit|Hover].
      * rewrite (Z.mod_small (n * 10 + (code c - 48))) by lia.
        destruct (Z.ltb_spec (n * 10 + (code c - 48)) (n * 10)); [lia|].
        destruct (Z.ltb_spec 18446744073709551615 (n * 10 + (code c - 48)));
          [lia|].
        simpl orb. apply IH; [exact Hs | lia].
      * assert (Hw : (n * 10 + (code c - 48)) mod 18446744073709551616
                     = n * 10 + (code c - 48) - 18446744073709551616).
        { symmetry. apply Z.mod_unique with (q := 1); lia. }
        rewrite Hw.
        destruct (Z.ltb_spec (n * 10 + (code c - 48) - 18446744073709551616)
                    (n * 10)); [|lia].
        simpl orb.
        destruct (Z.leb_spec (dec_value_from (n * 10 + (code c - 48)) s)
                    18446744073709551615); [lia | reflexivity].
Qed.

Lemma all_digits_inv s :
  all_digits s = true ->
  exists c rest, s = String c rest /\ strconv.is_digit c = true
    /\ forallb strconv.is_digit (list_ascii_of_string s) = true.
Proof.
  unfold all_digits. destruct s as [|c rest]; [discriminate|].
  simpl. rewrite andb_true_iff. intros [Hc Hr].
  exists c, rest. rewrite Hc, Hr. auto.
Qed.

Lemma digit_is_no_sign c :
  strconv.is_digit c = true ->
  Ascii.eqb c "+" = false /\ Ascii.eqb c "-" = false.
Proof.
  intros Hc; split.
  - destruct (Ascii.eqb_spec c "+"); [subst; discriminate | reflexivity].
  - destruct (Ascii.eqb_spec c "-"); [subst; discriminate | reflexivity].
Qed.

(** On a string of digits [ParseInt(s, 10, 64)] succeeds exactly below
    [2^63]. *)
Lemma ParseInt_all_digits s :
  all_digits s = true ->
  strconv.ParseInt s 64 =
    if dec_value s <=? maxInt64 then (dec_value s, None)
    else (maxInt64, Some strconv.ErrRange).
Proof.
  intros Hs. destruct (all_digits_inv s Hs) as (c & rest & -> & Hc & Hall).
  destruct (digit_is_no_sign c Hc) as [Hplus Hminus].
  unfold strconv.ParseInt. rewrite Hplus, Hminus. simpl orb. cbv iota.
  unfold strconv.ParseUint.
  change (strconv.wrap64 (strconv.wrap64 (2 ^ (if 64 =? 0 then strconv.IntSize else 64)) - 1))
    with strconv.maxUint64.
  rewrite (parse_digits_all_digits _ Hall 0)
    by (unfold strconv.maxUint64; lia).
  fold (dec_value (String c rest)).
  assert (Hpos : 0 <= dec_value (String c rest)).
  { apply (dec_value_from_mono _ Hall 0). lia. }
  revert Hpos. generalize (dec_value (String c rest)). intros v Hpos.
  unfold strconv.maxUint64, maxInt64.
  change (2 ^ ((if 64 =? 0 then strconv.IntSize else 64) - 1))
    with 9223372036854775808.
  destruct (Z.leb_spec v 18446744073709551615);
    destruct (Z.leb_spec v 9223372036854775807); try lia; simpl;
    try (destruct (Z.leb_spec 9223372036854775808 v); try lia);
    try reflexivity.
Qed.

Lemma IsNumeric_all_digits s :
  all_digits s = true ->
  utils.IsNumeric s = (dec_value s <=? maxInt64).
Proof.
  intros Hs. unfold utils.IsNumeric. rewrite (ParseInt_all_digits s Hs).
  destruct (dec_value s <=? maxInt64); reflexivity.
Qed.

Lemma long_number_large s :
  all_digits s = true -> 20 <= len s -> starts_with_zero s = false ->
  maxInt64 < dec_value s.
Proof.
  intros Hs Hlen Hz.
  destruct (all_digits_inv s Hs) as (c & rest & -> & Hc & Hall).
  simpl in Hall. apply andb_true_iff in Hall as [_ Hrest].
  simpl in Hz. apply is_digit_code in Hc.
  assert (Hc1 : 49 <= code c).
  { destruct (Z.eq_dec (code c) 48) as [E|]; [|lia].
    exfalso. destruct (Ascii.eqb_spec c "0") as [|Hne]; [discriminate|].
    apply Hne. unfold code in E.
    apply (f_equal Z.to_N) in E. rewrite N2Z.id in E.
    apply (f_equal ascii_of_N) in E. rewrite ascii_N_embedding in E.
    exact E. }
  unfold dec_value. simpl dec_value_from. change (code "0") with 48.
  change (0 * 10 + (code c - 48)) with (code c - 48).
  pose proof (dec_value_from_ge rest Hrest (code c - 48) ltac:(lia)) as Hge.
  unfold len in *. simpl String.length in Hlen.
  rewrite Nat2Z.inj_succ in Hlen.
  assert (H19 : 10 ^ 19 <= 10 ^ Z.of_nat (String.length rest))
    by (apply Z.pow_le_mono_r; lia).
  change (10 ^ 19) with 10000000000000000000 in H19.
  revert Hge H19. generalize (10 ^ Z.of_nat (String.length rest)).
  generalize (dec_value_from (code c - 48) rest).
  intros v p Hge H19.
  assert (p <= (code c - 48) * p) by nia.
  unfold maxInt64. lia.
Qed.

End Digits.

Section LuhnValidator.

(** C8, as stated, fails on the empty string: [ValidateLuhn("")] finds no
    rune to reject, sums nothing and accepts the sum 0. *)
Lemma ValidateLuhn_accepts_empty_string :
  utils.ValidateLuhn "" = true /\
  ~ (forall s, s = "" \/ has_non_digit s = true ->
               utils.ValidateLuhn s = false).
Proof.
  split; [reflexivity|].
  intros H. specialize (H "" (or_introl eq_refl)). discriminate H.
Qed.

(** C8, amended: for every input string that contains at least one
    non-digit character [ValidateLuhn] returns false; for the empty string
    it returns true. *)
Theorem ValidateLuhn_rejects_non_digit (s : string) :
  (has_non_digit s = true -> utils.ValidateLuhn s = false) /\
  (s = "" -> utils.ValidateLuhn s = true).
Proof.
  split.
  - intros H. unfold utils.ValidateLuhn.
    rewrite (digits_of_non_digit s H). reflexivity.
  - intros ->. reflexivity.
Qed.

Lemma ValidateLuhn_rejects_non_digit_witness :
  has_non_digit "12a4" = true /\ utils.ValidateLuhn "12a4" = false.
Proof.
  split; [reflexivity|].
  apply (proj1 (ValidateLuhn_rejects_non_digit "12a4")). reflexivity.
Defined.

End LuhnValidator.

Section OrderNumberFormat.

Lemma all_digits_nonempty s :
  all_digits s = true -> (s =? "")%string = false.
Proof.
  unfold all_digits. destruct (s =? "")%string; [discriminate | reflexivity].
Qed.

Lemma UploadOrder_not_numeric db now userID s :
  (s =? "")%string = false -> utils.IsNumeric s = false ->
  handlers.UploadOrder db now (Some userID) (Ok s)
  = (http.StatusUnprocessableEntity, db, None).
Proof.
  intros He Hn. unfold handlers.UploadOrder. rewrite He, Hn. reflexivity.
Qed.

Lemma WithdrawBalance_not_numeric db now userID s sum :
  utils.IsNumeric s = false ->
  handlers.WithdrawBalance db now (Some userID)
    (Ok {| handlers.Order := s; handlers.Sum := sum |})
  = (http.StatusUnprocessableEntity, db).
Proof.
  intros Hn. unfold handlers.WithdrawBalance, handlers.withdraw_admit.
  simpl. rewrite Hn. reflexivity.
Qed.

(** C10, as stated, fails on its own example: the string of twenty zeros
    has 20 digits, parses as the 64-bit integer 0 and passes the Luhn
    check, so order submission accepts it and creates the order, and a
    withdrawal labelled with it is carried out. *)
Lemma twenty_zeros_accepted :
  let s := "00000000000000000000" in
  all_digits s = true /\ len s = 20 /\
  utils.IsNumeric s = true /\
  handlers.UploadOrder repository.empty 0 (Some 1) (Ok s)
  = (http.StatusAccepted,
     {| orders := [{| o_Number := s; o_UserID := 1; o_Status := "NEW";
                      o_Accrual := 0; o_UploadedAt := 0 |}];
        withdrawals := [] |},
     Some s) /\
  fst (handlers.WithdrawBalance repository.empty 0 (Some 1)
         (Ok {| handlers.Order := s; handlers.Sum := 0 |}))
  = http.StatusOK.
Proof. vm_compute. repeat split; reflexivity. Qed.

(** C10, amended: an all-digit order-number string fails to parse as a
    signed 64-bit integer exactly when the number it denotes is above
    9223372036854775807 (so does any string of 20 or more digits that does
    not start with 0, and any 19-digit string above 9223372036854775807);
    order submission and withdrawal both answer such a string with 422
    (invalid format) and leave the ledger as it was, whether or not the
    string passes the Luhn check. *)
Theorem unparsable_order_number_rejected (s : string) :
  all_digits s = true ->
  (utils.IsNumeric s = false <-> maxInt64 < dec_value s) /\
  (20 <= len s -> starts_with_zero s = false -> utils.IsNumeric s = false) /\
  (utils.IsNumeric s = false ->
   forall db now userID sum,
     handlers.UploadOrder db now (Some userID) (Ok s)
     = (http.StatusUnprocessableEntity, db, None) /\
     handlers.WithdrawBalance db now (Some userID)
       (Ok {| handlers.Order := s; handlers.Sum := sum |})
     = (http.StatusUnprocessableEntity, db)).
Proof.
  intros Hs.
  assert (Hiff : utils.IsNumeric s = false <-> maxInt64 < dec_value s).
  { rewrite (IsNumeric_all_digits s Hs). apply Z.leb_gt. }
  split; [exact Hiff|]. split.
  - intros Hlen Hz. apply Hiff. apply long_number_large; assumption.
  - intros Hn db now userID sum. split.
    + apply UploadOrder_not_numeric; [apply all_digits_nonempty|]; assumption.
    + apply WithdrawBalance_not_numeric; assumption.
Qed.

Lemma unparsable_order_number_rejected_witness :
  let s := "9223372036854775809" in
  all_digits s = true /\ utils.ValidateLuhn s = true /\
  maxInt64 < dec_value s /\
  handlers.UploadOrder repository.empty 0 (Some 1) (Ok s)
  = (http.StatusUnprocessableEntity, repository.empty, None).
Proof.
  intros s.
  assert (Hs : all_digits s = true) by reflexivity.
  assert (Hv : maxInt64 < dec_value s) by (vm_compute; reflexivity).
  split; [exact Hs|]. split; [reflexivity|]. split; [exact Hv|].
  destruct (unparsable_order_number_rejected s Hs) as (Hiff & _ & Hrej).
  exact (proj1 (Hrej (proj2 Hiff Hv) repository.empty 0 1 0)).
Defined.

End OrderNumberFormat.

(** ** The accrual client *)

Section AccrualClient.

Variable orderNumber : string.

Lemma GetOrderAccrual_429 resp :
  StatusCode resp = http.StatusTooManyRequests ->
  GetOrderAccrual orderNumber (Responded resp) =
    match strconv.Atoi (RetryAfter resp) with
    | (seconds, None) => Err (ErrRateLimitedAfter seconds)
    | (_, Some _) => Err ErrRateLimited
    end.
Proof.
  intros H. unfold GetOrderAccrual. rewrite H. simpl.
  destruct (RetryAfter resp) as [|c rest] eqn:E; reflexivity.
Qed.

(** C7, as stated, fails on a 429 answer without a Retry-After header, or
    with one that is not an integer: the client returns the error
    "rate limited", which carries no delay; the number 60 occurs nowhere. *)
Lemma no_default_retry_delay :
  let absent := {| StatusCode := 429; RetryAfter := "";
                   Body := ReadFailed "" |} in
  let date := {| StatusCode := 429;
                 RetryAfter := "Wed, 21 Oct 2015 07:28:00 GMT";
                 Body := ReadFailed "" |} in
  GetOrderAccrual "12345678903" (Responded absent) = Err ErrRateLimited /\
  GetOrderAccrual "12345678903" (Responded date) = Err ErrRateLimited /\
  Error ErrRateLimited = "rate limited" /\
  outcome_of (GetOrderAccrual "12345678903" (Responded absent))
    <> RateLimited (Some 60).
Proof. repeat split; try reflexivity. discriminate. Qed.

(** C7, amended: a single fetch maps the exchange with the accrual service
    as follows.  Status 200 with a decodable body yields the parsed verdict;
    status 204 yields "not registered", with no error; status 429 yields a
    rate-limit error that carries n when the Retry-After header parses as
    an integer n and carries no delay (no default) when the header is absent
    or does not parse; any other status outside 2xx, a failure to build or
    send the request, and an unreadable or malformed body yield a
    transient error. *)
Theorem GetOrderAccrual_mapping (x : Exchange) :
  (forall resp v, x = Responded resp -> StatusCode resp = 200 ->
     Body resp = Decoded v ->
     GetOrderAccrual orderNumber x = Ok (Some v)) /\
  (forall resp, x = Responded resp -> StatusCode resp = 204 ->
     GetOrderAccrual orderNumber x = Ok None) /\
  (forall resp, x = Responded resp -> StatusCode resp = 429 ->
     outcome_of (GetOrderAccrual orderNumber x) =
       RateLimited (match strconv.Atoi (RetryAfter resp) with
                    | (n, None) => Some n
                    | (_, Some _) => None
                    end) /\
     (RetryAfter resp = "" ->
      GetOrderAccrual orderNumber x = Err ErrRateLimited)) /\
  (forall resp, x = Responded resp -> StatusCode resp <> 429 ->
     StatusCode resp < 200 \/ 300 <= StatusCode resp ->
     GetOrderAccrual orderNumber x = Err (ErrAccrualStatus (StatusCode resp))
     /\ outcome_of (GetOrderAccrual orderNumber x) = TransientError) /\
  (forall msg, x = RequestFailed msg \/ x = TransportFailed msg ->
     GetOrderAccrual orderNumber x = Err (ErrExternal msg)
     /\ outcome_of (GetOrderAccrual orderNumber x) = TransientError) /\
  (forall resp msg, x = Responded resp -> StatusCode resp = 200 ->
     Body resp = ReadFailed msg \/ Body resp = Malformed msg ->
     GetOrderAccrual orderNumber x = Err (ErrExternal msg)
     /\ outcome_of (GetOrderAccrual orderNumber x) = TransientError).
Proof.
  repeat apply conj.
  - intros resp v -> Hs Hb. unfold GetOrderAccrual. rewrite Hs, Hb. reflexivity.
  - intros resp -> Hs. unfold GetOrderAccrual. rewrite Hs. reflexivity.
  - intros resp -> Hs. rewrite (GetOrderAccrual_429 resp Hs). split.
    + destruct (strconv.Atoi (RetryAfter resp)) as [n [e|]]; reflexivity.
    + intros ->. reflexivity.
  - intros resp -> H429 Hout.
    assert (E : GetOrderAccrual orderNumber (Responded resp)
                = Err (ErrAccrualStatus (StatusCode resp))).
    { unfold GetOrderAccrual, http.StatusTooManyRequests, http.StatusNoContent,
        http.StatusOK.
      destruct (Z.eqb_spec (StatusCode resp) 429); [contradiction|].
      destruct (Z.eqb_spec (StatusCode resp) 204); [lia|].
      destruct (Z.eqb_spec (StatusCode resp) 200); [lia|].
      reflexivity. }
    rewrite E. split; reflexivity.
  - intros msg [-> | ->]; split; reflexivity.
  - intros resp msg -> Hs Hb. unfold GetOrderAccrual. rewrite Hs. simpl.
    destruct Hb as [-> | ->]; split; reflexivity.
Qed.

End AccrualClient.

Lemma GetOrderAccrual_mapping_witness :
  let resp := {| StatusCode := 429; RetryAfter := "120";
                 Body := ReadFailed "" |} in
  outcome_of (GetOrderAccrual "12345678903" (Responded resp))
  = RateLimited (Some 120).
Proof.
  intros resp.
  destruct (GetOrderAccrual_mapping "12345678903" (Responded resp))
    as (_ & _ & H & _).
  exact (proj1 (H resp eq_refl eq_refl)).
Defined.

(** ** The balance *)

Section Balance.

Lemma fold_left_add_from (l : list Z) (a : Z) :
  fold_left Z.add l a = a + fold_left Z.add l 0.
Proof.
  revert a. induction l as [|x l IH]; intros a; simpl; [lia|].
  rewrite (IH (a + x)), (IH x). lia.
Qed.

Lemma sum_of_selection {A : Type} (sel : A -> bool) (col : A -> Z) (rows : list A) :
  COALESCE (sql_sum (map col (filter sel rows))) 0
  = fold_right (fun r acc => (if sel r then col r else 0) + acc) 0 rows.
Proof.
  assert (H : forall l, COALESCE (sql_sum l) 0 = fold_left Z.add l 0).
  { intros [|x l]; reflexivity. }
  rewrite H. induction rows as [|r rows IH]; simpl; [reflexivity|].
  destruct (sel r); simpl; [|lia].
  rewrite fold_left_add_from. lia.
Qed.

Lemma query_accrual_spec db userID :
  query_accrual db userID StatusProcessed = spec_accrued (orders db) userID.
Proof.
  unfold query_accrual. rewrite sum_of_selection.
  induction (orders db) as [|o os IH]; simpl; [reflexivity|].
  rewrite IH. reflexivity.
Qed.

Lemma query_withdrawn_spec db userID :
  query_withdrawn db userID = spec_withdrawn (withdrawals db) userID.
Proof.
  unfold query_withdrawn. rewrite sum_of_selection.
  induction (withdrawals db) as [|w ws IH]; simpl; [reflexivity|].
  rewrite IH. reflexivity.
Qed.

Lemma GetUserBalance_spec db userID :
  GetUserBalance db userID = Ok (spec_balance db userID).
Proof.
  unfold GetUserBalance, spec_balance.
  rewrite query_accrual_spec, query_withdrawn_spec. reflexivity.
Qed.

Lemma WithdrawBalance_decided db now userID orderNumber amount :
  repository.WithdrawBalance db now userID orderNumber amount =
    if b_Current (spec_balance db userID) <? amount
    then (Some ErrInsufficientFunds, db)
    else insert_withdrawal db now userID orderNumber amount.
Proof.
  unfold repository.WithdrawBalance. rewrite GetUserBalance_spec. reflexivity.
Qed.

End Balance.

(** ** The balance in float64 *)

Section Balance64.

Lemma GetUserBalance64_sums db userID :
  repository64.GetUserBalance db userID
  = repository64.balance_of (spec_accrued (orders db) userID)
      (spec_withdrawn (withdrawals db) userID).
Proof.
  unfold repository64.GetUserBalance.
  rewrite query_accrual_spec, query_withdrawn_spec. reflexivity.
Qed.

(** The float64 balance is computed from the same two sums as the balance
    in decimals: ledgers with the same balance in decimals have the same
    float64 balance. *)
Lemma GetUserBalance64_of_decimals db userID balance :
  GetUserBalance db userID = Ok balance ->
  repository64.GetUserBalance db userID
  = repository64.balance_of (b_Current balance + b_Withdrawn balance)
      (b_Withdrawn balance).
Proof.
  unfold GetUserBalance, repository64.GetUserBalance.
  intros H. injection H as <-. cbn [b_Current b_Withdrawn].
  f_equal. lia.
Qed.

(** C1, as stated, fails: with one PROCESSED order of 0.30 and one
    withdrawal of 0.10 the sums differ by 0.20, and [GetUserBalance] returns
    as [Current] the float64 0.19999999999999998 (7205759403792793 * 2^-55),
    which is not the float64 that 0.20 reads as (7205759403792794 * 2^-55)
    but the one just below it, on the other side of 0.20.  [Withdrawn] is
    the float64 of 0.10. *)
Lemma balance_differs_from_decimal_difference :
  let db := {| orders := [{| o_Number := "12345678903"; o_UserID := 1;
                             o_Status := "PROCESSED"; o_Accrual := 30;
                             o_UploadedAt := 0 |}];
               withdrawals := [{| w_UserID := 1; w_Order := "79927398713";
                                  w_Sum := 10; w_ProcessedAt := 5 |}] |} in
  spec_accrued (orders db) 1 - spec_withdrawn (withdrawals db) 1 = 20 /\
  repository64.GetUserBalance db 1
  = Ok {| repository64.Current := S754_finite false 7205759403792793 (-55);
          repository64.Withdrawn := S754_finite false 7205759403792794 (-56) |} /\
  sql.Scan 20 = Ok (S754_finite false 7205759403792794 (-55)) /\
  sql.Scan 10 = Ok (S754_finite false 7205759403792794 (-56)) /\
  float64.ltb (S754_finite false 7205759403792793 (-55))
              (S754_finite false 7205759403792794 (-55)) = true /\
  float64.above_hundredths (S754_finite false 7205759403792793 (-55)) 20
  = false /\
  float64.above_hundredths (S754_finite false 7205759403792794 (-55)) 20
  = true.
Proof. vm_compute. repeat split; reflexivity. Qed.

(** C1, amended: for every ledger (so after any sequence of submissions,
    sweeps and withdrawals) and every user, [GetUserBalance] returns as
    [Withdrawn] the sum of the user's withdrawals and as [Current] the sum of
    the accruals of the user's PROCESSED orders minus [Withdrawn], where each
    sum is computed exactly by the ledger and then read into a float64, and
    the subtraction is the subtraction of float64: [Current] is the exact
    difference up to that rounding.  It fails only when a sum is beyond the
    range of a float64.  The balance handler answers 200 with that balance,
    and 500 on that failure. *)
Theorem balance_is_float64_difference (db : DB) (userID : Z) :
  let accrued := spec_accrued (orders db) userID in
  let withdrawn := spec_withdrawn (withdrawals db) userID in
  repository64.GetUserBalance db userID
  = match sql.Scan accrued, sql.Scan withdrawn with
    | Ok current, Ok withdrawn =>
        Ok {| repository64.Current := float64.sub current withdrawn;
              repository64.Withdrawn := withdrawn |}
    | Err err, _ => Err err
    | Ok _, Err err => Err err
    end /\
  handlers64.GetBalance db (Some userID)
  = match sql.Scan accrued, sql.Scan withdrawn with
    | Ok current, Ok withdrawn =>
        (http.StatusOK,
         Some {| repository64.Current := float64.sub current withdrawn;
                 repository64.Withdrawn := withdrawn |})
    | _, _ => (http.StatusInternalServerError, None)
    end.
Proof.
  intros accrued withdrawn. unfold handlers64.GetBalance.
  rewrite GetUserBalance64_sums. fold accrued withdrawn. unfold repository64.balance_of.
  destruct (sql.Scan accrued), (sql.Scan withdrawn); split; reflexivity.
Qed.

Lemma WithdrawBalance64_decided store db now userID orderNumber amount balance :
  repository64.GetUserBalance db userID = Ok balance ->
  repository64.WithdrawBalance store db now userID orderNumber amount
  = if float64.ltb (repository64.Current balance) amount
    then (Some ErrInsufficientFunds, db)
    else repository64.insert_withdrawal store db now userID orderNumber amount.
Proof.
  intros Hbal. unfold repository64.WithdrawBalance. rewrite Hbal. reflexivity.
Qed.

Lemma Handler64_valid_label store db now userID orderNumber amount :
  valid_label orderNumber = true ->
  handlers64.WithdrawBalance store db now (Some userID)
    (Ok {| handlers64.Order := orderNumber; handlers64.Sum := amount |})
  = (handlers.withdraw_reply
       (fst (repository64.WithdrawBalance store db now userID
               orderNumber amount)),
     snd (repository64.WithdrawBalance store db now userID
            orderNumber amount)).
Proof.
  intros Hv. unfold valid_label in Hv. apply andb_true_iff in Hv as [Hn Hl].
  unfold handlers64.WithdrawBalance.
  cbn [handlers64.Order handlers64.Sum]. rewrite Hn, Hl. cbn [negb orb].
  destruct (repository64.WithdrawBalance store db now userID orderNumber amount).
  reflexivity.
Qed.




(** C9, as stated, fails: a withdrawal of a zero or negative amount is
    carried out.  On the empty ledger the request for -500.00 is answered
    200 and its record is created, after which [GetUserBalance] reports a
    current balance of 500.00 (8796093022208000 * 2^-44) and a withdrawn
    total of -500.00; the request for 0 is answered 200 as well. *)
Lemma nonpositive_withdrawal_accepted :
  let req amount := Ok {| handlers64.Order := "12345678903";
                          handlers64.Sum := amount |} in
  let row sum := {| w_UserID := 1; w_Order := "12345678903";
                    w_Sum := sum; w_ProcessedAt := 0 |} in
  float64.leb (float64.of_hundredths (-50000)) float64.zero = true /\
  handlers64.WithdrawBalance sql.numeric_10_2 repository.empty 0 (Some 1)
    (req (float64.of_hundredths (-50000)))
  = (http.StatusOK, {| orders := []; withdrawals := [row (-50000)] |}) /\
  handlers64.WithdrawBalance sql.numeric_10_2 repository.empty 0 (Some 1)
    (req float64.zero)
  = (http.StatusOK, {| orders := []; withdrawals := [row 0] |}) /\
  repository64.GetUserBalance
    {| orders := []; withdrawals := [row (-50000)] |} 1
  = Ok {| repository64.Current := S754_finite false 8796093022208000 (-44);
          repository64.Withdrawn := S754_finite true 8796093022208000 (-44) |}.
Proof. vm_compute. repeat split; reflexivity. Qed.

Lemma nonpositive_below_nonnegative (current amount : float64.t) :
  float64.leb float64.zero current = true ->
  float64.leb amount float64.zero = true ->
  float64.ltb current amount = false.
Proof.
  unfold float64.leb, float64.ltb, float64.zero, SFleb, SFltb.
  destruct current as [s1|s1| |s1 m1 e1], amount as [s2|s2| |s2 m2 e2];
    cbn [SFcompare]; try discriminate; try reflexivity;
    try destruct s1; try destruct s2; try discriminate; reflexivity.
Qed.

(** C9, amended: a withdrawal request with an amount less than or equal to
    zero is not rejected for its sign.  With a valid label of at most 255
    digits it is refused with 402 (insufficient funds), the ledger
    unchanged, only when the float64 current balance is below the amount,
    which is never the case when that balance is not negative.  Otherwise
    the INSERT is made: when the column [NUMERIC(10, 2)] takes the amount
    the answer is 200 and one withdrawal record of the amount as stored is
    appended; when it does not, the answer is 500 and no record is
    created. *)
Theorem nonpositive_withdrawal_decided_by_balance
  (store : float64.t -> option Z) (db : DB) (now userID : Z)
  (orderNumber : string) (amount : float64.t) (balance : repository64.Balance) :
  float64.leb amount float64.zero = true ->
  valid_label orderNumber = true -> len orderNumber <= 255 ->
  repository64.GetUserBalance db userID = Ok balance ->
  let request := Ok {| handlers64.Order := orderNumber;
                       handlers64.Sum := amount |} in
  let attempted :=
    match store amount with
    | Some sum =>
        (http.StatusOK,
         {| orders := orders db;
            withdrawals := withdrawals db ++
              [{| w_UserID := userID; w_Order := orderNumber;
                  w_Sum := sum; w_ProcessedAt := now |}] |})
    | None => (http.StatusInternalServerError, db)
    end in
  handlers64.WithdrawBalance store db now (Some userID) request
  = (if float64.ltb (repository64.Current balance) amount
     then (http.StatusPaymentRequired, db) else attempted) /\
  (float64.leb float64.zero (repository64.Current balance) = true ->
   handlers64.WithdrawBalance store db now (Some userID) request = attempted).
Proof.
  intros Hneg Hv Hlen Hbal request attempted.
  assert (E : handlers64.WithdrawBalance store db now (Some userID) request
              = (if float64.ltb (repository64.Current balance) amount
                 then (http.StatusPaymentRequired, db) else attempted)).
  { unfold request. rewrite (Handler64_valid_label _ _ _ _ _ _ Hv).
    rewrite (WithdrawBalance64_decided _ _ _ _ _ _ _ Hbal).
    destruct (float64.ltb (repository64.Current balance) amount); [reflexivity|].
    unfold repository64.insert_withdrawal, attempted.
    destruct (Z.ltb_spec 255 (len orderNumber)); [lia|].
    destruct (store amount); reflexivity. }
  split; [exact E|].
  intros Hbalance. rewrite E.
  rewrite (nonpositive_below_nonnegative _ _ Hbalance Hneg). reflexivity.
Qed.

Lemma nonpositive_withdrawal_decided_by_balance_witness :
  handlers64.WithdrawBalance sql.numeric_10_2 repository.empty 3 (Some 1)
    (Ok {| handlers64.Order := "12345678903";
           handlers64.Sum := float64.of_hundredths (-1) |})
  = (http.StatusOK,
     {| orders := [];
        withdrawals := [{| w_UserID := 1; w_Order := "12345678903";
                           w_Sum := -1; w_ProcessedAt := 3 |}] |}) /\
  handlers64.WithdrawBalance sql.numeric_10_2 repository.empty 3 (Some 1)
    (Ok {| handlers64.Order := "12345678903";
           handlers64.Sum := float64.of_hundredths (- 10 ^ 10) |})
  = (http.StatusInternalServerError, repository.empty).
Proof.
  split.
  - refine (proj2 (nonpositive_withdrawal_decided_by_balance sql.numeric_10_2
                     repository.empty 3 1 "12345678903"
                     (float64.of_hundredths (-1))
                     {| repository64.Current := float64.zero; repository64.Withdrawn := float64.zero |}
                     _ _ _ _) _).
    + vm_compute. reflexivity.
    + vm_compute. reflexivity.
    + vm_compute. discriminate.
    + vm_compute. reflexivity.
    + vm_compute. reflexivity.
  - refine (proj2 (nonpositive_withdrawal_decided_by_balance sql.numeric_10_2
                     repository.empty 3 1 "12345678903"
                     (float64.of_hundredths (- 10 ^ 10))
                     {| repository64.Current := float64.zero; repository64.Withdrawn := float64.zero |}
                     _ _ _ _) _).
    + vm_compute. reflexivity.
    + vm_compute. reflexivity.
    + vm_compute. discriminate.
    + vm_compute. reflexivity.
    + vm_compute. reflexivity.
Defined.

End Balance64.

(** ** The life of an order *)

Section OrderLife.

Import server.

Lemma find_app_some {A : Type} (f : A -> bool) (l l' : list A) (x : A) :
  find f l = Some x -> find f (l ++ l') = Some x.
Proof.
  induction l as [|a l IH]; simpl; [discriminate|].
  destruct (f a); auto.
Qed.

Lemma find_app_none {A : Type} (f : A -> bool) (l l' : list A) :
  find f l = None -> find f (l ++ l') = find f l'.
Proof.
  induction l as [|a l IH]; simpl; [reflexivity|].
  destruct (f a); [discriminate | auto].
Qed.

(** Dropping rows keeps their keys distinct. *)
Lemma distinct_keys_filter {Row Key : Type} (key : Row -> Key)
  (keep : Row -> bool) :
  forall rows : list Row,
    NoDup (map key rows) -> NoDup (map key (filter keep rows)).
Proof.
  induction rows as [|r rows IH]; intros Hrows; [constructor|].
  apply NoDup_cons_iff in Hrows as [Hfresh Hrest]. cbn [filter].
  destruct (keep r); cbn [map]; [|exact (IH Hrest)].
  apply NoDup_cons; [|exact (IH Hrest)].
  intros Hdup. apply Hfresh.
  apply in_map_iff in Hdup as (r' & Hkey & Hkept).
  apply filter_In in Hkept. apply in_map_iff. exists r'. tauto.
Qed.

(** *** The statements on the table of orders *)

Lemma order_row_update_other db m status accrual n :
  n <> m ->
  order_row (snd (UpdateOrderStatus db m status accrual)) n = order_row db n.
Proof.
  intros Hne. unfold order_row, UpdateOrderStatus. simpl.
  induction (orders db) as [|r rows IH]; simpl; [reflexivity|].
  destruct (String.eqb_spec (o_Number r) m) as [Hm|Hm]; simpl.
  - destruct (String.eqb_spec (o_Number r) n); [congruence | exact IH].
  - destruct (String.eqb_spec (o_Number r) n); [reflexivity | exact IH].
Qed.

Lemma order_row_update_same db m status accrual o :
  order_row db m = Some o ->
  order_row (snd (UpdateOrderStatus db m status accrual)) m
  = Some {| o_Number := o_Number o; o_UserID := o_UserID o;
            o_Status := status; o_Accrual := accrual;
            o_UploadedAt := o_UploadedAt o |}.
Proof.
  unfold order_row, UpdateOrderStatus. simpl.
  induction (orders db) as [|r rows IH]; simpl; [discriminate|].
  destruct (String.eqb_spec (o_Number r) m) as [Hm|Hm]; simpl.
  - rewrite (proj2 (String.eqb_eq _ _) Hm). intros [= <-]. reflexivity.
  - rewrite (proj2 (String.eqb_neq _ _) Hm). exact IH.
Qed.

Lemma tracked_update_other db m status accrual g :
  g_order g <> m -> tracked db g ->
  tracked (snd (UpdateOrderStatus db m status accrual)) g.
Proof.
  intros Hne (o & Ho & Hst). exists o. split; [|exact Hst].
  rewrite order_row_update_other; auto.
Qed.

Lemma tracked_pending db g : tracked db g -> pending db (g_order g).
Proof.
  intros (o & Ho & Hst). exists o. split; [exact Ho|].
  rewrite Hst. destruct (g_at g); reflexivity.
Qed.

(** What [UploadOrder] does to the ledger: nothing, or it appends the row
    of a number that was not there and starts the goroutine for it. *)
Lemma UploadOrder_effect db now userID body :
  let '(_, db', started) := handlers.UploadOrder db now userID body in
  (db' = db /\ started = None) \/
  (exists uid n,
      started = Some n /\ order_row db n = None /\
      db' = {| orders := orders db ++
                 [{| o_Number := n; o_UserID := uid; o_Status := StatusNew;
                     o_Accrual := 0; o_UploadedAt := now |}];
               withdrawals := withdrawals db |}).
Proof.
  unfold handlers.UploadOrder.
  destruct userID as [uid|]; [|left; auto].
  destruct body as [n|]; [|left; auto].
  destruct (n =? "")%string; [left; auto|].
  destruct (negb (utils.IsNumeric n) || negb (utils.ValidateLuhn n));
    [left; auto|].
  unfold GetOrderByNumber.
  destruct (find (fun o => (o_Number o =? n)%string) (orders db)) as [o|] eqn:Hf.
  - destruct (o_UserID o =? uid); left; auto.
  - unfold CreateOrder.
    destruct (existsb (fun o => (o_Number o =? n)%string) (orders db)) eqn:He;
      [left; auto|].
    right. exists uid, n. auto.
Qed.

Lemma order_row_appended db n row :
  o_Number row = n ->
  order_row db n = None ->
  order_row {| orders := orders db ++ [row]; withdrawals := withdrawals db |} n
  = Some row.
Proof.
  intros Hn Hnone. unfold order_row in *. simpl.
  rewrite find_app_none by exact Hnone. simpl.
  rewrite Hn, String.eqb_refl. reflexivity.
Qed.

Lemma order_row_kept db k o row :
  order_row db k = Some o ->
  order_row {| orders := orders db ++ [row]; withdrawals := withdrawals db |} k
  = Some o.
Proof. unfold order_row. simpl. apply find_app_some. Qed.

Lemma tracked_kept db g row :
  tracked db g ->
  tracked {| orders := orders db ++ [row]; withdrawals := withdrawals db |} g.
Proof.
  intros (o & Ho & Hst). exists o. split; [|exact Hst].
  apply order_row_kept; exact Ho.
Qed.

(** *** The goroutines *)

Lemma goroutine_of_found s n g :
  goroutine_of s n = Some g -> In g (goroutines s) /\ g_order g = n.
Proof.
  unfold goroutine_of. intros H. apply find_some in H as [Hin Heq].
  split; [exact Hin|]. apply String.eqb_eq. exact Heq.
Qed.

Lemma at_point_orders s n pt :
  map g_order (at_point s n pt) = map g_order (goroutines s).
Proof.
  unfold at_point. rewrite map_map. apply map_ext.
  intros g. destruct (String.eqb_spec (g_order g) n); simpl; auto.
Qed.

Lemma Forall_without_goroutine (P : Goroutine -> Prop) s n :
  Forall P (goroutines s) ->
  Forall (fun g => P g /\ g_order g <> n) (without_goroutine s n).
Proof.
  unfold without_goroutine. intros H.
  apply Forall_forall. intros g Hg. apply filter_In in Hg as [Hin Hne].
  split.
  - rewrite Forall_forall in H. auto.
  - apply negb_true_iff in Hne. apply String.eqb_neq. exact Hne.
Qed.

Lemma at_wpoint_ids s id pt :
  map wd_id (at_wpoint s id pt) = map wd_id (withdrawing s).
Proof.
  unfold at_wpoint. rewrite map_map. apply map_ext.
  intros w. destruct (Z.eqb_spec (wd_id w) id); simpl; auto.
Qed.

Lemma Forall_ids_at_wpoint (P : Z -> Prop) s id pt :
  Forall (fun w => P (wd_id w)) (withdrawing s) ->
  Forall (fun w => P (wd_id w)) (at_wpoint s id pt).
Proof.
  intros H. apply (proj1 (Forall_map wd_id P (at_wpoint s id pt))).
  rewrite at_wpoint_ids. apply (proj2 (Forall_map wd_id P _)). exact H.
Qed.

Lemma Forall_filter_kept {A : Type} (P : A -> Prop) (p : A -> bool) (l : list A) :
  Forall P l -> Forall P (filter p l).
Proof.
  intros H. apply Forall_forall. intros x Hx.
  apply filter_In in Hx as [Hin _]. rewrite Forall_forall in H. auto.
Qed.

(** *** The invariant *)

Lemma consistent_init : consistent init.
Proof. split; simpl; constructor. Qed.

Lemma consistent_advance s n x :
  consistent s -> consistent (advance s n x).
Proof.
  intros [Hd Hp Hwd Hwn]. unfold advance.
  destruct (goroutine_of s n) as [g|] eqn:Hg; [|split; assumption].
  apply goroutine_of_found in Hg as [Hin Hord].
  assert (Hgn : tracked (ledger s) g).
  { rewrite Forall_forall in Hp. auto. }
  destruct (g_at g) as [| |accrualResp] eqn:Hat.
  - (* SetProcessing *)
    simpl. split; simpl; try assumption.
    + rewrite at_point_orders. exact Hd.
    + unfold at_point. apply Forall_map. revert Hp. apply Forall_impl.
      intros g' Hg'.
      destruct (String.eqb_spec (g_order g') n) as [E|E].
      * destruct Hg' as (o & Ho & _). rewrite E in Ho.
        eexists. split.
        -- apply (order_row_update_same (ledger s) n StatusProcessing 0 o Ho).
        -- reflexivity.
      * apply (tracked_update_other (ledger s) n StatusProcessing 0 g' E Hg').
  - (* Fetch *)
    destruct (GetOrderAccrual n x) as [[accrualResp|]|err].
    + destruct (final (a_Status accrualResp)).
      * split; simpl; try assumption.
        -- rewrite at_point_orders. exact Hd.
        -- unfold at_point. apply Forall_map. revert Hp. apply Forall_impl.
           intros g' Hg'.
           destruct (String.eqb_spec (g_order g') n) as [E|E]; [|exact Hg'].
           destruct Hgn as (o & Ho & Hst). rewrite Hord in Ho. rewrite Hat in Hst.
           exists o. split; assumption.
      * split; simpl; try assumption.
        -- apply distinct_keys_filter. exact Hd.
        -- apply Forall_filter_kept. exact Hp.
    + split; simpl; try assumption.
      * apply distinct_keys_filter. exact Hd.
      * apply Forall_filter_kept. exact Hp.
    + split; simpl; try assumption.
      * apply distinct_keys_filter. exact Hd.
      * apply Forall_filter_kept. exact Hp.
  - (* WriteFinal *)
    split; simpl; try assumption.
    + apply distinct_keys_filter. exact Hd.
    + pose proof (Forall_without_goroutine _ s n Hp) as H.
      revert H. apply Forall_impl. intros g' [Hg' Hne].
      apply tracked_update_other; assumption.
Qed.

Lemma consistent_withdraw_step s id :
  consistent s -> consistent (withdraw_step s id).
Proof.
  intros [Hd Hp Hwd Hwn]. unfold withdraw_step.
  destruct (withdrawing_of s id) as [w|]; [|split; assumption].
  destruct (wd_at w) as [|current|].
  - split; simpl; try assumption.
    + rewrite at_wpoint_ids. exact Hwd.
    + apply (Forall_ids_at_wpoint (fun i => i < next_id s)). exact Hwn.
  - destruct (_ <? _).
    + split; simpl; try assumption.
      * apply distinct_keys_filter. exact Hwd.
      * apply Forall_filter_kept. exact Hwn.
    + split; simpl; try assumption.
      * rewrite at_wpoint_ids. exact Hwd.
      * apply (Forall_ids_at_wpoint (fun i => i < next_id s)). exact Hwn.
  - split; simpl; try assumption.
    + apply distinct_keys_filter. exact Hwd.
    + apply Forall_filter_kept. exact Hwn.
Qed.

Lemma consistent_upload s userID body :
  consistent s -> consistent (step s (Upload userID body)).
Proof.
  intros [Hd Hp Hwd Hwn]. simpl.
  pose proof (UploadOrder_effect (ledger s) (clock s) userID body) as H.
  destruct (handlers.UploadOrder (ledger s) (clock s) userID body)
    as [[status db'] started].
  destruct H as [[-> ->] | (uid & n & -> & Hnone & ->)].
  - split; simpl; assumption.
  - split; simpl; try assumption.
    + rewrite map_app. apply NoDup_app; [exact Hd | repeat constructor; auto|].
      simpl. intros k Hk [<-|[]].
      apply in_map_iff in Hk as (g & Hgk & Hg).
      rewrite Forall_forall in Hp. destruct (Hp g Hg) as (o & Ho & _).
      rewrite Hgk in Ho. congruence.
    + apply Forall_app. split.
      * revert Hp. apply Forall_impl. intros g. apply tracked_kept.
      * constructor; [|constructor].
        eexists. split.
        -- cbn [g_order]. apply order_row_appended; [reflexivity | exact Hnone].
        -- reflexivity.
Qed.

Lemma consistent_step s e : consistent s -> consistent (step s e).
Proof.
  intros Hs. destruct e as [userID body|n x|n| |userID req|id|seconds].
  - apply consistent_upload; exact Hs.
  - apply consistent_advance; exact Hs.
  - destruct Hs as [Hd Hp Hwd Hwn]. split; simpl; try assumption.
    + apply distinct_keys_filter. exact Hd.
    + apply Forall_filter_kept. exact Hp.
  - destruct Hs as [Hd Hp Hwd Hwn]. split; simpl; assumption.
  - destruct Hs as [Hd Hp Hwd Hwn]. simpl.
    destruct (handlers.withdraw_admit userID req) as [status|[[uid order] sum]].
    + split; simpl; try assumption.
      revert Hwn. apply Forall_impl. intros w. lia.
    + split; simpl; try assumption.
      * rewrite map_app. apply NoDup_app; [exact Hwd | repeat constructor; auto|].
        simpl. intros k Hk [<-|[]].
        apply in_map_iff in Hk as (w & Hwk & Hw).
        rewrite Forall_forall in Hwn. specialize (Hwn w Hw). lia.
      * apply Forall_app. split.
        -- revert Hwn. apply Forall_impl. intros w. lia.
        -- constructor; [simpl; lia | constructor].
  - apply consistent_withdraw_step; exact Hs.
  - destruct Hs as [Hd Hp Hwd Hwn]. split; simpl; assumption.
Qed.

Lemma consistent_run events : forall s, consistent s -> consistent (run s events).
Proof.
  induction events as [|e events IH]; intros s Hs; simpl; [exact Hs|].
  apply IH. apply consistent_step. exact Hs.
Qed.

(** *** A final status stays *)

Lemma final_not_pending db n o :
  order_row db n = Some o -> final (o_Status o) = true -> ~ pending db n.
Proof. intros Ho Hf (o' & Ho' & Hf'). congruence. Qed.

Lemma final_row_advance s m x n o :
  consistent s ->
  order_row (ledger s) n = Some o -> final (o_Status o) = true ->
  order_row (ledger (advance s m x)) n = Some o.
Proof.
  intros [_ Hp _ _] Ho Hf. unfold advance.
  destruct (goroutine_of s m) as [g|] eqn:Hg; [|exact Ho].
  apply goroutine_of_found in Hg as [Hin Hord].
  assert (Hne : n <> m).
  { intros ->. apply (final_not_pending _ _ _ Ho Hf).
    rewrite Forall_forall in Hp. rewrite <- Hord. apply tracked_pending. auto. }
  destruct (g_at g) as [| |accrualResp].
  - rewrite <- Ho.
    exact (order_row_update_other (ledger s) m StatusProcessing 0 n Hne).
  - destruct (GetOrderAccrual m x) as [[accrualResp|]|err];
      [destruct (final (a_Status accrualResp))| |]; exact Ho.
  - rewrite <- Ho.
    exact (order_row_update_other (ledger s) m (a_Status accrualResp)
             (a_Accrual accrualResp) n Hne).
Qed.

Lemma final_row_step s e n o :
  consistent s ->
  order_row (ledger s) n = Some o -> final (o_Status o) = true ->
  order_row (ledger (step s e)) n = Some o.
Proof.
  intros Hs Ho Hf. destruct e as [userID body|m x|m| |userID req|id|seconds].
  - simpl.
    pose proof (UploadOrder_effect (ledger s) (clock s) userID body) as H.
    destruct (handlers.UploadOrder (ledger s) (clock s) userID body)
      as [[status db'] started].
    destruct H as [[-> ->] | (uid & k & -> & Hnone & ->)]; simpl.
    + exact Ho.
    + apply order_row_kept. exact Ho.
  - apply final_row_advance; assumption.
  - exact Ho.
  - exact Ho.
  - simpl. destruct (handlers.withdraw_admit userID req)
      as [status|[[uid order] sum]]; exact Ho.
  - simpl. unfold withdraw_step.
    destruct (withdrawing_of s id) as [w|]; [|exact Ho].
    destruct (wd_at w) as [|current|]; [exact Ho | | exact Ho].
    destruct (_ <? _); exact Ho.
  - exact Ho.
Qed.

Lemma final_row_run events :
  forall s n o, consistent s ->
  order_row (ledger s) n = Some o -> final (o_Status o) = true ->
  order_row (ledger (run s events)) n = Some o.
Proof.
  induction events as [|e events IH]; intros s n o Hs Ho Hf; simpl;
    [exact Ho|].
  apply IH; [apply consistent_step; exact Hs | | exact Hf].
  apply final_row_step; assumption.
Qed.

Lemma final_iff status :
  final status = true <->
  status = StatusProcessed \/ status = StatusInvalid.
Proof.
  unfold final. rewrite orb_true_iff, !String.eqb_eq. tauto.
Qed.

(** C4: once the ledger of the running server shows an order with status
    PROCESSED or INVALID, no later event (submission, step or cancellation
    of a goroutine, sweep, withdrawal) changes the row of that order: its
    status and its accrual stay.  In particular a sweep writes nothing, and
    [OrderProcessor.processOrder] called on an order with such a status
    returns before any write and before any call to the accrual service. *)
Theorem terminal_status_is_final (before after : list Event)
  (orderNumber : string) (o : Order) :
  let s := run init before in
  GetOrderByNumber (ledger s) orderNumber = Ok (Some o) ->
  o_Status o = StatusProcessed \/ o_Status o = StatusInvalid ->
  GetOrderByNumber (ledger (run s after)) orderNumber = Ok (Some o) /\
  ledger (step (run s after) Sweep) = ledger (run s after) /\
  (forall db x, service.processOrder db o x = (db, false)).
Proof.
  intros s Hrow Hst. apply final_iff in Hst.
  assert (Hs : consistent s) by (apply consistent_run, consistent_init).
  unfold GetOrderByNumber in *. injection Hrow as Hrow.
  repeat apply conj.
  - f_equal. apply (final_row_run after s orderNumber o Hs Hrow Hst).
  - reflexivity.
  - intros db x. unfold service.processOrder. rewrite Hst. reflexivity.
Qed.

End OrderLife.

Lemma terminal_status_is_final_witness :
  let n := "12345678903" in
  let verdict status accrual :=
    Responded {| StatusCode := 200; RetryAfter := "";
                 Body := Decoded {| a_Order := n; a_Status := status;
                                    a_Accrual := accrual |} |} in
  let before :=
    [server.Upload (Some 1) (Ok n);
     server.Advance n (verdict "PROCESSED" 50000);
     server.Advance n (verdict "PROCESSED" 50000);
     server.Advance n (verdict "PROCESSED" 50000)] in
  let after :=
    [server.Sweep; server.Upload (Some 2) (Ok n);
     server.Advance n (verdict "INVALID" 0); server.Cancel n;
     server.Elapse 5; server.Sweep;
     server.Upload (Some 1) (Ok n);
     server.Advance n (verdict "INVALID" 0);
     server.Advance n (verdict "INVALID" 0)] in
  let o := {| o_Number := n; o_UserID := 1; o_Status := "PROCESSED";
              o_Accrual := 50000; o_UploadedAt := 0 |} in
  GetOrderByNumber (server.ledger (server.run server.init before)) n
  = Ok (Some o) /\
  GetOrderByNumber
    (server.ledger (server.run (server.run server.init before) after)) n
  = Ok (Some o).
Proof.
  intros n verdict before after o.
  assert (H : GetOrderByNumber (server.ledger (server.run server.init before)) n
              = Ok (Some o)) by (vm_compute; reflexivity).
  split; [exact H|].
  exact (proj1 (terminal_status_is_final before after n o H
                  (or_introl eq_refl))).
Defined.

(** ** Goroutines and withdrawals that run without interruption

    The steps of the server model, taken in a row, do what the source
    functions [Handler.processOrder] and [Handler.WithdrawBalance] do when
    nothing else runs in between. *)

Section Uninterrupted.

Import server.

Lemma find_at_point (gs : list Goroutine) n pt g :
  find (fun g => (g_order g =? n)%string) gs = Some g ->
  find (fun g => (g_order g =? n)%string)
    (map (fun g => if (g_order g =? n)%string
                   then {| g_order := n; g_at := pt |} else g) gs)
  = Some {| g_order := n; g_at := pt |}.
Proof.
  induction gs as [|a gs IH]; simpl; [discriminate|].
  destruct (String.eqb_spec (g_order a) n) as [E|E]; simpl.
  - rewrite String.eqb_refl. reflexivity.
  - rewrite (proj2 (String.eqb_neq _ _) E). exact IH.
Qed.

Lemma find_without (gs : list Goroutine) n :
  find (fun g => (g_order g =? n)%string)
    (filter (fun g => negb (g_order g =? n)%string) gs) = None.
Proof.
  induction gs as [|a gs IH]; simpl; [reflexivity|].
  destruct (g_order a =? n)%string eqn:E; simpl; [exact IH|].
  rewrite E. exact IH.
Qed.

Lemma advance_absent s n x :
  goroutine_of s n = None -> advance s n x = s.
Proof. intros H. unfold advance. rewrite H. reflexivity. Qed.

Lemma advance_SetProcessing s n x g :
  goroutine_of s n = Some g -> g_at g = SetProcessing ->
  advance s n x
  = set_goroutines
      (set_ledger s (snd (UpdateOrderStatus (ledger s) n StatusProcessing 0)))
      (at_point s n Fetch).
Proof. intros H Hat. unfold advance. rewrite H, Hat. reflexivity. Qed.

Lemma advance_Fetch s n x g :
  goroutine_of s n = Some g -> g_at g = Fetch ->
  advance s n x
  = let s' := add_poll s {| p_time := clock s; p_order := n;
                            p_result := GetOrderAccrual n x |} in
    match GetOrderAccrual n x with
    | Ok (Some accrualResp) =>
        if final (a_Status accrualResp)
        then set_goroutines s' (at_point s' n (WriteFinal accrualResp))
        else set_goroutines s' (without_goroutine s' n)
    | _ => set_goroutines s' (without_goroutine s' n)
    end.
Proof.
  intros H Hat. unfold advance. rewrite H, Hat.
  destruct (GetOrderAccrual n x) as [[accrualResp|]|err]; reflexivity.
Qed.

Lemma advance_WriteFinal s n x g accrualResp :
  goroutine_of s n = Some g -> g_at g = WriteFinal accrualResp ->
  advance s n x
  = set_goroutines
      (set_ledger s (snd (UpdateOrderStatus (ledger s) n
                            (a_Status accrualResp) (a_Accrual accrualResp))))
      (without_goroutine s n).
Proof. intros H Hat. unfold advance. rewrite H, Hat. reflexivity. Qed.

Lemma processOrder_uninterrupted s n x g :
  goroutine_of s n = Some g -> g_at g = SetProcessing ->
  let s' := run s [Advance n x; Advance n x; Advance n x] in
  ledger s' = handlers.processOrder (ledger s) n x /\
  goroutine_of s' n = None.
Proof.
  intros Hg Hat.
  change (run s [Advance n x; Advance n x; Advance n x])
    with (advance (advance (advance s n x) n x) n x).
  rewrite (advance_SetProcessing s n x g Hg Hat).
  set (s1 := set_goroutines _ (at_point s n Fetch)).
  assert (H1 : goroutine_of s1 n = Some {| g_order := n; g_at := Fetch |}).
  { apply find_at_point with (g := g). exact Hg. }
  rewrite (advance_Fetch s1 n x _ H1 eq_refl). cbv zeta.
  set (s1' := add_poll s1 _).
  assert (Hnone : goroutine_of
                    (set_goroutines s1' (without_goroutine s1' n)) n = None)
    by apply find_without.
  unfold handlers.processOrder.
  change (UpdateOrderStatus (ledger s) n StatusProcessing 0)
    with (@None error, ledger s1').
  cbv iota beta.
  destruct (GetOrderAccrual n x) as [[accrualResp|]|err].
  - destruct (final (a_Status accrualResp)) eqn:Hf.
    + set (s2 := set_goroutines s1' _).
      assert (H2 : goroutine_of s2 n
                   = Some {| g_order := n; g_at := WriteFinal accrualResp |}).
      { apply find_at_point with (g := {| g_order := n; g_at := Fetch |}).
        exact H1. }
      rewrite (advance_WriteFinal s2 n x _ accrualResp H2 eq_refl).
      split; [reflexivity | apply find_without].
    + rewrite (advance_absent _ n x Hnone). split; [reflexivity | exact Hnone].
  - rewrite (advance_absent _ n x Hnone). split; [reflexivity | exact Hnone].
  - rewrite (advance_absent _ n x Hnone). split; [reflexivity | exact Hnone].
Qed.

Lemma find_fresh_withdrawing (ws : list Withdrawing) w :
  Forall (fun v => wd_id v < wd_id w) ws ->
  find (fun v => wd_id v =? wd_id w) (ws ++ [w]) = Some w.
Proof.
  intros Hlt. rewrite find_app_none.
  - simpl. rewrite Z.eqb_refl. reflexivity.
  - induction Hlt as [|a ws Ha _ IH]; simpl; [reflexivity|].
    destruct (Z.eqb_spec (wd_id a) (wd_id w)); [lia | exact IH].
Qed.

Lemma find_no_withdrawing (ws : list Withdrawing) id :
  Forall (fun v => wd_id v < id) ws ->
  find (fun v => wd_id v =? id) ws = None.
Proof.
  intros Hlt. induction Hlt as [|a ws Ha _ IH]; simpl; [reflexivity|].
  destruct (Z.eqb_spec (wd_id a) id); [lia | exact IH].
Qed.

Lemma filter_fresh_withdrawing (ws : list Withdrawing) w :
  Forall (fun v => wd_id v < wd_id w) ws ->
  filter (fun v => negb (wd_id v =? wd_id w)) (ws ++ [w]) = ws.
Proof.
  intros Hlt. rewrite filter_app. simpl. rewrite Z.eqb_refl. simpl.
  rewrite app_nil_r.
  induction Hlt as [|a ws Ha _ IH]; simpl; [reflexivity|].
  destruct (Z.eqb_spec (wd_id a) (wd_id w)); [lia|]. simpl. f_equal. exact IH.
Qed.

Lemma map_fresh_withdrawing (ws : list Withdrawing) w pt :
  Forall (fun v => wd_id v < wd_id w) ws ->
  map (fun v => if wd_id v =? wd_id w
                then {| wd_id := wd_id w; wd_userID := wd_userID v;
                        wd_order := wd_order v; wd_amount := wd_amount v;
                        wd_at := pt |}
                else v) (ws ++ [w])
  = ws ++ [moved w pt].
Proof.
  intros Hlt. rewrite map_app. simpl. rewrite Z.eqb_refl. f_equal.
  induction Hlt as [|a ws Ha _ IH]; simpl; [reflexivity|].
  destruct (Z.eqb_spec (wd_id a) (wd_id w)); [lia|]. f_equal. exact IH.
Qed.

(** The step of the withdrawal accepted last. *)
Lemma withdraw_step_last s ws w :
  withdrawing s = ws ++ [w] ->
  Forall (fun v => wd_id v < wd_id w) ws ->
  withdraw_step s (wd_id w) =
    match wd_at w with
    | ReadAccrual =>
        set_withdrawing s
          (ws ++ [moved w (ReadWithdrawn
                             (query_accrual (ledger s) (wd_userID w)
                                StatusProcessed))])
    | ReadWithdrawn current =>
        if current - query_withdrawn (ledger s) (wd_userID w) <? wd_amount w
        then add_reply (set_withdrawing s ws) (wd_id w)
               http.StatusPaymentRequired
        else set_withdrawing s (ws ++ [moved w Insert])
    | Insert =>
        add_reply
          (set_withdrawing
             (set_ledger s
                (snd (insert_withdrawal (ledger s) (clock s) (wd_userID w)
                        (wd_order w) (wd_amount w))))
             ws)
          (wd_id w) http.StatusOK
    end.
Proof.
  intros Hws Hlt. unfold withdraw_step, withdrawing_of, at_wpoint,
    without_withdrawing.
  rewrite Hws, (find_fresh_withdrawing ws w Hlt).
  destruct (wd_at w) as [|current|].
  - rewrite (map_fresh_withdrawing ws w _ Hlt). reflexivity.
  - cbn [b_Current].
    destruct (_ <? _).
    + rewrite (filter_fresh_withdrawing ws w Hlt). reflexivity.
    + rewrite (map_fresh_withdrawing ws w _ Hlt). reflexivity.
  - rewrite (filter_fresh_withdrawing ws w Hlt). reflexivity.
Qed.

Lemma withdraw_step_absent s id :
  Forall (fun v => wd_id v < id) (withdrawing s) ->
  withdraw_step s id = s.
Proof.
  intros H. unfold withdraw_step, withdrawing_of.
  rewrite (find_no_withdrawing _ id H). reflexivity.
Qed.

(** A withdrawal request served without interruption: the reply and the
    ledger are those of [handlers.WithdrawBalance]. *)
Lemma withdraw_uninterrupted s userID req :
  Forall (fun v => wd_id v < next_id s) (withdrawing s) ->
  let id := next_id s in
  let s' := run s [Withdraw userID req; WithdrawStep id; WithdrawStep id;
                   WithdrawStep id] in
  ledger s' = snd (handlers.WithdrawBalance (ledger s) (clock s) userID req) /\
  replies s' = replies s ++
    [(id, fst (handlers.WithdrawBalance (ledger s) (clock s) userID req))] /\
  withdrawing s' = withdrawing s /\
  goroutines s' = goroutines s /\
  clock s' = clock s /\
  next_id s' = next_id s + 1.
Proof.
  intros Hlt id.
  change (run s [Withdraw userID req; WithdrawStep id; WithdrawStep id;
                 WithdrawStep id])
    with (withdraw_step (withdraw_step (withdraw_step
            (step s (Withdraw userID req)) id) id) id).
  unfold handlers.WithdrawBalance. cbn [step]. fold id.
  destruct (handlers.withdraw_admit userID req) as [status|[[uid order] sum]].
  - assert (Habs : forall t, withdrawing t = withdrawing s ->
                             withdraw_step t id = t).
    { intros t Ht. apply withdraw_step_absent. rewrite Ht. exact Hlt. }
    rewrite !(Habs (add_reply (fresh_id s) id status) eq_refl). repeat split.
  - set (w := {| wd_id := id; wd_userID := uid; wd_order := order;
                 wd_amount := sum; wd_at := ReadAccrual |}).
    set (s0 := set_withdrawing (fresh_id s) (withdrawing s ++ [w])).
    pose proof (withdraw_step_last s0 (withdrawing s) w eq_refl Hlt) as E0.
    change (wd_id w) with id in E0. rewrite E0. clear E0.
    cbn [wd_at w].
    set (w1 := moved w _). set (s1 := set_withdrawing s0 _).
    pose proof (withdraw_step_last s1 (withdrawing s) w1 eq_refl Hlt) as E1.
    change (wd_id w1) with id in E1. rewrite E1. clear E1.
    rewrite WithdrawBalance_decided.
    cbn [wd_at w1 moved]. rewrite query_accrual_spec, query_withdrawn_spec.
    cbn [b_Current spec_balance wd_userID wd_amount w ledger s1 s0
         set_withdrawing fresh_id].
    destruct (_ <? _).
    + rewrite withdraw_step_absent by exact Hlt. repeat split.
    + set (w2 := moved w1 Insert). set (s2 := set_withdrawing s1 _).
      pose proof (withdraw_step_last s2 (withdrawing s) w2 eq_refl Hlt) as E2.
      change (wd_id w2) with id in E2. rewrite E2. clear E2.
      repeat split.
Qed.

End Uninterrupted.

(** ** Withdrawals against the same balance *)

Section Withdrawals.

Import server.

Lemma spec_withdrawn_app ws ws' userID :
  spec_withdrawn (ws ++ ws') userID
  = spec_withdrawn ws userID + spec_withdrawn ws' userID.
Proof. induction ws as [|w ws IH]; simpl; [reflexivity | rewrite IH; lia]. Qed.

(** C2, as stated, fails: the two queries of the balance and the INSERT of
    [WithdrawBalance] are three statements with no transaction around them.
    With 100.00 on the balance, two requests for 100.00 each whose
    statements interleave both read the balance before either inserts:
    both are answered 200, both records are created, and the balance
    drops to -100.00. *)
Lemma concurrent_withdrawals_double_spend :
  let n := "12345678903" in
  let processed :=
    Responded {| StatusCode := 200; RetryAfter := "";
                 Body := Decoded {| a_Order := n; a_Status := "PROCESSED";
                                    a_Accrual := 10000 |} |} in
  let req := Ok {| handlers.Order := n; handlers.Sum := 10000 |} in
  let s := run init [Upload (Some 1) (Ok n); Advance n processed;
                     Advance n processed; Advance n processed] in
  let s' := run s [Withdraw (Some 1) req; Withdraw (Some 1) req;
                   WithdrawStep 0; WithdrawStep 1;
                   WithdrawStep 0; WithdrawStep 1;
                   WithdrawStep 0; WithdrawStep 1] in
  GetUserBalance (ledger s) 1
  = Ok {| b_Current := 10000; b_Withdrawn := 0 |} /\
  replies s' = [(0, http.StatusOK); (1, http.StatusOK)] /\
  List.length (withdrawals (ledger s')) = 2%nat /\
  GetUserBalance (ledger s') 1
  = Ok {| b_Current := -10000; b_Withdrawn := 20000 |}.
Proof. vm_compute. repeat split; reflexivity. Qed.

End Withdrawals.

(** ** Withdrawals against the same balance, in float64 *)

Section Withdrawals64.

Lemma insert_withdrawal64_stored store db now userID orderNumber amount sum :
  len orderNumber <= 255 -> store amount = Some sum ->
  repository64.insert_withdrawal store db now userID orderNumber amount
  = (None,
     {| orders := orders db;
        withdrawals := withdrawals db ++
          [{| w_UserID := userID; w_Order := orderNumber; w_Sum := sum;
              w_ProcessedAt := now |}] |}).
Proof.
  intros Hlen Hst. unfold repository64.insert_withdrawal.
  destruct (Z.ltb_spec 255 (len orderNumber)); [lia|].
  rewrite Hst. reflexivity.
Qed.

Lemma sums_after_insert db w userID status :
  let db' := {| orders := orders db; withdrawals := withdrawals db ++ [w] |} in
  query_accrual db' userID status = query_accrual db userID status /\
  query_withdrawn db' userID
  = query_withdrawn db userID + (if w_UserID w =? userID then w_Sum w else 0).
Proof.
  intros db'. split; [reflexivity|].
  rewrite !query_withdrawn_spec. unfold db'. cbn [withdrawals].
  rewrite spec_withdrawn_app. simpl. lia.
Qed.

(** A call that returns no error has passed the check and stored one
    record. *)
Lemma WithdrawBalance64_done store db now userID orderNumber amount :
  fst (repository64.WithdrawBalance store db now userID orderNumber amount)
  = None ->
  exists balance sum,
    repository64.GetUserBalance db userID = Ok balance /\
    float64.ltb (repository64.Current balance) amount = false /\
    store amount = Some sum /\
    snd (repository64.WithdrawBalance store db now userID orderNumber amount)
    = {| orders := orders db;
         withdrawals := withdrawals db ++
           [{| w_UserID := userID; w_Order := orderNumber; w_Sum := sum;
               w_ProcessedAt := now |}] |}.
Proof.
  unfold repository64.WithdrawBalance.
  destruct (repository64.GetUserBalance db userID) as [balance|err];
    [|discriminate].
  destruct (float64.ltb (repository64.Current balance) amount) eqn:Hcheck;
    [discriminate|].
  unfold repository64.insert_withdrawal.
  destruct (255 <? len orderNumber); [discriminate|].
  destruct (store amount) as [sum|] eqn:Hst; [|discriminate].
  intros _. exists balance, sum.
  split; [reflexivity|]. split; [exact Hcheck|]. split; reflexivity.
Qed.

(** The float64 side of the double spend: on a balance of 100.00 a request
    for 100.00 whose two reads precede the INSERT of another request for
    100.00 is carried out as well, and the balance becomes -100.00. *)
Example interleaved_withdrawals_double_spend :
  let db := {| orders := [{| o_Number := "12345678903"; o_UserID := 1;
                             o_Status := "PROCESSED"; o_Accrual := 10000;
                             o_UploadedAt := 0 |}];
               withdrawals := [] |} in
  let amount := float64.of_hundredths 10000 in
  let first :=
    repository64.WithdrawBalance sql.numeric_10_2 db 1 1 "18" amount in
  let second :=
    repository64.WithdrawBalance_interleaved sql.numeric_10_2
      db db (snd first) 2 1 "26" amount in
  fst first = None /\ fst second = None /\
  map w_Sum (withdrawals (snd second)) = [10000; 10000] /\
  repository64.GetUserBalance (snd second) 1
  = Ok {| repository64.Current := float64.of_hundredths (-10000);
          repository64.Withdrawn := float64.of_hundredths 20000 |}.
Proof. vm_compute. repeat split; reflexivity. Qed.

(** Served one after the other, two requests can still take more than the
    balance.  With 0.80 accrued and 0.10 withdrawn the balance is 0.70, and
    the requests for 0.7000000000000001 and then for 0 are both carried
    out.  With 0.01 accrued, the requests for 0.004 and then for 0.007 are
    both carried out: the column stores 0.00 for the first. *)
Example serial_withdrawals_above_balance :
  let order accrual := {| o_Number := "12345678903"; o_UserID := 1;
                          o_Status := "PROCESSED"; o_Accrual := accrual;
                          o_UploadedAt := 0 |} in
  let db := {| orders := [order 80];
               withdrawals := [{| w_UserID := 1; w_Order := "79927398713";
                                  w_Sum := 10; w_ProcessedAt := 5 |}] |} in
  let amount := S754_finite false 6305039478318695 (-53) in
  let first :=
    repository64.WithdrawBalance sql.numeric_10_2 db 6 1 "18" amount in
  let second :=
    repository64.WithdrawBalance sql.numeric_10_2 (snd first) 7 1 "26"
      float64.zero in
  let db' := {| orders := [order 1]; withdrawals := [] |} in
  let first' :=
    repository64.WithdrawBalance sql.numeric_10_2 db' 6 1 "18"
      (float64.of_decimal 4 3) in
  let second' :=
    repository64.WithdrawBalance sql.numeric_10_2 (snd first') 7 1 "26"
      (float64.of_decimal 7 3) in
  float64.above_hundredths amount 70 = true /\
  fst first = None /\ fst second = None /\
  map w_Sum (withdrawals (snd second)) = [10; 70; 0] /\
  fst first' = None /\ fst second' = None /\
  map w_Sum (withdrawals (snd second')) = [0; 1].
Proof. vm_compute. repeat split; reflexivity. Qed.

(** C2, amended: the balance check (two SELECTs, their results subtracted
    and compared in float64) and the INSERT of the withdrawal record are
    separate statements with no transaction around them.  When two
    withdrawal requests of a user (their labels digit strings, as the
    handler lets through) are served one after the other and the first
    succeeds, the second is checked against the balance that
    [GetUserBalance] computes with the record of the first, as the column
    stored it, among the withdrawals: if its amount is greater than that
    balance it is refused with "insufficient funds" and only one of the two
    succeeds.  When the reads of the second precede the INSERT of the
    first, the second is checked against the balance without that record
    and, if it passes, its record is inserted without a second check. *)
Theorem second_withdrawal_checked_on_its_own_reads
  (store : float64.t -> option Z) (db : DB) (now1 now2 userID : Z)
  (order1 order2 : string) (amount1 amount2 : float64.t) :
  let first :=
    repository64.WithdrawBalance store db now1 userID order1 amount1 in
  all_digits order1 = true -> all_digits order2 = true ->
  fst first = None ->
  exists sum1,
    store amount1 = Some sum1 /\
    snd first
    = {| orders := orders db;
         withdrawals := withdrawals db ++
           [{| w_UserID := userID; w_Order := order1; w_Sum := sum1;
               w_ProcessedAt := now1 |}] |} /\
    (* the second request after the first *)
    repository64.GetUserBalance (snd first) userID
    = repository64.balance_of (query_accrual db userID StatusProcessed)
                              (query_withdrawn db userID + sum1) /\
    (forall left,
       repository64.GetUserBalance (snd first) userID = Ok left ->
       float64.ltb (repository64.Current left) amount2 = true ->
       repository64.WithdrawBalance store (snd first) now2 userID
         order2 amount2
       = (Some ErrInsufficientFunds, snd first)) /\
    (* the reads of the second before the INSERT of the first *)
    (forall balance,
       repository64.GetUserBalance db userID = Ok balance ->
       repository64.WithdrawBalance_interleaved store db db (snd first)
         now2 userID order2 amount2
       = if float64.ltb (repository64.Current balance) amount2
         then (Some ErrInsufficientFunds, snd first)
         else repository64.insert_withdrawal store (snd first) now2 userID
                order2 amount2).
Proof.
  intros first _ _ Hdone.
  destruct (WithdrawBalance64_done store db now1 userID order1 amount1 Hdone)
    as (balance1 & sum1 & _ & _ & Hst & Hsnd).
  fold first in Hsnd.
  exists sum1. split; [exact Hst|]. split; [exact Hsnd|].
  destruct (sums_after_insert db
              {| w_UserID := userID; w_Order := order1; w_Sum := sum1;
                 w_ProcessedAt := now1 |} userID StatusProcessed) as [Ha Hw].
  cbn [w_UserID w_Sum] in Hw. rewrite Z.eqb_refl in Hw.
  split; [|split].
  - rewrite Hsnd. unfold repository64.GetUserBalance. rewrite Ha, Hw.
    reflexivity.
  - intros left Hleft Hlt.
    rewrite (WithdrawBalance64_decided _ _ _ _ _ _ _ Hleft), Hlt.
    reflexivity.
  - intros balance Hbal. unfold repository64.WithdrawBalance_interleaved.
    unfold repository64.GetUserBalance in Hbal. rewrite Hbal. reflexivity.
Qed.

Lemma second_withdrawal_checked_on_its_own_reads_witness :
  let db := {| orders := [{| o_Number := "12345678903"; o_UserID := 1;
                             o_Status := "PROCESSED"; o_Accrual := 10000;
                             o_UploadedAt := 0 |}];
               withdrawals := [] |} in
  let amount := float64.of_hundredths 10000 in
  let first :=
    repository64.WithdrawBalance sql.numeric_10_2 db 1 1 "18" amount in
  repository64.WithdrawBalance sql.numeric_10_2 (snd first) 2 1 "26" amount
  = (Some ErrInsufficientFunds, snd first) /\
  repository64.WithdrawBalance_interleaved sql.numeric_10_2 db db (snd first)
    2 1 "26" amount
  = repository64.insert_withdrawal sql.numeric_10_2 (snd first) 2 1 "26"
      amount.
Proof.
  intros db amount first.
  destruct (second_withdrawal_checked_on_its_own_reads sql.numeric_10_2 db
              1 2 1 "18" "26" amount amount eq_refl eq_refl eq_refl)
    as (sum1 & _ & _ & _ & Hserial & Hrace).
  split.
  - apply (Hserial {| repository64.Current := float64.zero;
                      repository64.Withdrawn := amount |}).
    + vm_compute. reflexivity.
    + vm_compute. reflexivity.
  - exact (Hrace {| repository64.Current := amount;
                    repository64.Withdrawn := float64.zero |} eq_refl).
Defined.

End Withdrawals64.

(** ** The sweep and the rate limit *)

Section Sweep.

Import server.

Lemma step_sweep s : step s Sweep = s.
Proof. destruct s; reflexivity. Qed.

(** C5: the ticker of the order processor fires every 5 seconds, but the
    sweep it triggers selects and processes nothing.  An order is submitted
    and the goroutine started for it is lost before its first statement, so
    the order is NEW and nothing else will process it; [processPendingOrders]
    leaves the ledger, the goroutines and the history of calls to the
    accrual service as they were, and the order is still NEW, never polled,
    after any number of sweeps. *)
Theorem sweep_selects_nothing :
  let n := "12345678903" in
  let s := run init [Upload (Some 1) (Ok n); Cancel n; Elapse 5] in
  interval NewOrderProcessor = 5 * Second /\
  order_row (ledger s) n
  = Some {| o_Number := n; o_UserID := 1; o_Status := StatusNew;
            o_Accrual := 0; o_UploadedAt := 0 |} /\
  processLoop_round (ledger s) Tick = (ledger s, true) /\
  (forall db, processPendingOrders db = db) /\
  (forall k, run s (repeat Sweep k) = s) /\
  order_row (ledger (step s Sweep)) n
  = Some {| o_Number := n; o_UserID := 1; o_Status := StatusNew;
            o_Accrual := 0; o_UploadedAt := 0 |} /\
  polls (step s Sweep) = [].
Proof.
  intros n s. repeat apply conj; try reflexivity.
  generalize s. clear s. intros s.
  induction k as [|k IH]; [reflexivity|].
  cbn [repeat run fold_left]. rewrite step_sweep. exact IH.
Qed.

Lemma find_filter_other (gs : list Goroutine) m n :
  m <> n ->
  find (fun g => (g_order g =? m)%string)
    (filter (fun g => negb (g_order g =? n)%string) gs)
  = find (fun g => (g_order g =? m)%string) gs.
Proof.
  intros Hne. induction gs as [|a gs IH]; simpl; [reflexivity|].
  destruct (String.eqb_spec (g_order a) n) as [E|E]; simpl.
  - destruct (String.eqb_spec (g_order a) m); [congruence | exact IH].
  - destruct (g_order a =? m)%string; [reflexivity | exact IH].
Qed.

Lemma polls_advance_Fetch s m x g :
  goroutine_of s m = Some g -> g_at g = Fetch ->
  polls (advance s m x)
  = polls s ++ [{| p_time := clock s; p_order := m;
                   p_result := GetOrderAccrual m x |}].
Proof.
  intros Hg Hat. rewrite (advance_Fetch s m x g Hg Hat). cbv zeta.
  destruct (GetOrderAccrual m x) as [[accrualResp|]|err];
    [destruct (final (a_Status accrualResp))| |]; reflexivity.
Qed.

Lemma GetOrderAccrual_429_error n resp :
  StatusCode resp = http.StatusTooManyRequests ->
  exists e, GetOrderAccrual n (Responded resp) = Err e /\
            (e = ErrRateLimited \/ exists seconds, e = ErrRateLimitedAfter seconds).
Proof.
  intros H. rewrite (GetOrderAccrual_429 n resp H).
  destruct (strconv.Atoi (RetryAfter resp)) as [seconds [err|]]; eauto.
Qed.

(** C6, as stated, fails: a rate-limit answer suspends nothing.  Two orders
    are submitted and their goroutines reach the call to the accrual
    service; the call for the first is answered 429 with Retry-After 60;
    the call for the second is made at the same second, not 60 seconds
    later, and its verdict is written. *)
Lemma rate_limit_suspends_nothing :
  let a := "12345678903" in
  let b := "79927398713" in
  let limited := Responded {| StatusCode := 429; RetryAfter := "60";
                              Body := ReadFailed "" |} in
  let processed :=
    Responded {| StatusCode := 200; RetryAfter := "";
                 Body := Decoded {| a_Order := b; a_Status := "PROCESSED";
                                    a_Accrual := 700 |} |} in
  let s := run init [Upload (Some 1) (Ok a); Upload (Some 1) (Ok b);
                     Advance a limited; Advance b processed;
                     Advance a limited; Advance b processed;
                     Advance b processed] in
  map (fun p => (p_time p, p_order p, outcome_of (p_result p))) (polls s)
  = [(0, a, RateLimited (Some 60));
     (0, b, Verdict {| a_Order := b; a_Status := "PROCESSED";
                       a_Accrual := 700 |})] /\
  respects_rate_limit (polls s) = false /\
  option_map o_Status (order_row (ledger s) b) = Some "PROCESSED".
Proof. vm_compute. repeat split; reflexivity. Qed.

(** C6, amended: when the call to the accrual service for an order is
    answered 429, the client returns a rate-limit error and the processing
    of that order alone ends there: nothing is written to the ledger, the
    order keeps the status PROCESSING, and no time has to pass before
    another order is polled; the goroutine of any other order that has
    reached its call makes it at its next step.  Likewise
    [OrderProcessor.processOrder] on an order in PROCESSING makes the call
    and returns without a write. *)
Theorem rate_limit_ends_only_that_attempt (before : list Event)
  (n : string) (g : Goroutine) (resp : Response) :
  let s := run init before in
  goroutine_of s n = Some g -> g_at g = Fetch ->
  StatusCode resp = http.StatusTooManyRequests ->
  let s' := step s (Advance n (Responded resp)) in
  (exists e, GetOrderAccrual n (Responded resp) = Err e /\
             (e = ErrRateLimited \/
              exists seconds, e = ErrRateLimitedAfter seconds)) /\
  ledger s' = ledger s /\
  (exists o, order_row (ledger s') n = Some o /\
             o_Status o = StatusProcessing) /\
  goroutine_of s' n = None /\
  clock s' = clock s /\
  (forall m g' x, m <> n -> goroutine_of s m = Some g' -> g_at g' = Fetch ->
     polls (step s' (Advance m x))
     = polls s' ++ [{| p_time := clock s; p_order := m;
                       p_result := GetOrderAccrual m x |}]) /\
  (forall db order, o_Status order = StatusProcessing ->
     service.processOrder db order (Responded resp) = (db, true)).
Proof.
  intros s Hg Hat H429 s'.
  assert (Hs : consistent s) by (apply consistent_run, consistent_init).
  destruct (GetOrderAccrual_429_error n resp H429) as (e & He & Hkind).
  assert (Hs' : s' = set_goroutines
                       (add_poll s {| p_time := clock s; p_order := n;
                                      p_result := Err e |})
                       (without_goroutine s n)).
  { unfold s'. cbn [step]. rewrite (advance_Fetch s n _ g Hg Hat). cbv zeta.
    rewrite He. reflexivity. }
  split; [exists e; auto|].
  rewrite Hs'. repeat apply conj.
  - reflexivity.
  - destruct (goroutine_of_found s n g Hg) as [Hin Hord].
    pose proof (goroutines_tracked s Hs) as Ht.
    rewrite Forall_forall in Ht. destruct (Ht g Hin) as (o & Ho & Hst).
    rewrite Hord in Ho. rewrite Hat in Hst. exists o. split; assumption.
  - apply find_without.
  - reflexivity.
  - intros m g' x Hne Hg' Hat'. cbn [step].
    rewrite (polls_advance_Fetch _ m x g'); [reflexivity | | exact Hat'].
    unfold goroutine_of. cbn [goroutines set_goroutines].
    unfold without_goroutine. rewrite find_filter_other by exact Hne.
    exact Hg'.
  - intros db order Hst. unfold service.processOrder. rewrite Hst.
    cbn [final]. change (final StatusProcessing) with false. cbv iota.
    change (StatusProcessing =? StatusNew)%string with false. cbv iota.
    destruct (GetOrderAccrual_429_error (o_Number order) resp H429)
      as (e' & He' & _).
    rewrite He'. reflexivity.
Qed.

End Sweep.

Lemma rate_limit_ends_only_that_attempt_witness :
  let a := "12345678903" in
  let b := "79927398713" in
  let limited := {| StatusCode := 429; RetryAfter := "60";
                    Body := ReadFailed "" |} in
  let before := [server.Upload (Some 1) (Ok a); server.Upload (Some 1) (Ok b);
                 server.Advance a (Responded limited);
                 server.Advance b (Responded limited)] in
  let s := server.run server.init before in
  let s' := server.step s (server.Advance a (Responded limited)) in
  server.goroutine_of s a
  = Some {| server.g_order := a; server.g_at := server.Fetch |} /\
  server.ledger s' = server.ledger s /\
  server.goroutine_of s' a = None.
Proof.
  intros a b limited before s s'.
  assert (Hg : server.goroutine_of s a
               = Some {| server.g_order := a; server.g_at := server.Fetch |})
    by (vm_compute; reflexivity).
  split; [exact Hg|].
  destruct (rate_limit_ends_only_that_attempt before a _ limited Hg
              eq_refl eq_refl) as (_ & Hl & _ & Hn & _).
  split; [exact Hl | exact Hn].
Defined.

(** ** The scenario of the specification

    Order 12345678903 is submitted by user 1 and accepted as NEW; its
    goroutine sets PROCESSING; the accrual service answers PROCESSED with
    500.00; the balance is 500.00; withdrawing 500.00 succeeds and leaves
    0; withdrawing 0.01 more is refused for insufficient funds.  These
    amounts are float64 numbers exactly, or are compared with 0: the
    float64 functions give the same answers. *)
Example scenario :
  let n := "12345678903" in
  let processed :=
    Responded {| StatusCode := 200; RetryAfter := "";
                 Body := Decoded {| a_Order := n; a_Status := "PROCESSED";
                                    a_Accrual := 50000 |} |} in
  let withdraw amount :=
    server.Withdraw (Some 1)
      (Ok {| handlers.Order := n; handlers.Sum := amount |}) in
  let s0 := server.run server.init [server.Upload (Some 1) (Ok n)] in
  let s1 := server.run s0 [server.Advance n processed] in
  let s2 := server.run s1 [server.Advance n processed;
                           server.Advance n processed] in
  let s3 := server.run s2 [withdraw 50000; server.WithdrawStep 0;
                           server.WithdrawStep 0; server.WithdrawStep 0] in
  let s4 := server.run s3 [withdraw 1; server.WithdrawStep 1;
                           server.WithdrawStep 1; server.WithdrawStep 1] in
  option_map o_Status (order_row (server.ledger s0) n) = Some "NEW" /\
  option_map o_Status (order_row (server.ledger s1) n) = Some "PROCESSING" /\
  order_row (server.ledger s2) n
  = Some {| o_Number := n; o_UserID := 1; o_Status := "PROCESSED";
            o_Accrual := 50000; o_UploadedAt := 0 |} /\
  GetUserBalance (server.ledger s2) 1
  = Ok {| b_Current := 50000; b_Withdrawn := 0 |} /\
  GetUserBalance (server.ledger s3) 1
  = Ok {| b_Current := 0; b_Withdrawn := 50000 |} /\
  server.replies s4 = [(0, http.StatusOK); (1, http.StatusPaymentRequired)] /\
  server.ledger s4 = server.ledger s3 /\
  repository64.GetUserBalance (server.ledger s2) 1
  = Ok {| repository64.Current := float64.of_hundredths 50000;
          repository64.Withdrawn := float64.zero |} /\
  repository64.WithdrawBalance sql.numeric_10_2 (server.ledger s2) 0 1 n
    (float64.of_hundredths 50000)
  = (None, server.ledger s3) /\
  repository64.GetUserBalance (server.ledger s3) 1
  = Ok {| repository64.Current := float64.zero;
          repository64.Withdrawn := float64.of_hundredths 50000 |} /\
  repository64.WithdrawBalance sql.numeric_10_2 (server.ledger s3) 0 1 n
    (float64.of_hundredths 1)
  = (Some ErrInsufficientFunds, server.ledger s3).
Proof. vm_compute. repeat split; reflexivity. Qed.

(** * Further properties of the code *)

(** ** The Luhn checksum *)

Section LuhnTheory.

Lemma digits_of_all_digits s ds :
  utils.digits_of s = Some ds ->
  forallb strconv.is_digit (list_ascii_of_string s) = true /\
  Forall (fun d => 0 <= d <= 9) ds /\
  List.length ds = String.length s.
Proof.
  revert ds. induction s as [|c s IH]; intros ds; simpl.
  - intros [= <-]. repeat split. constructor.
  - change (code "0") with 48. change (code "9") with 57.
    destruct (Z.ltb_spec (code c) 48) as [H1|H1]; [discriminate|].
    destruct (Z.ltb_spec 57 (code c)) as [H2|H2]; [discriminate|].
    simpl. destruct (utils.digits_of s) as [ds'|]; [|discriminate].
    intros [= <-]. destruct (IH ds' eq_refl) as (Ha & Hb & Hc).
    repeat split.
    + rewrite Ha, andb_true_r. apply is_digit_code. lia.
    + constructor; [lia | exact Hb].
    + simpl. rewrite Hc. reflexivity.
Qed.

Lemma digits_of_app p q :
  utils.digits_of (p ++ q)
  = match utils.digits_of p, utils.digits_of q with
    | Some dp, Some dq => Some (dp ++ dq)
    | _, _ => None
    end.
Proof.
  induction p as [|c p IH]; simpl.
  - destruct (utils.digits_of q); reflexivity.
  - destruct ((code c <? code "0") || (code "9" <? code c)); [reflexivity|].
    rewrite IH.
    destruct (utils.digits_of p), (utils.digits_of q); reflexivity.
Qed.

Lemma rem2_flip i parity :
  0 <= i -> 0 <= parity <= 1 ->
  (Z.rem (i + 1) 2 =? parity) = negb (Z.rem i 2 =? parity).
Proof.
  intros Hi Hp.
  rewrite !Z.rem_mod_nonneg by lia.
  pose proof (Z.mod_pos_bound i 2 ltac:(lia)) as Hb.
  assert (E : (i + 1) mod 2 = 1 - i mod 2).
  { rewrite Z.add_mod by lia.
    destruct (Z.eq_dec (i mod 2) 0) as [E0|E0]; rewrite ?E0.
    - reflexivity.
    - replace (i mod 2) with 1 by lia. reflexivity. }
  rewrite E.
  destruct (Z.eqb_spec (1 - i mod 2) parity), (Z.eqb_spec (i mod 2) parity);
    simpl; try reflexivity; lia.
Qed.

(** The second loop of [ValidateLuhn] adds to [sum] the alternating sum
    that starts doubled exactly when [i % 2 == parity]. *)
Lemma luhn_loop_ltr parity digits :
  0 <= parity <= 1 ->
  forall i sum, 0 <= i ->
  utils.luhn_loop parity i digits sum
  = sum + luhn_ltr digits (Z.rem i 2 =? parity).
Proof.
  intros Hp. induction digits as [|d ds IH]; intros i sum Hi; simpl; [lia|].
  rewrite IH by lia. rewrite (rem2_flip i parity Hi Hp).
  unfold luhn_double.
  destruct (Z.rem i 2 =? parity); simpl; lia.
Qed.

Lemma luhn_rtl_snoc l d doubled :
  luhn_rtl (l ++ [d]) doubled
  = luhn_rtl l doubled
    + (if xorb doubled (Nat.odd (List.length l)) then luhn_double d else d).
Proof.
  revert doubled. induction l as [|a l IH]; intros doubled.
  - simpl. destruct doubled; simpl; lia.
  - cbn [app luhn_rtl List.length]. rewrite IH, Nat.odd_succ.
    rewrite <- Nat.negb_odd.
    destruct doubled, (Nat.odd (List.length l)); simpl; lia.
Qed.

Lemma luhn_ltr_rtl digits doubled :
  luhn_ltr digits doubled
  = luhn_rtl (rev digits)
      (xorb doubled (Nat.even (List.length digits))).
Proof.
  revert doubled. induction digits as [|d ds IH]; intros doubled.
  - reflexivity.
  - cbn [luhn_ltr rev List.length]. rewrite luhn_rtl_snoc, IH.
    rewrite length_rev, Nat.even_succ.
    rewrite <- (Nat.negb_odd (List.length ds)).
    destruct doubled, (Nat.odd (List.length ds)); simpl; lia.
Qed.

Lemma rem2_of_nat n :
  (Z.rem 0 2 =? Z.rem (Z.of_nat n) 2) = Nat.even n.
Proof.
  rewrite !Z.rem_mod_nonneg by lia. change (0 mod 2) with 0.
  destruct (Nat.even n) eqn:E.
  - apply Nat.even_spec in E as [k ->]. rewrite Nat2Z.inj_mul.
    change (Z.of_nat 2) with 2. rewrite Z.mul_comm, Z_mod_mult. reflexivity.
  - assert (O : Nat.odd n = true) by (rewrite <- Nat.negb_even, E; reflexivity).
    apply Nat.odd_spec in O as [k ->].
    rewrite Nat2Z.inj_add, Nat2Z.inj_mul. change (Z.of_nat 2) with 2.
    change (Z.of_nat 1) with 1.
    rewrite Z.add_comm, Z.mul_comm, Z_mod_plus_full. reflexivity.
Qed.

Lemma ValidateLuhn_sum s ds :
  utils.digits_of s = Some ds ->
  utils.ValidateLuhn s
  = (Z.rem (luhn_ltr ds (Nat.even (List.length ds))) 10 =? 0).
Proof.
  intros H. unfold utils.ValidateLuhn. rewrite H. cbv zeta.
  rewrite luhn_loop_ltr; [|  | lia].
  - rewrite rem2_of_nat. reflexivity.
  - rewrite Z.rem_mod_nonneg by lia.
    pose proof (Z.mod_pos_bound (Z.of_nat (List.length ds)) 2 ltac:(lia)). lia.
Qed.

(** X1: on a string of digits [ValidateLuhn], which walks from the left and
    doubles the digits at the indices of the parity of the length, computes
    the Luhn check as it is defined from the right: the last digit plain,
    every second digit before it doubled. *)
Theorem ValidateLuhn_is_standard_luhn (s : string) (ds : list Z) :
  utils.digits_of s = Some ds ->
  utils.ValidateLuhn s = luhn_standard ds.
Proof.
  intros H. rewrite (ValidateLuhn_sum s ds H). unfold luhn_standard.
  rewrite luhn_ltr_rtl. rewrite xorb_nilpotent. reflexivity.
Qed.

Lemma ValidateLuhn_is_standard_luhn_witness :
  utils.ValidateLuhn "79927398713"
  = luhn_standard [7; 9; 9; 2; 7; 3; 9; 8; 7; 1; 3].
Proof.
  apply (ValidateLuhn_is_standard_luhn "79927398713"). reflexivity.
Defined.

Lemma code_inj c c' : code c = code c' -> c = c'.
Proof.
  unfold code. intros E. apply N2Z.inj in E.
  rewrite <- (ascii_N_embedding c), <- (ascii_N_embedding c'), E. reflexivity.
Qed.

Lemma luhn_ltr_app l1 l2 doubled :
  luhn_ltr (l1 ++ l2) doubled
  = luhn_ltr l1 doubled
    + luhn_ltr l2 (xorb doubled (Nat.odd (List.length l1))).
Proof.
  revert doubled. induction l1 as [|a l1 IH]; intros doubled.
  - cbn [app luhn_ltr List.length]. change (Nat.odd 0) with false.
    rewrite xorb_false_r. lia.
  - cbn [app luhn_ltr List.length]. rewrite IH, Nat.odd_succ.
    rewrite <- Nat.negb_odd.
    destruct doubled, (Nat.odd (List.length l1)); simpl; lia.
Qed.

Lemma luhn_double_inj d d' :
  0 <= d <= 9 -> 0 <= d' <= 9 -> luhn_double d = luhn_double d' -> d = d'.
Proof.
  unfold luhn_double. cbv zeta. intros Hd Hd'.
  destruct (Z.ltb_spec 9 (d * 2)), (Z.ltb_spec 9 (d' * 2)); lia.
Qed.

Lemma luhn_double_bound d : 0 <= d <= 9 -> 0 <= luhn_double d <= 9.
Proof.
  unfold luhn_double. cbv zeta. intros Hd.
  destruct (Z.ltb_spec 9 (d * 2)); lia.
Qed.

Lemma rem10_shift a delta :
  Z.rem a 10 = 0 -> delta <> 0 -> -9 <= delta <= 9 -> Z.rem (a + delta) 10 <> 0.
Proof.
  intros Ha Hd Hb Hc.
  apply Z.rem_divide in Ha; [|lia]. apply Z.rem_divide in Hc; [|lia].
  destruct Ha as [k Hk], Hc as [k' Hk']. lia.
Qed.

Lemma digits_of_one c :
  strconv.is_digit c = true ->
  forall q, utils.digits_of (String c q)
            = option_map (cons (code c - 48)) (utils.digits_of q).
Proof.
  intros Hc q. apply is_digit_code in Hc. simpl.
  change (code "0") with 48. change (code "9") with 57.
  destruct (Z.ltb_spec (code c) 48); [lia|].
  destruct (Z.ltb_spec 57 (code c)); [lia|]. reflexivity.
Qed.

(** X2: the check detects every single wrong digit.  If a string passes
    [ValidateLuhn], the string that differs from it in one place, where it
    holds another digit, does not pass. *)
Theorem luhn_detects_single_digit_error (p q : string) (c c' : ascii) :
  strconv.is_digit c = true -> strconv.is_digit c' = true -> c <> c' ->
  utils.ValidateLuhn (p ++ String c q) = true ->
  utils.ValidateLuhn (p ++ String c' q) = false.
Proof.
  intros Hc Hc' Hne Hvalid.
  pose proof (digits_of_app p (String c q)) as E.
  pose proof (digits_of_app p (String c' q)) as E'.
  rewrite (digits_of_one c Hc) in E. rewrite (digits_of_one c' Hc') in E'.
  destruct (utils.digits_of p) as [dp|];
    [|unfold utils.ValidateLuhn in Hvalid; rewrite E in Hvalid; discriminate].
  destruct (utils.digits_of q) as [dq|];
    [|unfold utils.ValidateLuhn in Hvalid; rewrite E in Hvalid; discriminate].
  simpl option_map in E, E'.
  rewrite (ValidateLuhn_sum _ _ E) in Hvalid.
  rewrite (ValidateLuhn_sum _ _ E').
  apply Z.eqb_eq in Hvalid. apply Z.eqb_neq.
  rewrite !length_app in *. cbn [List.length] in *.
  rewrite !luhn_ltr_app in *. cbn [luhn_ltr] in *.
  set (n := (List.length dp + S (List.length dq))%nat) in *.
  set (f := xorb (Nat.even n) (Nat.odd (List.length dp))) in *.
  apply is_digit_code in Hc, Hc'.
  assert (Hcode : code c <> code c') by (intros E0; apply Hne, code_inj, E0).
  set (d := code c - 48) in *. set (d' := code c' - 48) in *.
  assert (Hd : 0 <= d <= 9) by (unfold d; lia).
  assert (Hd' : 0 <= d' <= 9) by (unfold d'; lia).
  assert (Hdd : d <> d') by (unfold d, d'; lia).
  set (term x := if f then luhn_double x else x).
  assert (Hdelta : term d' - term d <> 0 /\ -9 <= term d' - term d <= 9).
  { unfold term. destruct f.
    - pose proof (luhn_double_bound d Hd). pose proof (luhn_double_bound d' Hd').
      split; [|lia]. intros E0. apply Hdd. apply luhn_double_inj; lia.
    - lia. }
  fold (term d) in Hvalid. fold (term d').
  match goal with
  | H : Z.rem ?a 10 = 0 |- Z.rem ?b 10 <> 0 =>
      replace b with (a + (term d' - term d)) by lia;
      apply rem10_shift; [exact H | tauto | tauto]
  end.
Qed.

Lemma luhn_detects_single_digit_error_witness :
  utils.ValidateLuhn "79927398710" = false.
Proof.
  apply (luhn_detects_single_digit_error "7992739871" "" "3" "0");
    try reflexivity.
  discriminate.
Defined.

(** X3: a digit 0 put in front of a string changes nothing to the verdict of
    [ValidateLuhn], although it flips the parity the loop works with. *)
Theorem ValidateLuhn_leading_zero (s : string) :
  utils.ValidateLuhn (String "0" s) = utils.ValidateLuhn s.
Proof.
  pose proof (digits_of_one "0" eq_refl s) as E.
  change (code "0" - 48) with 0 in E.
  destruct (utils.digits_of s) as [ds|] eqn:Hs.
  - simpl option_map in E.
    rewrite (ValidateLuhn_sum _ _ E), (ValidateLuhn_sum _ _ Hs).
    cbn [luhn_ltr List.length]. rewrite Nat.even_succ, <- Nat.negb_even.
    destruct (Nat.even (List.length ds)); reflexivity.
  - unfold utils.ValidateLuhn. rewrite E, Hs. reflexivity.
Qed.

(** X4: the check detects the exchange of two neighbouring digits, unless
    they are equal or are 0 and 9. *)
Theorem luhn_detects_adjacent_transposition (p q : string) (a b : ascii) :
  strconv.is_digit a = true -> strconv.is_digit b = true -> a <> b ->
  ~ (code a = 48 /\ code b = 57) -> ~ (code a = 57 /\ code b = 48) ->
  utils.ValidateLuhn (p ++ String a (String b q)) = true ->
  utils.ValidateLuhn (p ++ String b (String a q)) = false.
Proof.
  intros Ha Hb Hne H09 H90 Hvalid.
  pose proof (digits_of_app p (String a (String b q))) as E.
  pose proof (digits_of_app p (String b (String a q))) as E'.
  rewrite (digits_of_one a Ha), (digits_of_one b Hb) in E.
  rewrite (digits_of_one b Hb), (digits_of_one a Ha) in E'.
  destruct (utils.digits_of p) as [dp|];
    [|unfold utils.ValidateLuhn in Hvalid; rewrite E in Hvalid; discriminate].
  destruct (utils.digits_of q) as [dq|];
    [|unfold utils.ValidateLuhn in Hvalid; rewrite E in Hvalid; discriminate].
  simpl option_map in E, E'.
  rewrite (ValidateLuhn_sum _ _ E) in Hvalid.
  rewrite (ValidateLuhn_sum _ _ E').
  apply Z.eqb_eq in Hvalid. apply Z.eqb_neq.
  rewrite !length_app in *. cbn [List.length] in *.
  rewrite !luhn_ltr_app in *. cbn [luhn_ltr] in *.
  set (n := (List.length dp + S (S (List.length dq)))%nat) in *.
  set (f := xorb (Nat.even n) (Nat.odd (List.length dp))) in *.
  apply is_digit_code in Ha, Hb.
  assert (Hcode : code a <> code b) by (intros E0; apply Hne, code_inj, E0).
  set (x := code a - 48) in *. set (y := code b - 48) in *.
  assert (Hx : 0 <= x <= 9) by (unfold x; lia).
  assert (Hy : 0 <= y <= 9) by (unfold y; lia).
  assert (Hxy : x <> y) by (unfold x, y; lia).
  assert (Hn09 : ~ (x = 0 /\ y = 9)) by (unfold x, y; lia).
  assert (Hn90 : ~ (x = 9 /\ y = 0)) by (unfold x, y; lia).
  set (pair u v := (if f then luhn_double u else u)
                   + (if negb f then luhn_double v else v)).
  assert (Hdelta : pair y x - pair x y <> 0
                   /\ -9 <= pair y x - pair x y <= 9).
  { unfold pair, luhn_double. cbv zeta.
    destruct f; cbn [negb];
      destruct (Z.ltb_spec 9 (x * 2)), (Z.ltb_spec 9 (y * 2)); lia. }
  match goal with
  | H : Z.rem ?u 10 = 0 |- Z.rem ?v 10 <> 0 =>
      replace v with (u + (pair y x - pair x y)) by (unfold pair; lia);
      apply rem10_shift; [exact H | tauto | tauto]
  end.
Qed.

Lemma luhn_detects_adjacent_transposition_witness :
  utils.ValidateLuhn "79927398731" = false.
Proof.
  apply (luhn_detects_adjacent_transposition "799273987" "" "1" "3");
    try reflexivity; try discriminate; vm_compute; intros [H _]; discriminate H.
Defined.

End LuhnTheory.

(** ** Which order numbers the handlers let through *)

Section AcceptedNumbers.

Lemma ValidateLuhn_all_digits s :
  utils.ValidateLuhn s = true ->
  forallb strconv.is_digit (list_ascii_of_string s) = true.
Proof.
  unfold utils.ValidateLuhn.
  destruct (utils.digits_of s) as [ds|] eqn:E; [|discriminate].
  intros _. apply (digits_of_all_digits s ds E).
Qed.

Lemma ParseUint_all_digits body :
  all_digits body = true ->
  strconv.ParseUint body 64 =
    if dec_value body <=? strconv.maxUint64 then (dec_value body, None)
    else (strconv.maxUint64, Some strconv.ErrRange).
Proof.
  intros Hb. destruct (all_digits_inv body Hb) as (c & rest & -> & Hc & Hall).
  unfold strconv.ParseUint.
  change (strconv.wrap64 (strconv.wrap64 (2 ^ (if 64 =? 0 then strconv.IntSize else 64)) - 1))
    with strconv.maxUint64.
  apply (parse_digits_all_digits _ Hall 0). unfold strconv.maxUint64. lia.
Qed.

(** X5: [IsNumeric] does not check that a string contains only digits: it
    accepts a string of digits with a sign in front, "+" up to
    9223372036854775807 and "-" up to 9223372036854775808.  Such a string
    never passes [ValidateLuhn], which is what keeps signed numbers out of
    the handlers. *)
Theorem IsNumeric_accepts_sign (body : string) :
  all_digits body = true ->
  utils.IsNumeric (String "+" body) = (dec_value body <=? maxInt64) /\
  utils.IsNumeric (String "-" body) = (dec_value body <=? maxInt64 + 1) /\
  utils.ValidateLuhn (String "+" body) = false /\
  utils.ValidateLuhn (String "-" body) = false.
Proof.
  intros Hb.
  assert (Hpos : 0 <= dec_value body).
  { destruct (all_digits_inv body Hb) as (c & rest & -> & _ & Hall).
    apply (dec_value_from_mono _ Hall 0). lia. }
  pose proof (ParseUint_all_digits body Hb) as HU.
  repeat apply conj; try reflexivity.
  - unfold utils.IsNumeric, strconv.ParseInt.
    change (Ascii.eqb "+" "-") with false. change (Ascii.eqb "+" "+") with true.
    cbn [orb negb andb]. rewrite HU.
    revert Hpos. generalize (dec_value body). intros v Hpos.
    unfold strconv.maxUint64, maxInt64.
    change (2 ^ ((if 64 =? 0 then strconv.IntSize else 64) - 1))
      with 9223372036854775808.
    destruct (Z.leb_spec v 18446744073709551615);
      destruct (Z.leb_spec v 9223372036854775807); try lia; cbv iota beta;
      try (destruct (Z.leb_spec 9223372036854775808 v); try lia);
      try reflexivity.
  - unfold utils.IsNumeric, strconv.ParseInt.
    change (Ascii.eqb "-" "-") with true. change (Ascii.eqb "-" "+") with false.
    cbn [orb negb andb]. rewrite HU.
    revert Hpos. generalize (dec_value body). intros v Hpos.
    unfold strconv.maxUint64, maxInt64.
    change (2 ^ ((if 64 =? 0 then strconv.IntSize else 64) - 1))
      with 9223372036854775808.
    change (9223372036854775807 + 1) with 9223372036854775808.
    destruct (Z.leb_spec v 18446744073709551615);
      destruct (Z.leb_spec v 9223372036854775808); try lia; cbv iota beta;
      try (destruct (Z.ltb_spec 9223372036854775808 v); try lia);
      try reflexivity.
Qed.

Lemma IsNumeric_accepts_sign_witness :
  utils.IsNumeric "-9223372036854775808" = true /\
  utils.IsNumeric "+9223372036854775808" = false.
Proof.
  destruct (IsNumeric_accepts_sign "9223372036854775808" eq_refl)
    as (Hplus & Hminus & _).
  split; [rewrite Hminus | rewrite Hplus]; vm_compute; reflexivity.
Defined.

(** X6: the test both handlers apply to an order number,
    [IsNumeric(s) && ValidateLuhn(s)], lets through exactly the non-empty
    strings of decimal digits that denote a number up to
    9223372036854775807 and pass the Luhn check; leading zeros are allowed,
    signs, spaces and any other character are not.  [UploadOrder] answers
    422 to an authenticated, non-empty submission exactly when this test
    fails. *)
Theorem accepted_order_numbers (s : string) :
  (valid_label s = true <->
   all_digits s = true /\ dec_value s <= maxInt64 /\
   utils.ValidateLuhn s = true) /\
  (forall db now userID, s <> "" ->
     (fst (fst (handlers.UploadOrder db now (Some userID) (Ok s)))
      = http.StatusUnprocessableEntity <-> valid_label s = false)).
Proof.
  split.
  - unfold valid_label. rewrite andb_true_iff. split.
    + intros [Hn Hl].
      assert (Hd : all_digits s = true).
      { unfold all_digits. rewrite (ValidateLuhn_all_digits s Hl), andb_true_r.
        destruct s; [discriminate Hn | reflexivity]. }
      repeat split; try assumption.
      rewrite (IsNumeric_all_digits s Hd) in Hn. apply Z.leb_le. exact Hn.
    + intros (Hd & Hv & Hl). split; [|exact Hl].
      rewrite (IsNumeric_all_digits s Hd). apply Z.leb_le. exact Hv.
  - intros db now userID Hne. unfold handlers.UploadOrder, valid_label.
    rewrite (proj2 (String.eqb_neq s "") Hne).
    destruct (utils.IsNumeric s), (utils.ValidateLuhn s); cbn [negb orb andb];
      try (split; [reflexivity | reflexivity]).
    unfold GetOrderByNumber.
    destruct (find _ _) as [o|].
    + destruct (o_UserID o =? userID); split; discriminate.
    + destruct (CreateOrder db now userID s) as [[e|] db']; split; discriminate.
Qed.

Lemma accepted_order_numbers_witness :
  valid_label "0012345678903" = true /\ valid_label " 12345678903" = false.
Proof.
  split.
  - apply (proj1 (accepted_order_numbers "0012345678903")).
    repeat split; vm_compute; try reflexivity. discriminate.
  - vm_compute. reflexivity.
Defined.

End AcceptedNumbers.

(** ** The statements of the repository *)

Section RepositoryFacts.

Lemma map_update_absent (rows : list Order) n status accrual :
  find (fun o => (o_Number o =? n)%string) rows = None ->
  map (fun o => if (o_Number o =? n)%string
                then {| o_Number := o_Number o; o_UserID := o_UserID o;
                        o_Status := status; o_Accrual := accrual;
                        o_UploadedAt := o_UploadedAt o |}
                else o) rows
  = rows.
Proof.
  induction rows as [|r rows IH]; simpl; [reflexivity|].
  destruct (o_Number r =? n)%string; [discriminate|].
  intros H. rewrite (IH H). reflexivity.
Qed.

Lemma map_update_twice (rows : list Order) n status accrual :
  let upd := fun o => if (o_Number o =? n)%string
                      then {| o_Number := o_Number o; o_UserID := o_UserID o;
                              o_Status := status; o_Accrual := accrual;
                              o_UploadedAt := o_UploadedAt o |}
                      else o in
  map upd (map upd rows) = map upd rows.
Proof.
  intros upd. rewrite map_map. apply map_ext. intros o. unfold upd.
  destruct (o_Number o =? n)%string eqn:E; cbn [o_Number]; rewrite E;
    reflexivity.
Qed.

(** X7: for a status and an accrual the columns can hold,
    [UpdateOrderStatus] reports no error even when no order has the number,
    and then changes nothing; it never touches the row of another number
    nor the withdrawals; applied a second time with the same arguments it
    changes nothing more. *)
Theorem UpdateOrderStatus_effect (db : DB) (n status : string) (accrual : Z) :
  fits_status status = true -> fits_amount accrual = true ->
  let db' := snd (UpdateOrderStatus db n status accrual) in
  fst (UpdateOrderStatus db n status accrual) = None /\
  (order_row db n = None -> db' = db) /\
  (forall m, m <> n -> order_row db' m = order_row db m) /\
  withdrawals db' = withdrawals db /\
  UpdateOrderStatus db' n status accrual
  = UpdateOrderStatus db n status accrual.
Proof.
  intros _ _ db'. repeat apply conj.
  - reflexivity.
  - intros Hnone. unfold db', UpdateOrderStatus. cbn [snd].
    unfold order_row in Hnone. rewrite (map_update_absent _ _ _ _ Hnone).
    destruct db; reflexivity.
  - intros m Hm. apply order_row_update_other. exact Hm.
  - reflexivity.
  - unfold db', UpdateOrderStatus. cbn [snd orders withdrawals].
    rewrite (map_update_twice (orders db) n status accrual). reflexivity.
Qed.

Lemma UpdateOrderStatus_effect_witness :
  let db := {| orders := [{| o_Number := "12345678903"; o_UserID := 1;
                             o_Status := "NEW"; o_Accrual := 0;
                             o_UploadedAt := 0 |}];
               withdrawals := [] |} in
  UpdateOrderStatus db "79927398713" "PROCESSED" 100 = (None, db).
Proof.
  intros db.
  destruct (UpdateOrderStatus_effect db "79927398713" "PROCESSED" 100
              eq_refl eq_refl)
    as (Hnone & Hsame & _).
  rewrite (surjective_pairing (UpdateOrderStatus db "79927398713" "PROCESSED" 100)).
  rewrite Hnone, (Hsame eq_refl). reflexivity.
Defined.

(** X8: [CreateOrder] fails when the number is already in the ledger, and
    then changes nothing.  For a number of at most 255 digits that is not in
    the ledger it succeeds, and [GetOrderByNumber] then finds the new
    order, owned by the submitter, NEW, with accrual 0, and finds for every
    other number what it found before. *)
Theorem CreateOrder_then_lookup (db : DB) (now userID : Z) (n : string) :
  (forall o, order_row db n = Some o ->
     exists err, CreateOrder db now userID n = (Some err, db)) /\
  (fits_number n = true -> order_row db n = None ->
     let db' := snd (CreateOrder db now userID n) in
     fst (CreateOrder db now userID n) = None /\
     GetOrderByNumber db' n
     = Ok (Some {| o_Number := n; o_UserID := userID; o_Status := StatusNew;
                   o_Accrual := 0; o_UploadedAt := now |}) /\
     (forall m, m <> n -> GetOrderByNumber db' m = GetOrderByNumber db m) /\
     withdrawals db' = withdrawals db).
Proof.
  unfold order_row, CreateOrder, GetOrderByNumber. split.
  - intros o Ho.
    destruct (existsb _ (orders db)) eqn:E; [eauto|].
    apply find_some in Ho as [Hin Heq].
    assert (existsb (fun o => (o_Number o =? n)%string) (orders db) = true).
    { apply existsb_exists. eauto. }
    congruence.
  - intros _ Hnone.
    assert (E : existsb (fun o => (o_Number o =? n)%string) (orders db) = false).
    { destruct (existsb _ (orders db)) eqn:E; [|reflexivity].
      apply existsb_exists in E as (o & Hin & Heq).
      pose proof (find_none _ _ Hnone o Hin). congruence. }
    rewrite E. cbn [fst snd orders withdrawals]. repeat apply conj.
    + reflexivity.
    + rewrite (find_app_none _ _ _ Hnone). simpl. rewrite String.eqb_refl.
      reflexivity.
    + intros m Hm. f_equal.
      destruct (find (fun o => (o_Number o =? m)%string) (orders db))
        as [o|] eqn:Hf.
      * apply find_app_some. exact Hf.
      * rewrite (find_app_none _ _ _ Hf). simpl.
        rewrite (proj2 (String.eqb_neq n m)) by congruence. reflexivity.
    + reflexivity.
Qed.

Lemma CreateOrder_then_lookup_witness :
  GetOrderByNumber
    (snd (CreateOrder repository.empty 4 1 "12345678903")) "12345678903"
  = Ok (Some {| o_Number := "12345678903"; o_UserID := 1;
                o_Status := StatusNew; o_Accrual := 0; o_UploadedAt := 4 |}).
Proof.
  destruct (CreateOrder_then_lookup repository.empty 4 1 "12345678903")
    as [_ H].
  exact (proj1 (proj2 (H eq_refl eq_refl))).
Defined.

(** X9: a call of [repository.WithdrawBalance] for an amount that the
    float64 balance covers, with a label of at most 255 digits and an
    amount the column takes, succeeds and appends exactly one record, which
    holds the amount as the column stored it; the orders are untouched.
    Afterwards the sum of the
    user's withdrawals is higher by exactly the stored amount and the sum of
    the accruals is as before, so [GetUserBalance] is computed from these;
    every other user's balance is as before. *)
Theorem WithdrawBalance_accounts (store : float64.t -> option Z) (db : DB)
  (now userID : Z) (orderNumber : string) (amount : float64.t)
  (before : repository64.Balance) (sum : Z) :
  repository64.GetUserBalance db userID = Ok before ->
  float64.ltb (repository64.Current before) amount = false ->
  fits_number orderNumber = true -> store amount = Some sum ->
  let call :=
    repository64.WithdrawBalance store db now userID orderNumber amount in
  fst call = None /\
  withdrawals (snd call)
  = withdrawals db ++ [{| w_UserID := userID; w_Order := orderNumber;
                          w_Sum := sum; w_ProcessedAt := now |}] /\
  orders (snd call) = orders db /\
  query_withdrawn (snd call) userID = query_withdrawn db userID + sum /\
  repository64.GetUserBalance (snd call) userID
  = repository64.balance_of (query_accrual db userID StatusProcessed)
      (query_withdrawn db userID + sum) /\
  (forall other, other <> userID ->
     repository64.GetUserBalance (snd call) other
     = repository64.GetUserBalance db other).
Proof.
  intros Hbal Hcov Hfits Hst call.
  assert (Hlen : len orderNumber <= 255).
  { unfold fits_number in Hfits. apply andb_true_iff in Hfits as [_ Hlen].
    apply Z.leb_le. exact Hlen. }
  assert (E : call = (None,
     {| orders := orders db;
        withdrawals := withdrawals db ++
          [{| w_UserID := userID; w_Order := orderNumber; w_Sum := sum;
              w_ProcessedAt := now |}] |})).
  { unfold call. rewrite (WithdrawBalance64_decided _ _ _ _ _ _ _ Hbal), Hcov.
    apply insert_withdrawal64_stored; assumption. }
  rewrite E. cbn [fst snd orders withdrawals].
  split; [reflexivity|]. split; [reflexivity|]. split; [reflexivity|].
  pose proof (fun u => sums_after_insert db
                {| w_UserID := userID; w_Order := orderNumber;
                   w_Sum := sum; w_ProcessedAt := now |} u StatusProcessed)
    as Hsums.
  cbn [w_UserID w_Sum] in Hsums.
  split; [|split].
  - destruct (Hsums userID) as [_ Hw]. rewrite Z.eqb_refl in Hw. exact Hw.
  - unfold repository64.GetUserBalance.
    destruct (Hsums userID) as [Ha Hw]. rewrite Z.eqb_refl in Hw.
    rewrite Ha, Hw. reflexivity.
  - intros other Hne. unfold repository64.GetUserBalance.
    destruct (Hsums other) as [Ha Hw].
    rewrite (proj2 (Z.eqb_neq userID other)) in Hw by congruence.
    rewrite Ha, Hw, Z.add_0_r. reflexivity.
Qed.

Lemma WithdrawBalance_accounts_witness :
  let db := {| orders := [{| o_Number := "12345678903"; o_UserID := 1;
                             o_Status := "PROCESSED"; o_Accrual := 50000;
                             o_UploadedAt := 0 |}];
               withdrawals := [] |} in
  repository64.GetUserBalance
    (snd (repository64.WithdrawBalance sql.numeric_10_2 db 9 1 "79927398713"
            (float64.of_hundredths 20000))) 1
  = Ok {| repository64.Current := float64.of_hundredths 30000;
          repository64.Withdrawn := float64.of_hundredths 20000 |}.
Proof.
  intros db.
  destruct (WithdrawBalance_accounts sql.numeric_10_2 db 9 1 "79927398713"
              (float64.of_hundredths 20000)
              {| repository64.Current := float64.of_hundredths 50000;
                 repository64.Withdrawn := float64.zero |} 20000
              eq_refl eq_refl eq_refl eq_refl)
    as (_ & _ & _ & _ & H & _).
  rewrite H. vm_compute. reflexivity.
Defined.

End RepositoryFacts.

(** ** What the accrual client's results tell *)

Section AccrualResults.

(** X10: whatever the exchange with the accrual service, [GetOrderAccrual]
    returns a verdict only for an answer 200 with a decodable body, and
    returns nil without error only for an answer 204; every other exchange
    yields an error. *)
Theorem GetOrderAccrual_results (orderNumber : string) (x : Exchange) :
  (forall v, GetOrderAccrual orderNumber x = Ok (Some v) <->
     exists resp, x = Responded resp /\ StatusCode resp = 200 /\
                  Body resp = Decoded v) /\
  (GetOrderAccrual orderNumber x = Ok None <->
     exists resp, x = Responded resp /\ StatusCode resp = 204).
Proof.
  split; [intros v|]; split.
  - destruct x as [msg|msg|resp]; try discriminate.
    unfold GetOrderAccrual, http.StatusTooManyRequests, http.StatusNoContent,
      http.StatusOK.
    destruct (Z.eqb_spec (StatusCode resp) 429).
    { destruct (negb _); [destruct (strconv.Atoi _) as [? [?|]]|]; discriminate. }
    destruct (Z.eqb_spec (StatusCode resp) 204); [discriminate|].
    destruct (Z.eqb_spec (StatusCode resp) 200); [|discriminate].
    simpl. destruct (Body resp) as [?|?|r] eqn:Hb; try discriminate.
    intros [= ->]. eauto.
  - intros (resp & -> & Hs & Hb). unfold GetOrderAccrual.
    rewrite Hs, Hb. reflexivity.
  - destruct x as [msg|msg|resp]; try discriminate.
    unfold GetOrderAccrual, http.StatusTooManyRequests, http.StatusNoContent,
      http.StatusOK.
    destruct (Z.eqb_spec (StatusCode resp) 429).
    { destruct (negb _); [destruct (strconv.Atoi _) as [? [?|]]|]; discriminate. }
    destruct (Z.eqb_spec (StatusCode resp) 204); [eauto|].
    destruct (Z.eqb_spec (StatusCode resp) 200); [|discriminate].
    simpl. destruct (Body resp); discriminate.
  - intros (resp & -> & Hs). unfold GetOrderAccrual. rewrite Hs. reflexivity.
Qed.

Lemma GetOrderAccrual_results_witness :
  let v := {| a_Order := "12345678903"; a_Status := "PROCESSING";
              a_Accrual := 0 |} in
  GetOrderAccrual "12345678903"
    (Responded {| StatusCode := 200; RetryAfter := ""; Body := Decoded v |})
  = Ok (Some v).
Proof.
  intros v.
  apply (proj1 (GetOrderAccrual_results "12345678903" _)).
  eexists. repeat split.
Defined.

(** X11: on an order it is given as NEW, [OrderProcessor.processOrder]
    leaves the ledger exactly as the goroutine [Handler.processOrder] does
    for the same answer of the accrual service; and it calls the accrual
    service for every order whose status is not final, for none whose
    status is. *)
Theorem processOrder_agree (db : DB) (order : Order) (x : Exchange) :
  (o_Status order = StatusNew ->
   fst (service.processOrder db order x)
   = handlers.processOrder db (o_Number order) x) /\
  snd (service.processOrder db order x) = negb (final (o_Status order)).
Proof.
  split.
  - intros Hst. unfold service.processOrder, handlers.processOrder.
    rewrite Hst. change (final StatusNew) with false.
    change (StatusNew =? StatusNew)%string with true. cbv iota.
    unfold UpdateOrderStatus at 1 3. cbv iota beta.
    destruct (GetOrderAccrual (o_Number order) x) as [[v|]|e]; try reflexivity.
    destruct (final (a_Status v)); reflexivity.
  - unfold service.processOrder.
    destruct (final (o_Status order)); [reflexivity|].
    destruct (o_Status order =? StatusNew)%string; cbv iota beta;
      [unfold UpdateOrderStatus at 1; cbv iota beta|];
      (destruct (GetOrderAccrual (o_Number order) x) as [[v|]|e];
       try reflexivity; destruct (final (a_Status v)); reflexivity).
Qed.

Lemma processOrder_agree_witness :
  let o := {| o_Number := "12345678903"; o_UserID := 1; o_Status := "NEW";
              o_Accrual := 0; o_UploadedAt := 0 |} in
  let db := {| orders := [o]; withdrawals := [] |} in
  let x := Responded {| StatusCode := 204; RetryAfter := "";
                        Body := ReadFailed "" |} in
  fst (service.processOrder db o x) = handlers.processOrder db "12345678903" x.
Proof.
  intros o db x. exact (proj1 (processOrder_agree db o x) eq_refl).
Defined.



End AccrualResults.

(** ** Submitting an order *)

Section Submission.

(** X13: a valid order number of at most 255 digits that the ledger does
    not hold is accepted:
    [UploadOrder] answers 202, appends the order as NEW with accrual 0 for
    the submitter and starts its processing.  Submitted again, the same
    number is answered 200 to its owner and 409 to any other user, and
    neither answer changes the ledger or starts anything. *)
Theorem UploadOrder_first_and_again (db : DB) (now later userID other : Z)
  (n : string) :
  valid_label n = true -> len n <= 255 ->
  order_row db n = None -> other <> userID ->
  let row := {| o_Number := n; o_UserID := userID; o_Status := StatusNew;
                o_Accrual := 0; o_UploadedAt := now |} in
  let db' := {| orders := orders db ++ [row];
                withdrawals := withdrawals db |} in
  handlers.UploadOrder db now (Some userID) (Ok n)
  = (http.StatusAccepted, db', Some n) /\
  handlers.UploadOrder db' later (Some userID) (Ok n)
  = (http.StatusOK, db', None) /\
  handlers.UploadOrder db' later (Some other) (Ok n)
  = (http.StatusConflict, db', None).
Proof.
  intros Hv _ Hnone Hother row db'.
  assert (Hne : (n =? "")%string = false).
  { destruct n; [discriminate Hv | reflexivity]. }
  unfold valid_label in Hv. apply andb_true_iff in Hv as [Hn Hl].
  assert (Hrow : order_row db' n = Some row).
  { apply order_row_appended; [reflexivity | exact Hnone]. }
  unfold order_row in *.
  repeat apply conj.
  - unfold handlers.UploadOrder. rewrite Hne, Hn, Hl. cbn [negb orb].
    unfold GetOrderByNumber. rewrite Hnone. unfold CreateOrder.
    assert (E : existsb (fun o => (o_Number o =? n)%string) (orders db) = false).
    { destruct (existsb _ (orders db)) eqn:E; [|reflexivity].
      apply existsb_exists in E as (o & Hin & Heq).
      pose proof (find_none _ _ Hnone o Hin). congruence. }
    rewrite E. reflexivity.
  - unfold handlers.UploadOrder. rewrite Hne, Hn, Hl. cbn [negb orb].
    unfold GetOrderByNumber. rewrite Hrow. cbn [o_UserID row].
    rewrite Z.eqb_refl. reflexivity.
  - unfold handlers.UploadOrder. rewrite Hne, Hn, Hl. cbn [negb orb].
    unfold GetOrderByNumber. rewrite Hrow. cbn [o_UserID row].
    rewrite (proj2 (Z.eqb_neq userID other)) by congruence. reflexivity.
Qed.

Lemma UploadOrder_first_and_again_witness :
  let db' := {| orders := [{| o_Number := "12345678903"; o_UserID := 1;
                              o_Status := StatusNew; o_Accrual := 0;
                              o_UploadedAt := 3 |}];
                withdrawals := [] |} in
  handlers.UploadOrder repository.empty 3 (Some 1) (Ok "12345678903")
  = (http.StatusAccepted, db', Some "12345678903") /\
  handlers.UploadOrder db' 8 (Some 2) (Ok "12345678903")
  = (http.StatusConflict, db', None).
Proof.
  intros db'.
  destruct (UploadOrder_first_and_again repository.empty 3 8 1 2 "12345678903")
    as (H1 & _ & H3).
  - vm_compute. reflexivity.
  - vm_compute. discriminate.
  - reflexivity.
  - discriminate.
  - split; [exact H1 | exact H3].
Defined.

End Submission.

(** ** What the ledger of the running server always looks like *)

Section LedgerInvariants.

Import server.

Lemma UploadOrder_cases db now userID body :
  let '(_, db', started) := handlers.UploadOrder db now userID body in
  (db' = db /\ started = None) \/
  (exists uid n,
      userID = Some uid /\ body = Ok n /\ valid_label n = true /\
      started = Some n /\ order_row db n = None /\
      db' = {| orders := orders db ++
                 [{| o_Number := n; o_UserID := uid; o_Status := StatusNew;
                     o_Accrual := 0; o_UploadedAt := now |}];
               withdrawals := withdrawals db |}).
Proof.
  unfold handlers.UploadOrder, valid_label.
  destruct userID as [uid|]; [|left; auto].
  destruct body as [n|]; [|left; auto].
  destruct (n =? "")%string; [left; auto|].
  destruct (utils.IsNumeric n) eqn:Hn, (utils.ValidateLuhn n) eqn:Hl;
    cbn [negb orb andb]; cbv iota; try (left; split; reflexivity).
  unfold GetOrderByNumber.
  destruct (find (fun o => (o_Number o =? n)%string) (orders db)) as [o|] eqn:Hf.
  - destruct (o_UserID o =? uid); left; auto.
  - unfold CreateOrder.
    destruct (existsb (fun o => (o_Number o =? n)%string) (orders db)) eqn:He;
      [left; auto|].
    right. exists uid, n. rewrite Hn, Hl. repeat split; auto.
Qed.

Lemma withdraw_admit_valid userID req uid order sum :
  handlers.withdraw_admit userID req = inr (uid, order, sum) ->
  valid_label order = true.
Proof.
  unfold handlers.withdraw_admit, valid_label.
  destruct userID as [u|]; [|discriminate].
  destruct req as [r|]; [|discriminate].
  destruct (utils.IsNumeric (handlers.Order r)) eqn:Hn,
    (utils.ValidateLuhn (handlers.Order r)) eqn:Hl;
    cbn [negb orb]; try discriminate.
  intros [= _ <- _]. rewrite Hn, Hl. reflexivity.
Qed.

Lemma updated_numbers (rows : list Order) n status accrual :
  map o_Number
    (map (fun o => if (o_Number o =? n)%string
                   then {| o_Number := o_Number o; o_UserID := o_UserID o;
                           o_Status := status; o_Accrual := accrual;
                           o_UploadedAt := o_UploadedAt o |}
                   else o) rows)
  = map o_Number rows.
Proof.
  rewrite map_map. apply map_ext. intros o.
  destruct (o_Number o =? n)%string; reflexivity.
Qed.

Lemma updated_rows_ok (rows : list Order) n status accrual :
  row_ok {| o_Number := n; o_UserID := 0; o_Status := status;
            o_Accrual := accrual; o_UploadedAt := 0 |} ->
  Forall row_ok rows ->
  Forall row_ok
    (map (fun o => if (o_Number o =? n)%string
                   then {| o_Number := o_Number o; o_UserID := o_UserID o;
                           o_Status := status; o_Accrual := accrual;
                           o_UploadedAt := o_UploadedAt o |}
                   else o) rows).
Proof.
  intros Hnew H. apply Forall_map. revert H. apply Forall_impl.
  intros o Ho. destruct (o_Number o =? n)%string; [exact Hnew | exact Ho].
Qed.

Lemma order_row_absent_not_in db n :
  order_row db n = None -> ~ In n (map o_Number (orders db)).
Proof.
  intros Hnone Hin. apply in_map_iff in Hin as (o & Ho & Hin).
  pose proof (find_none _ _ Hnone o Hin) as H. simpl in H.
  rewrite Ho, String.eqb_refl in H. discriminate.
Qed.

Lemma sound_init : sound init.
Proof. split; try apply consistent_init; simpl; constructor. Qed.

Lemma sound_advance s n x : sound s -> sound (advance s n x).
Proof.
  intros [Hc Hd Hv Hl Hf Hr Hg].
  pose proof (consistent_advance s n x Hc) as Hc'.
  revert Hc'. unfold advance.
  destruct (goroutine_of s n) as [g|] eqn:Hfound; [|intros _; split; assumption].
  apply goroutine_of_found in Hfound as [Hin Hord].
  assert (Hgv : verdict_final g) by (rewrite Forall_forall in Hg; auto).
  destruct (g_at g) as [| |v] eqn:Hat.
  - (* SetProcessing *)
    intros Hc'. split; try assumption; cbn [ledger set_ledger set_goroutines
      goroutines withdrawing UpdateOrderStatus orders withdrawals snd].
    + rewrite updated_numbers. exact Hd.
    + apply Forall_map. revert Hv. apply Forall_impl. intros o Ho.
      destruct (o_Number o =? n)%string; exact Ho.
    + apply updated_rows_ok; [|exact Hr]. left. split; [right|]; reflexivity.
    + unfold at_point. apply Forall_map. revert Hg. apply Forall_impl.
      intros g' Hg'. destruct (g_order g' =? n)%string; [exact I | exact Hg'].
  - (* Fetch *)
    destruct (GetOrderAccrual n x) as [[v|]|err].
    + destruct (final (a_Status v)) eqn:Hfin.
      * intros Hc'. split; try assumption.
        cbn [goroutines set_goroutines add_poll]. unfold at_point.
        apply Forall_map. revert Hg. apply Forall_impl.
        intros g' Hg'.
        destruct (g_order g' =? n)%string; [exact Hfin | exact Hg'].
      * intros Hc'. split; try assumption.
        apply Forall_filter_kept. exact Hg.
    + intros Hc'. split; try assumption. apply Forall_filter_kept. exact Hg.
    + intros Hc'. split; try assumption. apply Forall_filter_kept. exact Hg.
  - (* WriteFinal *)
    intros Hc'. split; try assumption; cbn [ledger set_ledger set_goroutines
      goroutines withdrawing UpdateOrderStatus orders withdrawals snd].
    + rewrite updated_numbers. exact Hd.
    + apply Forall_map. revert Hv. apply Forall_impl. intros o Ho.
      destruct (o_Number o =? n)%string; exact Ho.
    + apply updated_rows_ok; [|exact Hr]. right.
      unfold verdict_final in Hgv. rewrite Hat in Hgv. exact Hgv.
    + apply Forall_filter_kept. exact Hg.
Qed.

Lemma sound_withdraw_step s id : sound s -> sound (withdraw_step s id).
Proof.
  intros [Hc Hd Hv Hl Hf Hr Hg].
  pose proof (consistent_withdraw_step s id Hc) as Hc'.
  revert Hc'. unfold withdraw_step, withdrawing_of.
  destruct (find (fun w => wd_id w =? id) (withdrawing s)) as [w|] eqn:Hfound;
    [|intros _; split; assumption].
  apply find_some in Hfound as [Hin _].
  assert (Hw : valid_label (wd_order w) = true)
    by (rewrite Forall_forall in Hf; auto).
  assert (Hmoved : forall pt, Forall (fun v => valid_label (wd_order v) = true)
                                (at_wpoint s id pt)).
  { intros pt. unfold at_wpoint. apply Forall_map. revert Hf.
    apply Forall_impl. intros v Hv'. destruct (wd_id v =? id); exact Hv'. }
  destruct (wd_at w) as [|current|].
  - intros Hc'. split; try assumption. apply Hmoved.
  - destruct (_ <? _); intros Hc'; split; try assumption.
    + apply Forall_filter_kept. exact Hf.
    + apply Hmoved.
  - intros Hc'. split; try assumption.
    + cbn [ledger add_reply set_withdrawing set_ledger insert_withdrawal snd
           withdrawals].
      apply Forall_app. split; [exact Hl|]. constructor; [exact Hw | constructor].
    + apply Forall_filter_kept. exact Hf.
Qed.

Lemma sound_step s e : sound s -> sound (step s e).
Proof.
  intros Hs. pose proof (consistent_step s e (sound_consistent s Hs)) as Hc'.
  destruct e as [userID body|n x|n| |userID req|id|seconds].
  - destruct Hs as [Hc Hd Hv Hl Hf Hr Hg]. revert Hc'. cbn [step].
    pose proof (UploadOrder_cases (ledger s) (clock s) userID body) as H.
    destruct (handlers.UploadOrder (ledger s) (clock s) userID body)
      as [[status db'] started].
    destruct H as [[-> ->] | (uid & n & _ & _ & Hval & -> & Hnone & ->)];
      intros Hc'; split; try assumption;
      cbn [ledger set_ledger set_goroutines goroutines orders withdrawals].
    + rewrite map_app. apply NoDup_app; [exact Hd | repeat constructor; auto|].
      intros k Hk [<-|[]]. exact (order_row_absent_not_in _ _ Hnone Hk).
    + apply Forall_app. split; [exact Hv|].
      constructor; [exact Hval | constructor].
    + apply Forall_app. split; [exact Hr|]. constructor; [|constructor].
      left. split; [left|]; reflexivity.
    + apply Forall_app. split; [exact Hg|]. constructor; [exact I | constructor].
  - apply sound_advance. exact Hs.
  - destruct Hs as [Hc Hd Hv Hl Hf Hr Hg]. split; try assumption.
    apply Forall_filter_kept. exact Hg.
  - destruct Hs as [Hc Hd Hv Hl Hf Hr Hg]. split; assumption.
  - destruct Hs as [Hc Hd Hv Hl Hf Hr Hg]. revert Hc'. cbn [step].
    destruct (handlers.withdraw_admit userID req)
      as [status|[[uid order] sum]] eqn:Hadm;
      intros Hc'; split; try assumption.
    cbn [withdrawing set_withdrawing fresh_id]. apply Forall_app.
    split; [exact Hf|]. constructor; [|constructor].
    exact (withdraw_admit_valid _ _ _ _ _ Hadm).
  - apply sound_withdraw_step. exact Hs.
  - destruct Hs as [Hc Hd Hv Hl Hf Hr Hg]. split; assumption.
Qed.

Lemma sound_run events : forall s, sound s -> sound (run s events).
Proof.
  induction events as [|e events IH]; intros s Hs; simpl; [exact Hs|].
  apply IH. apply sound_step. exact Hs.
Qed.

(** X14: in every state the server reaches, the order numbers of the ledger
    are pairwise distinct, and each of them, like the label of every
    withdrawal record, passed the validation [IsNumeric && ValidateLuhn] of
    the handlers. *)
Theorem ledger_numbers_distinct_and_valid (events : list Event) :
  let db := ledger (run init events) in
  NoDup (map o_Number (orders db)) /\
  (forall o, In o (orders db) -> valid_label (o_Number o) = true) /\
  (forall w, In w (withdrawals db) -> valid_label (w_Order w) = true).
Proof.
  intros db.
  destruct (sound_run events init sound_init) as [_ Hd Hv Hl _ _ _].
  split; [exact Hd|]. split.
  - apply Forall_forall. exact Hv.
  - apply Forall_forall. exact Hl.
Qed.

Lemma final_rank status : final status = true -> status_rank status = 2.
Proof. intros H. apply final_iff in H as [-> | ->]; reflexivity. Qed.

Lemma status_rank_bound status : 0 <= status_rank status <= 2.
Proof.
  unfold status_rank.
  destruct (status =? StatusNew)%string; [lia|].
  destruct (status =? StatusProcessing)%string; lia.
Qed.

(** X15: in every state the server reaches, every order has one of the
    four statuses NEW, PROCESSING, INVALID, PROCESSED, and an order that is
    NEW or PROCESSING has accrual 0: an accrual is only ever stored together
    with a final status. *)
Theorem order_rows_well_formed (events : list Event) (o : Order) :
  In o (orders (ledger (run init events))) ->
  (o_Status o = StatusNew \/ o_Status o = StatusProcessing \/
   o_Status o = StatusInvalid \/ o_Status o = StatusProcessed) /\
  (o_Status o = StatusNew \/ o_Status o = StatusProcessing ->
   o_Accrual o = 0).
Proof.
  intros Hin.
  pose proof (rows_ok _ (sound_run events init sound_init)) as Hr.
  rewrite Forall_forall in Hr. destruct (Hr o Hin) as [[Hst Hacc] | Hfin].
  - split; [tauto | auto].
  - apply final_iff in Hfin. split; [tauto|].
    intros [E | E]; rewrite E in Hfin; destruct Hfin; discriminate.
Qed.

Lemma order_rows_well_formed_witness :
  let n := "12345678903" in
  let o := {| o_Number := n; o_UserID := 1; o_Status := "PROCESSING";
              o_Accrual := 0; o_UploadedAt := 0 |} in
  let x := TransportFailed "timeout" in
  In o (orders (ledger (run init [Upload (Some 1) (Ok n); Advance n x])))
  /\ o_Accrual o = 0.
Proof.
  intros n o x.
  assert (Hin : In o (orders (ledger (run init [Upload (Some 1) (Ok n);
                                                Advance n x]))))
    by (vm_compute; left; reflexivity).
  split; [exact Hin|].
  apply (proj2 (order_rows_well_formed _ o Hin)). right. reflexivity.
Defined.

(** The row [o'] is the row [o] further on: same number, owner and time of
    submission, status not behind. *)
Lemma row_moves_on_step s e n o :
  sound s -> order_row (ledger s) n = Some o ->
  exists o', order_row (ledger (step s e)) n = Some o' /\
             o_Number o' = o_Number o /\ o_UserID o' = o_UserID o /\
             o_UploadedAt o' = o_UploadedAt o /\
             status_rank (o_Status o) <= status_rank (o_Status o').
Proof.
  intros Hs Ho.
  assert (Hsame : exists o', Some o = Some o' /\
             o_Number o' = o_Number o /\ o_UserID o' = o_UserID o /\
             o_UploadedAt o' = o_UploadedAt o /\
             status_rank (o_Status o) <= status_rank (o_Status o')).
  { exists o. repeat split; lia. }
  destruct e as [userID body|m x|m| |userID req|id|seconds]; cbn [step].
  - pose proof (UploadOrder_effect (ledger s) (clock s) userID body) as H.
    destruct (handlers.UploadOrder (ledger s) (clock s) userID body)
      as [[status db'] started].
    destruct H as [[-> ->] | (uid & k & -> & Hnone & ->)];
      cbn [ledger set_ledger set_goroutines].
    + rewrite Ho. exact Hsame.
    + rewrite (order_row_kept _ _ _ _ Ho). exact Hsame.
  - destruct (goroutine_of s m) as [g|] eqn:Hg;
      [|rewrite (advance_absent s m x Hg), Ho; exact Hsame].
    destruct (goroutine_of_found s m g Hg) as [Hin Hord].
    pose proof (goroutines_tracked s (sound_consistent s Hs)) as Ht.
    pose proof (verdicts_final s Hs) as Hv.
    rewrite Forall_forall in Ht, Hv.
    destruct (Ht g Hin) as (og & Hog & Hst). specialize (Hv g Hin).
    unfold verdict_final in Hv. rewrite Hord in Hog.
    destruct (g_at g) as [| |v] eqn:Hat.
    + rewrite (advance_SetProcessing s m x g Hg Hat).
      cbn [ledger set_ledger set_goroutines].
      destruct (String.eqb_spec n m) as [->|Hne].
      * assert (og = o) by congruence. subst og.
        eexists. split.
        -- apply (order_row_update_same (ledger s) m StatusProcessing 0 o Ho).
        -- cbn [o_Number o_UserID o_UploadedAt o_Status]. repeat split.
           rewrite Hst. cbn. lia.
      * rewrite (order_row_update_other (ledger s) m StatusProcessing 0 n Hne), Ho.
        exact Hsame.
    + rewrite (advance_Fetch s m x g Hg Hat). cbv zeta.
      destruct (GetOrderAccrual m x) as [[v|]|err];
        [destruct (final (a_Status v))| |];
        cbn [ledger set_goroutines add_poll]; rewrite Ho; exact Hsame.
    + rewrite (advance_WriteFinal s m x g v Hg Hat).
      cbn [ledger set_ledger set_goroutines].
      destruct (String.eqb_spec n m) as [->|Hne].
      * eexists. split.
        -- apply (order_row_update_same (ledger s) m _ _ o Ho).
        -- cbn [o_Number o_UserID o_UploadedAt o_Status]. repeat split.
           rewrite (final_rank _ Hv). apply status_rank_bound.
      * rewrite (order_row_update_other (ledger s) m _ _ n Hne), Ho.
        exact Hsame.
  - cbn [ledger set_ledger set_goroutines set_withdrawing add_poll add_reply fresh_id set_clock]. rewrite Ho. exact Hsame.
  - unfold processPendingOrders. cbn [ledger set_ledger set_goroutines set_withdrawing add_poll add_reply fresh_id set_clock]. rewrite Ho. exact Hsame.
  - destruct (handlers.withdraw_admit userID req) as [status|[[uid order] sum]];
      cbn [ledger set_ledger set_goroutines set_withdrawing add_poll add_reply fresh_id set_clock]; rewrite Ho; exact Hsame.
  - unfold withdraw_step.
    destruct (withdrawing_of s id) as [w|]; [|rewrite Ho; exact Hsame].
    destruct (wd_at w) as [|current|].
    + cbn [ledger set_ledger set_goroutines set_withdrawing add_poll add_reply fresh_id set_clock]. rewrite Ho. exact Hsame.
    + destruct (_ <? _); cbn [ledger set_ledger set_goroutines set_withdrawing add_poll add_reply fresh_id set_clock]; rewrite Ho; exact Hsame.
    + unfold insert_withdrawal. cbn [ledger set_ledger set_goroutines set_withdrawing add_poll add_reply fresh_id set_clock].
      unfold order_row in *. cbn [orders]. rewrite Ho. exact Hsame.
  - cbn [ledger set_ledger set_goroutines set_withdrawing add_poll add_reply fresh_id set_clock]. rewrite Ho. exact Hsame.
Qed.

(** X16: an order of a state the server has reached is never deleted, its
    number, its owner and its time of submission never change, and its
    status only moves forward: from NEW to PROCESSING to a final status,
    never back. *)
Theorem orders_only_move_forward (before after : list Event)
  (n : string) (o : Order) :
  let s := run init before in
  order_row (ledger s) n = Some o ->
  exists o', order_row (ledger (run s after)) n = Some o' /\
             o_Number o' = o_Number o /\ o_UserID o' = o_UserID o /\
             o_UploadedAt o' = o_UploadedAt o /\
             status_rank (o_Status o) <= status_rank (o_Status o').
Proof.
  intros s. assert (Hs : sound s) by (apply sound_run, sound_init).
  revert Hs. generalize s. clear s. revert o.
  induction after as [|e after IH]; intros o s Hs Ho.
  - exists o. repeat split; try assumption; lia.
  - cbn [run fold_left].
    destruct (row_moves_on_step s e n o Hs Ho) as (o1 & H1 & Hn & Hu & Ht & Hr).
    destruct (IH o1 (step s e) (sound_step s e Hs) H1)
      as (o' & H' & Hn' & Hu' & Ht' & Hr').
    exists o'. repeat split; try congruence; try lia. exact H'.
Qed.

Lemma orders_only_move_forward_witness :
  let n := "12345678903" in
  let x := TransportFailed "timeout" in
  let before := [Upload (Some 1) (Ok n); Advance n x] in
  let after := [Upload (Some 2) (Ok n); Advance n x; Cancel n; Sweep] in
  exists o', order_row (ledger (run (run init before) after)) n = Some o' /\
             o_UserID o' = 1 /\ 1 <= status_rank (o_Status o').
Proof.
  intros n x before after.
  destruct (orders_only_move_forward before after n
              {| o_Number := n; o_UserID := 1; o_Status := "PROCESSING";
                 o_Accrual := 0; o_UploadedAt := 0 |} eq_refl)
    as (o' & H & _ & Hu & _ & Hr).
  exists o'. split; [exact H|]. split; [exact Hu | exact Hr].
Defined.

Lemma withdrawals_grow_step s e :
  exists added,
    withdrawals (ledger (step s e)) = withdrawals (ledger s) ++ added.
Proof.
  assert (Hsame : exists added,
            withdrawals (ledger s) = withdrawals (ledger s) ++ added).
  { exists []. rewrite app_nil_r. reflexivity. }
  destruct e as [userID body|m x|m| |userID req|id|seconds]; cbn [step].
  - pose proof (UploadOrder_effect (ledger s) (clock s) userID body) as H.
    destruct (handlers.UploadOrder (ledger s) (clock s) userID body)
      as [[status db'] started].
    destruct H as [[-> ->] | (uid & k & -> & Hnone & ->)]; exact Hsame.
  - unfold advance. destruct (goroutine_of s m) as [g|]; [|exact Hsame].
    destruct (g_at g) as [| |v]; [exact Hsame | | exact Hsame].
    destruct (GetOrderAccrual m x) as [[v|]|err];
      [destruct (final (a_Status v))| |]; exact Hsame.
  - exact Hsame.
  - exact Hsame.
  - destruct (handlers.withdraw_admit userID req) as [status|[[uid order] sum]];
      exact Hsame.
  - unfold withdraw_step. destruct (withdrawing_of s id) as [w|]; [|exact Hsame].
    destruct (wd_at w) as [|current|]; [exact Hsame | | ].
    + destruct (_ <? _); exact Hsame.
    + eexists. reflexivity.
  - exact Hsame.
Qed.

(** X17: the table of withdrawals only grows at its end: whatever the server
    does from any state, the records present stay the same, in the same
    order, and new ones are appended after them. *)
Theorem withdrawals_append_only (s : State) (events : list Event) :
  exists added,
    withdrawals (ledger (run s events))
    = withdrawals (ledger s) ++ added.
Proof.
  revert s. induction events as [|e events IH]; intros s.
  - exists []. rewrite app_nil_r. reflexivity.
  - cbn [run fold_left]. destruct (withdrawals_grow_step s e) as [a1 H1].
    destruct (IH (step s e)) as [a2 H2].
    exists (a1 ++ a2). unfold run in H2. rewrite H2, H1, app_assoc. reflexivity.
Qed.

End LedgerInvariants.

(** ** When a balance changes *)

Section BalanceChanges.

Import server.

Lemma spec_accrued_app rows rows' userID :
  spec_accrued (rows ++ rows') userID
  = spec_accrued rows userID + spec_accrued rows' userID.
Proof.
  induction rows as [|r rows IH]; simpl; [reflexivity | rewrite IH; lia].
Qed.

Lemma find_absent_number (rows : list Order) n :
  ~ In n (map o_Number rows) ->
  find (fun o => (o_Number o =? n)%string) rows = None.
Proof.
  induction rows as [|r rows IH]; simpl; [reflexivity|].
  intros Hnot. destruct (String.eqb_spec (o_Number r) n); [tauto|].
  apply IH. tauto.
Qed.

(** Rewriting the one row of an order that is not PROCESSED adds to the sum
    of accruals what the new row counts for. *)
Lemma spec_accrued_update (rows : list Order) n status accrual o userID :
  NoDup (map o_Number rows) ->
  find (fun r => (o_Number r =? n)%string) rows = Some o ->
  o_Status o <> StatusProcessed ->
  spec_accrued
    (map (fun r => if (o_Number r =? n)%string
                   then {| o_Number := o_Number r; o_UserID := o_UserID r;
                           o_Status := status; o_Accrual := accrual;
                           o_UploadedAt := o_UploadedAt r |}
                   else r) rows) userID
  = spec_accrued rows userID
    + (if (o_UserID o =? userID) && (status =? StatusProcessed)%string
       then accrual else 0).
Proof.
  induction rows as [|r rows IH]; [discriminate|].
  intros Hd Hfind Hst. apply NoDup_cons_iff in Hd as [Hfresh Hd].
  cbn [map find spec_accrued] in *.
  destruct (String.eqb_spec (o_Number r) n) as [E|E].
  - injection Hfind as ->.
    rewrite E in Hfresh.
    rewrite (map_update_absent rows n status accrual
               (find_absent_number rows n Hfresh)).
    cbn [o_UserID o_Status o_Accrual].
    rewrite (proj2 (String.eqb_neq (o_Status o) StatusProcessed) Hst).
    rewrite andb_false_r. lia.
  - rewrite (IH Hd Hfind Hst). lia.
Qed.

Lemma balance_unchanged_by_update db n status accrual o :
  NoDup (map o_Number (orders db)) ->
  order_row db n = Some o ->
  o_Status o <> StatusProcessed -> status <> StatusProcessed ->
  forall userID,
    spec_balance (snd (UpdateOrderStatus db n status accrual)) userID
    = spec_balance db userID.
Proof.
  intros Hd Ho Hst Hnew userID. unfold spec_balance, UpdateOrderStatus.
  cbn [snd orders withdrawals].
  rewrite (spec_accrued_update _ n status accrual o userID Hd Ho Hst).
  rewrite (proj2 (String.eqb_neq status StatusProcessed) Hnew), andb_false_r.
  f_equal; lia.
Qed.

(** X18: when the goroutine of an order writes its final verdict (with an
    accrual the column can hold), the sum of the accruals of the owner's
    PROCESSED orders, the sum the balance starts from, rises by exactly the
    stored accrual if the verdict is PROCESSED, and by nothing if it is
    INVALID; no other user's sum and nobody's sum of withdrawals changes.
    The balance [GetUserBalance] then returns is the float64 difference
    computed from these sums. *)
Theorem verdict_credits_owner (before : list Event) (n : string)
  (x : Exchange) (g : Goroutine) (v : AccrualResponse) :
  let s := run init before in
  goroutine_of s n = Some g -> g_at g = WriteFinal v ->
  fits_amount (a_Accrual v) = true ->
  exists o,
    order_row (ledger s) n = Some o /\
    forall userID,
      let after := ledger (step s (Advance n x)) in
      let credit := if (o_UserID o =? userID)
                       && (a_Status v =? StatusProcessed)%string
                    then a_Accrual v else 0 in
      query_accrual after userID StatusProcessed
      = query_accrual (ledger s) userID StatusProcessed + credit /\
      query_withdrawn after userID = query_withdrawn (ledger s) userID /\
      repository64.GetUserBalance after userID
      = repository64.balance_of
          (query_accrual (ledger s) userID StatusProcessed + credit)
          (query_withdrawn (ledger s) userID).
Proof.
  intros s Hg Hat _.
  assert (Hs : sound s) by (apply sound_run, sound_init).
  destruct (goroutine_of_found s n g Hg) as [Hin Hord].
  pose proof (goroutines_tracked s (sound_consistent s Hs)) as Ht.
  rewrite Forall_forall in Ht. destruct (Ht g Hin) as (o & Ho & Hst).
  rewrite Hord in Ho. rewrite Hat in Hst. cbn [expected_status] in Hst.
  exists o. split; [exact Ho|].
  intros userID after credit.
  assert (Ha : query_accrual after userID StatusProcessed
               = query_accrual (ledger s) userID StatusProcessed + credit).
  { unfold after. cbn [step]. rewrite (advance_WriteFinal s n x g v Hg Hat).
    cbn [ledger set_ledger set_goroutines]. rewrite !query_accrual_spec.
    unfold UpdateOrderStatus. cbn [snd orders].
    apply (spec_accrued_update _ n _ _ o userID (numbers_distinct s Hs) Ho).
    rewrite Hst. discriminate. }
  assert (Hw : query_withdrawn after userID
               = query_withdrawn (ledger s) userID).
  { unfold after. cbn [step]. rewrite (advance_WriteFinal s n x g v Hg Hat).
    reflexivity. }
  split; [exact Ha|]. split; [exact Hw|].
  unfold repository64.GetUserBalance. rewrite Ha, Hw. reflexivity.
Qed.

Lemma verdict_credits_owner_witness :
  let n := "12345678903" in
  let v := {| a_Order := n; a_Status := "PROCESSED"; a_Accrual := 50000 |} in
  let x := Responded {| StatusCode := 200; RetryAfter := "";
                        Body := Decoded v |} in
  let before := [Upload (Some 1) (Ok n); Advance n x; Advance n x] in
  query_accrual (ledger (run init before)) 1 StatusProcessed = 0 /\
  query_accrual (ledger (step (run init before) (Advance n x))) 1
    StatusProcessed = 50000 /\
  repository64.GetUserBalance
    (ledger (step (run init before) (Advance n x))) 1
  = Ok {| repository64.Current := float64.of_hundredths 50000;
          repository64.Withdrawn := float64.zero |}.
Proof.
  intros n v x before. split; [reflexivity|].
  destruct (verdict_credits_owner before n x
              {| g_order := n; g_at := WriteFinal v |} v
              eq_refl eq_refl eq_refl) as (o & Ho & H).
  assert (Eo : o = {| o_Number := n; o_UserID := 1; o_Status := "PROCESSING";
                      o_Accrual := 0; o_UploadedAt := 0 |}).
  { vm_compute in Ho. injection Ho as <-. reflexivity. }
  destruct (H 1) as (Ha & _ & Hb). rewrite Eo in Ha, Hb. split.
  - rewrite Ha. reflexivity.
  - rewrite Hb. vm_compute. reflexivity.
Defined.

(** X19: the balances change at two statements only.  Any event of the
    server other than the final write of a goroutine and the INSERT of a
    withdrawal (a submission, a sweep, the step NEW to PROCESSING, a call
    to the accrual service, the reads of a withdrawal, a cancellation)
    leaves the balance [GetUserBalance] returns for every user as it
    was. *)
Theorem balances_change_only_with_money (before : list Event) (e : Event)
  (userID : Z) :
  let s := run init before in
  moves_money s e = false ->
  GetUserBalance (ledger (step s e)) userID = GetUserBalance (ledger s) userID.
Proof.
  intros s Hm.
  assert (Hs : sound s) by (apply sound_run, sound_init).
  rewrite !GetUserBalance_spec. f_equal.
  destruct e as [uid body|m x|m| |uid req|id|seconds]; cbn [step].
  - pose proof (UploadOrder_effect (ledger s) (clock s) uid body) as H.
    destruct (handlers.UploadOrder (ledger s) (clock s) uid body)
      as [[status db'] started].
    destruct H as [[-> ->] | (u & k & -> & Hnone & ->)];
      cbn [ledger set_ledger set_goroutines]; [reflexivity|].
    unfold spec_balance. cbn [orders withdrawals].
    rewrite spec_accrued_app. simpl. rewrite andb_false_r. f_equal; lia.
  - cbn [moves_money] in Hm.
    destruct (goroutine_of s m) as [g|] eqn:Hg;
      [|rewrite (advance_absent s m x Hg); reflexivity].
    destruct (goroutine_of_found s m g Hg) as [Hin Hord].
    destruct (g_at g) as [| |v] eqn:Hat; [| |discriminate Hm].
    + rewrite (advance_SetProcessing s m x g Hg Hat).
      cbn [ledger set_ledger set_goroutines].
      pose proof (goroutines_tracked s (sound_consistent s Hs)) as Ht.
      rewrite Forall_forall in Ht. destruct (Ht g Hin) as (o & Ho & Hst).
      rewrite Hord in Ho. rewrite Hat in Hst.
      apply (balance_unchanged_by_update _ m _ _ o (numbers_distinct s Hs) Ho).
      * rewrite Hst. discriminate.
      * discriminate.
    + rewrite (advance_Fetch s m x g Hg Hat). cbv zeta.
      destruct (GetOrderAccrual m x) as [[v|]|err];
        [destruct (final (a_Status v))| |]; reflexivity.
  - reflexivity.
  - reflexivity.
  - destruct (handlers.withdraw_admit uid req) as [status|[[u order] sum]];
      reflexivity.
  - cbn [moves_money] in Hm. unfold withdraw_step.
    destruct (withdrawing_of s id) as [w|]; [|reflexivity].
    destruct (wd_at w) as [|current|]; [reflexivity | | discriminate Hm].
    destruct (_ <? _); reflexivity.
  - reflexivity.
Qed.

Lemma balances_change_only_with_money_witness :
  let n := "12345678903" in
  let before := [Upload (Some 1) (Ok n)] in
  GetUserBalance
    (ledger (step (run init before) (Advance n (TransportFailed "down")))) 1
  = GetUserBalance (ledger (run init before)) 1.
Proof.
  intros n before.
  apply (balances_change_only_with_money before). reflexivity.
Defined.

End BalanceChanges.

(** ** The listings *)

Section Listings.

Context {A : Type} (key : A -> Z).

Lemma insert_desc_perm (row : A) (sorted : list A) :
  Permutation (row :: sorted) (insert_desc key row sorted).
Proof.
  induction sorted as [|first rest IH]; simpl; [apply Permutation_refl|].
  destruct (key first <=? key row); [apply Permutation_refl|].
  eapply Permutation_trans; [apply perm_swap|].
  apply perm_skip. exact IH.
Qed.

Lemma order_by_desc_perm (rows : list A) :
  Permutation rows (order_by_desc key rows).
Proof.
  induction rows as [|row rows IH]; simpl; [constructor|].
  eapply Permutation_trans; [apply perm_skip; exact IH|].
  apply insert_desc_perm.
Qed.

Lemma insert_desc_sorted (row : A) (sorted : list A) :
  StronglySorted (fun a b => key b <= key a) sorted ->
  StronglySorted (fun a b => key b <= key a) (insert_desc key row sorted).
Proof.
  induction sorted as [|first rest IH]; intros Hs; simpl.
  - repeat constructor.
  - apply StronglySorted_inv in Hs as [Hrest Hfirst].
    destruct (Z.leb_spec (key first) (key row)) as [Hle|Hgt].
    + constructor; [constructor; assumption|].
      constructor; [exact Hle|].
      revert Hfirst. apply Forall_impl. intros b Hb. lia.
    + constructor; [apply IH; exact Hrest|].
      apply (Permutation_Forall (insert_desc_perm row rest)).
      constructor; [lia | exact Hfirst].
Qed.

Lemma order_by_desc_sorted (rows : list A) :
  StronglySorted (fun a b => key b <= key a) (order_by_desc key rows).
Proof.
  induction rows as [|row rows IH]; simpl; [constructor|].
  apply insert_desc_sorted. exact IH.
Qed.

Lemma total_perm (col : A -> Z) (l l' : list A) :
  Permutation l l' -> total col l = total col l'.
Proof.
  induction 1; simpl; try lia.
Qed.

End Listings.

Section ListingHandlers.

(** X20: [GetUserOrders] returns every order of the user exactly once and no
    order of anybody else, the most recently submitted first; so does
    [GetUserWithdrawals] for the withdrawals, the most recent first. *)
Theorem listings_complete_and_newest_first (db : DB) (userID : Z) :
  (exists listed,
     GetUserOrders db userID = Ok listed /\
     Permutation (filter (fun o => o_UserID o =? userID) (orders db)) listed /\
     StronglySorted (fun a b => o_UploadedAt b <= o_UploadedAt a) listed /\
     (forall o, In o listed <-> In o (orders db) /\ o_UserID o = userID)) /\
  (exists listed,
     GetUserWithdrawals db userID = Ok listed /\
     Permutation (filter (fun w => w_UserID w =? userID) (withdrawals db))
       listed /\
     StronglySorted (fun a b => w_ProcessedAt b <= w_ProcessedAt a) listed /\
     (forall w, In w listed <-> In w (withdrawals db) /\ w_UserID w = userID)).
Proof.
  split; eexists; (split; [reflexivity|]); repeat apply conj.
  - apply order_by_desc_perm.
  - apply order_by_desc_sorted.
  - intros o. rewrite <- (Permutation_in' eq_refl (order_by_desc_perm _ _)).
    rewrite filter_In, Z.eqb_eq. reflexivity.
  - apply order_by_desc_perm.
  - apply order_by_desc_sorted.
  - intros w. rewrite <- (Permutation_in' eq_refl (order_by_desc_perm _ _)).
    rewrite filter_In, Z.eqb_eq. reflexivity.
Qed.

Lemma total_filter_orders rows userID :
  total (fun o => if (o_Status o =? StatusProcessed)%string
                  then o_Accrual o else 0)
    (filter (fun o => o_UserID o =? userID) rows)
  = spec_accrued rows userID.
Proof.
  induction rows as [|o rows IH]; simpl; [reflexivity|].
  destruct (o_UserID o =? userID); simpl; rewrite IH; [|lia].
  destruct (o_Status o =? StatusProcessed)%string; lia.
Qed.

Lemma total_filter_withdrawals rows userID :
  total w_Sum (filter (fun w => w_UserID w =? userID) rows)
  = spec_withdrawn rows userID.
Proof.
  induction rows as [|w rows IH]; simpl; [reflexivity|].
  destruct (w_UserID w =? userID); simpl; rewrite IH; lia.
Qed.

Lemma total_map {A B : Type} (f : A -> B) (col : B -> Z) (l : list A) :
  total col (map f l) = total (fun a => col (f a)) l.
Proof. induction l as [|a l IH]; simpl; [reflexivity | rewrite IH; lia]. Qed.

Lemma length_zero_iff_nil {A : Type} (l : list A) :
  (Z.of_nat (List.length l) =? 0) = true <-> l = [].
Proof.
  destruct l; simpl; [tauto|]. split; discriminate.
Qed.

(** X21: [GetOrders] answers 204 with no body exactly when the user has no
    order, and otherwise 200 with one entry per order of the user.  An
    entry shows an accrual only for a PROCESSED order, and the accruals
    shown are, added up, the sum of the accruals of the user's PROCESSED
    orders. *)
Theorem GetOrders_listing (db : DB) (userID : Z) :
  let mine := filter (fun o => o_UserID o =? userID) (orders db) in
  (mine = [] -> handlers.GetOrders db (Some userID)
                = (http.StatusNoContent, None)) /\
  (mine <> [] ->
   exists entries,
     handlers.GetOrders db (Some userID) = (http.StatusOK, Some entries) /\
     List.length entries = List.length mine /\
     (forall e, In e entries ->
        handlers.or_Status e <> StatusProcessed -> handlers.or_Accrual e = 0) /\
     total handlers.or_Accrual entries = spec_accrued (orders db) userID).
Proof.
  intros mine.
  unfold handlers.GetOrders, GetUserOrders. fold mine.
  pose proof (order_by_desc_perm o_UploadedAt mine) as Hperm.
  split.
  - intros E. rewrite E. reflexivity.
  - intros Hne.
    destruct (Z.of_nat (List.length (order_by_desc o_UploadedAt mine)) =? 0)
      eqn:Hlen.
    { apply length_zero_iff_nil in Hlen. rewrite Hlen in Hperm.
      apply Permutation_sym, Permutation_nil in Hperm. contradiction. }
    eexists. split; [reflexivity|]. repeat apply conj.
    + rewrite length_map. symmetry. apply Permutation_length. exact Hperm.
    + intros e He Hst. apply in_map_iff in He as (o & <- & _).
      cbn [handlers.or_Status handlers.or_Accrual] in *.
      rewrite (proj2 (String.eqb_neq _ _) Hst). reflexivity.
    + rewrite total_map. cbn [handlers.or_Accrual].
      rewrite <- (total_perm _ _ _ Hperm). unfold mine.
      apply total_filter_orders.
Qed.

Lemma GetOrders_listing_witness :
  let db := {| orders := [{| o_Number := "12345678903"; o_UserID := 1;
                             o_Status := "PROCESSED"; o_Accrual := 50000;
                             o_UploadedAt := 0 |};
                          {| o_Number := "79927398713"; o_UserID := 1;
                             o_Status := "INVALID"; o_Accrual := 700;
                             o_UploadedAt := 5 |}];
               withdrawals := [] |} in
  handlers.GetOrders db (Some 2) = (http.StatusNoContent, None) /\
  fst (handlers.GetOrders db (Some 1)) = http.StatusOK.
Proof.
  intros db. split.
  - apply (proj1 (GetOrders_listing db 2)). reflexivity.
  - destruct (proj2 (GetOrders_listing db 1)) as (entries & H & _).
    + discriminate.
    + rewrite H. reflexivity.
Defined.

(** X22: [GetWithdrawals] answers 204 with no body exactly when the user has
    no withdrawal, and otherwise 200 with one entry per withdrawal of the
    user; the sums listed add up to the withdrawn total [GetUserBalance]
    reports. *)
Theorem GetWithdrawals_listing (db : DB) (userID : Z) (balance : Balance) :
  GetUserBalance db userID = Ok balance ->
  let mine := filter (fun w => w_UserID w =? userID) (withdrawals db) in
  (mine = [] -> handlers.GetWithdrawals db (Some userID)
                = (http.StatusNoContent, None)) /\
  (mine <> [] ->
   exists entries,
     handlers.GetWithdrawals db (Some userID)
     = (http.StatusOK, Some entries) /\
     List.length entries = List.length mine /\
     total handlers.wr_Sum entries = b_Withdrawn balance).
Proof.
  intros Hbal mine. rewrite GetUserBalance_spec in Hbal. injection Hbal as <-.
  unfold handlers.GetWithdrawals, GetUserWithdrawals. fold mine.
  pose proof (order_by_desc_perm w_ProcessedAt mine) as Hperm.
  split.
  - intros E. rewrite E. reflexivity.
  - intros Hne.
    destruct (Z.of_nat (List.length (order_by_desc w_ProcessedAt mine)) =? 0)
      eqn:Hlen.
    { apply length_zero_iff_nil in Hlen. rewrite Hlen in Hperm.
      apply Permutation_sym, Permutation_nil in Hperm. contradiction. }
    eexists. split; [reflexivity|]. split.
    + rewrite length_map. symmetry. apply Permutation_length. exact Hperm.
    + rewrite total_map. cbn [handlers.wr_Sum].
      rewrite <- (total_perm _ _ _ Hperm). unfold mine.
      rewrite total_filter_withdrawals. reflexivity.
Qed.

Lemma GetWithdrawals_listing_witness :
  let db := {| orders := [];
               withdrawals := [{| w_UserID := 1; w_Order := "12345678903";
                                  w_Sum := 0; w_ProcessedAt := 0 |}] |} in
  handlers.GetWithdrawals db (Some 2) = (http.StatusNoContent, None).
Proof.
  intros db.
  apply (proj1 (GetWithdrawals_listing db 2 _ eq_refl)). reflexivity.
Defined.

End ListingHandlers.

(** ** Tokens and users *)

Section Authentication.

Lemma substring_whole s : substring 0 (String.length s) s = s.
Proof. induction s as [|c s IH]; simpl; [reflexivity | rewrite IH; reflexivity]. Qed.

Lemma extractToken_bearer token cookie :
  middleware.extractToken (middleware.bearerSchema ++ token) cookie = token.
Proof.
  unfold middleware.extractToken, middleware.TrimPrefix,
    middleware.HasPrefix, middleware.bearerSchema.
  simpl. assert (E : prefix "" token = true) by (destruct token; reflexivity).
  rewrite E, Nat.sub_0_r. apply substring_whole.
Qed.

(** X23: [extractToken] gives back the token from the header the handlers
    set, "Bearer " followed by the token, whatever cookie comes with it,
    even when the token is empty; a header that does not start with
    "Bearer " is ignored in favour of the cookie, and without cookie the
    result is empty. *)
Theorem extractToken_reads_bearer (token authHeader : string)
  (cookie : option string) :
  middleware.extractToken (middleware.bearerSchema ++ token) cookie = token /\
  (middleware.HasPrefix authHeader middleware.bearerSchema = false ->
   middleware.extractToken authHeader cookie
   = match cookie with Some value => value | None => "" end).
Proof.
  split.
  - apply extractToken_bearer.
  - intros H. unfold middleware.extractToken. rewrite H, andb_false_r.
    reflexivity.
Qed.

Lemma extractToken_reads_bearer_witness :
  middleware.extractToken "Basic dXNlcjpwYXNz" (Some "abc.def.ghi")
  = "abc.def.ghi".
Proof.
  apply (proj2 (extractToken_reads_bearer "" "Basic dXNlcjpwYXNz"
                  (Some "abc.def.ghi"))).
  reflexivity.
Defined.

Lemma AuthMiddleware_passes parse users authHeader cookie userID u :
  middleware.extractToken authHeader cookie <> "" ->
  parse (middleware.extractToken authHeader cookie) = Some userID ->
  GetUserByID users userID = Ok (Some u) ->
  middleware.AuthMiddleware parse users authHeader cookie = inr userID.
Proof.
  intros Hne Hp Hu. unfold middleware.AuthMiddleware.
  rewrite (proj2 (String.eqb_neq _ _) Hne), Hp, Hu. reflexivity.
Qed.

(** X24: [AuthMiddleware] hands a request on, with a user id in its context,
    exactly when the request carries a non-empty token that the token
    library accepts for that id and a user with that id is in the table;
    every other request is answered 401. *)
Theorem AuthMiddleware_passes_iff (parse : string -> option Z)
  (users : Users) (authHeader : string) (cookie : option string) :
  let token := middleware.extractToken authHeader cookie in
  (forall userID,
     middleware.AuthMiddleware parse users authHeader cookie = inr userID <->
     token <> "" /\ parse token = Some userID /\
     exists u, GetUserByID users userID = Ok (Some u) /\ u_ID u = userID) /\
  (forall status,
     middleware.AuthMiddleware parse users authHeader cookie = inl status ->
     status = http.StatusUnauthorized).
Proof.
  intros token. unfold middleware.AuthMiddleware. fold token.
  unfold GetUserByID. split.
  - intros userID. split.
    + destruct (String.eqb_spec token "") as [E|E]; [discriminate|].
      destruct (parse token) as [id|]; [|discriminate].
      destruct (find (fun u => u_ID u =? id) (user_rows users)) as [u|] eqn:Hf;
        [|discriminate].
      intros [= <-]. repeat split; try assumption.
      exists u. split; [rewrite Hf; reflexivity|].
      apply find_some in Hf as [_ Hid]. apply Z.eqb_eq. exact Hid.
    + intros (Hne & Hp & u & Hu & _).
      fold (GetUserByID users userID).
      exact (AuthMiddleware_passes parse users authHeader cookie userID u
               Hne Hp Hu).
  - intros status.
    destruct (token =? "")%string; [intros [= <-]; reflexivity|].
    destruct (parse token) as [id|]; [|intros [= <-]; reflexivity].
    destruct (find _ _); [discriminate | intros [= <-]; reflexivity].
Qed.

Lemma AuthMiddleware_passes_iff_witness :
  let users := snd (CreateUser no_users 0 "gopher" "hash") in
  let parse := fun t : string => if (t =? "abc.def.ghi")%string
                                 then Some 1 else None in
  middleware.AuthMiddleware parse users "Bearer abc.def.ghi" None = inr 1.
Proof.
  intros users parse.
  apply (proj1 (AuthMiddleware_passes_iff parse users "Bearer abc.def.ghi" None)).
  split; [discriminate|]. split; [reflexivity|].
  eexists. split; reflexivity.
Defined.

Lemma users_ok_empty : users_ok no_users.
Proof. split; simpl; constructor. Qed.

Lemma CreateUser_keeps_ok users now login hash :
  users_ok users -> users_ok (snd (CreateUser users now login hash)).
Proof.
  intros [Hl Hi Hs]. unfold CreateUser.
  destruct (existsb (fun u => (u_Login u =? login)%string) (user_rows users))
    eqn:E; cbn [snd user_rows user_seq].
  - split; cbn [user_rows user_seq]; try assumption.
    revert Hs. apply Forall_impl. intros u. lia.
  - split; cbn [user_rows user_seq].
    + rewrite map_app. apply NoDup_app; [exact Hl | repeat constructor; auto|].
      intros k Hk [<-|[]]. cbn [u_Login] in Hk.
      apply in_map_iff in Hk as (u & Hu & Hin).
      assert (existsb (fun u => (u_Login u =? login)%string) (user_rows users)
              = true).
      { apply existsb_exists. exists u. split; [exact Hin|].
        apply String.eqb_eq. exact Hu. }
      congruence.
    + rewrite map_app. apply NoDup_app; [exact Hi | repeat constructor; auto|].
      intros k Hk [<-|[]]. cbn [u_ID] in Hk.
      apply in_map_iff in Hk as (u & Hu & Hin).
      rewrite Forall_forall in Hs. specialize (Hs u Hin). lia.
    + apply Forall_app. split.
      * revert Hs. apply Forall_impl. intros u. lia.
      * constructor; [cbn [u_ID]; lia | constructor].
Qed.

(** X25: whatever series of calls of [CreateUser] is made on the empty
    table, also calls that fail, no two users share a login and no two
    users share an id. *)
Theorem users_stay_distinct (calls : list (Z * string * string)) :
  let users := create_users no_users calls in
  NoDup (map u_Login (user_rows users)) /\
  NoDup (map u_ID (user_rows users)).
Proof.
  intros users.
  assert (H : users_ok users).
  { unfold users, create_users. generalize users_ok_empty.
    generalize no_users. induction calls as [|[[now login] hash] calls IH];
      intros t Ht; simpl; [exact Ht|].
    apply IH. apply CreateUser_keeps_ok. exact Ht. }
  destruct H as [Hl Hi _]. split; assumption.
Qed.

Lemma find_user_appended (rows : list User) u :
  Forall (fun v => u_ID v < u_ID u) rows ->
  find (fun v => u_ID v =? u_ID u) (rows ++ [u]) = Some u.
Proof.
  intros H. rewrite find_app_none.
  - simpl. rewrite Z.eqb_refl. reflexivity.
  - induction H as [|v rows Hv _ IH]; simpl; [reflexivity|].
    destruct (Z.eqb_spec (u_ID v) (u_ID u)); [lia | exact IH].
Qed.

(** X26: registering a login the table does not hold succeeds (for a login
    and a hash the columns can hold): [RegisterUser] answers 200 with the
    header "Bearer " + token; afterwards the user is found by login and by
    id with the given password hash, the users present before are still
    found, [LoginUser] with the same credentials answers 200 when bcrypt
    accepts the password for the stored hash, a request with the header set
    passes [AuthMiddleware] when the token is the new user's, and a second
    registration of the login is answered 409 without changing the
    table. *)
Theorem register_then_login (users : Users) (now later : Z)
  (creds : handlers.Credentials) (hash token token' : string)
  (hashed' issued' : result string)
  (compare : string -> string -> bool) (parse : string -> option Z)
  (cookie : option string) :
  users_ok users ->
  fits_text (handlers.Login creds) = true -> fits_text hash = true ->
  handlers.Login creds <> "" -> handlers.Password creds <> "" ->
  GetUserByLogin users (handlers.Login creds) = Ok None ->
  let id := user_seq users in
  let u := {| u_ID := id; u_Login := handlers.Login creds;
              u_PasswordHash := hash; u_CreatedAt := now |} in
  let users' := {| user_rows := user_rows users ++ [u];
                   user_seq := id + 1 |} in
  handlers.RegisterUser users now (Ok creds) (Ok hash) (Ok token)
  = (http.StatusOK, users', Some ("Bearer " ++ token)%string) /\
  GetUserByLogin users' (handlers.Login creds) = Ok (Some u) /\
  GetUserByID users' id = Ok (Some u) /\
  (forall login v, GetUserByLogin users login = Ok (Some v) ->
                   GetUserByLogin users' login = Ok (Some v)) /\
  (compare hash (handlers.Password creds) = true ->
   handlers.LoginUser users' (Ok creds) compare (Ok token')
   = (http.StatusOK, Some ("Bearer " ++ token')%string)) /\
  (token <> "" -> parse token = Some id ->
   middleware.AuthMiddleware parse users' ("Bearer " ++ token)%string cookie
   = inr id) /\
  handlers.RegisterUser users' later (Ok creds) hashed' issued'
  = (http.StatusConflict, users', None).
Proof.
  intros [Hl Hi Hs] _ _ Hlogin Hpw Hfree id u users'.
  unfold GetUserByLogin in Hfree. injection Hfree as Hfree.
  assert (Hne : (handlers.Login creds =? "")%string
                || (handlers.Password creds =? "")%string = false).
  { rewrite (proj2 (String.eqb_neq _ _) Hlogin),
      (proj2 (String.eqb_neq _ _) Hpw). reflexivity. }
  assert (Hex : existsb (fun v => (u_Login v =? handlers.Login creds)%string)
                  (user_rows users) = false).
  { destruct (existsb _ (user_rows users)) eqn:E; [|reflexivity].
    apply existsb_exists in E as (v & Hin & Hv).
    pose proof (find_none _ _ Hfree v Hin) as H. simpl in H. congruence. }
  assert (Hfound : GetUserByLogin users' (handlers.Login creds) = Ok (Some u)).
  { unfold GetUserByLogin, users'. cbn [user_rows].
    rewrite (find_app_none _ _ _ Hfree). simpl. rewrite String.eqb_refl.
    reflexivity. }
  assert (Hbyid : GetUserByID users' id = Ok (Some u)).
  { unfold GetUserByID, users'. cbn [user_rows]. f_equal.
    apply (find_user_appended (user_rows users) u). exact Hs. }
  repeat apply conj.
  - unfold handlers.RegisterUser. rewrite Hne.
    unfold GetUserByLogin. rewrite Hfree. unfold CreateUser. rewrite Hex.
    reflexivity.
  - exact Hfound.
  - exact Hbyid.
  - intros login v Hv. unfold GetUserByLogin in *. injection Hv as Hv.
    f_equal. unfold users'. cbn [user_rows]. apply find_app_some. exact Hv.
  - intros Hcmp. unfold handlers.LoginUser. rewrite Hne, Hfound.
    cbn [u_PasswordHash u]. rewrite Hcmp. reflexivity.
  - intros Htok Hparse.
    pose proof (extractToken_bearer token cookie) as Hx.
    unfold middleware.bearerSchema in Hx.
    apply (AuthMiddleware_passes parse users' _ cookie id u);
      [rewrite Hx; exact Htok | rewrite Hx; exact Hparse | exact Hbyid].
  - unfold handlers.RegisterUser. rewrite Hne, Hfound. reflexivity.
Qed.

End Authentication.

Lemma register_then_login_witness :
  let creds := {| handlers.Login := "gopher"; handlers.Password := "secret" |} in
  let users' := {| user_rows := [{| u_ID := 1; u_Login := "gopher";
                                    u_PasswordHash := "hash";
                                    u_CreatedAt := 7 |}];
                   user_seq := 2 |} in
  handlers.RegisterUser no_users 7 (Ok creds) (Ok "hash") (Ok "abc")
  = (http.StatusOK, users', Some "Bearer abc") /\
  handlers.RegisterUser users' 9 (Ok creds) (Ok "other") (Ok "def")
  = (http.StatusConflict, users', None).
Proof.
  intros creds users'.
  destruct (register_then_login no_users 7 9 creds "hash" "abc" "abc"
              (Ok "other") (Ok "def") String.eqb (fun _ => None) None
              users_ok_empty eq_refl eq_refl)
    as (H1 & _ & _ & _ & _ & _ & H7).
  - discriminate.
  - discriminate.
  - reflexivity.
  - split; [exact H1 | exact H7].
Defined.
